(** * NBOS: the Charter gate and the Synergy orchestrator

    A shallow embedding of [src/charter/charter.py] (class [CharterLayer])
    and of [src/synergy_engine/core.py] (class [SynergyEngine]), with the
    [_audit] method of [src/core/base.py]; and, each in a module of its
    own, of the governance modules [src/nbos/governance/bias_detection.py],
    [src/governance/privacy_preservation.py] and
    [src/governance/explainability.py].

    Conventions of the embedding:
    - Python values are the inductive [PyVal]; a [dict] with string keys is
      a [gmap string _]; a [list] is a [list].
    - Python [str] is [string], the bytes of the text in UTF-8.
      [py_lower] lower-cases the ASCII letters, which is what [str.lower]
      does on an ASCII text (all keyword tables of the source are ASCII).
      Outside ASCII [str.lower] gives an ASCII letter for two characters
      only, U+212A (to 'k') and U+0130 (to 'i' and U+0307); of the
      keywords only "kill" can arise this way, so the verdict of SAFETY
      is stated for ASCII texts.
    - Python [float] is modelled by the exact rational it denotes ([Q]):
      [k / 5], [V / N], [1.0 - r] and the comparisons with [0.7] and [0.1]
      are the rational ones. The mean of several floats (the score of
      [_process_through_drs], the averages of
      [audit_explanation_quality]) is the exact one, without the
      rounding of the float additions; what is stated of such a mean is
      a bound that the rounded mean keeps.
    - An exception is a value of [PyExc], which stands for the classes
      derived from [Exception] (what [except Exception] catches); a
      function that can raise returns a [Result]; the objects' fields are
      threaded as explicit state.
    - The coroutines are run to completion, one call after the other;
      cancellation of a coroutine is not modelled.
    - Calls to [logger] have no effect on the state and are left out. *)

From Stdlib Require Import QArith Qabs Lqa Ascii String.
From stdpp Require Import gmap strings list fin_maps sorting.

Open Scope string_scope.
#[local] Set Warnings "-register-all".

(** ** Python values *)

Inductive PyVal : Type :=
  | PyNone
  | PyBool (b : bool)
  | PyInt (z : Z)
  | PyFloat (q : Q)
  | PyStr (s : string)
  | PyList (l : list PyVal)
  | PyDict (d : gmap string PyVal)
  | PyObject (id : nat).

(** [bool(v)]: the truth value Python gives to [v] in [if v], [v and w]
    and [not v]. *)
Definition truthy (v : PyVal) : bool :=
  match v with
  | PyNone => false
  | PyBool b => b
  | PyInt z => negb (Z.eqb z 0)
  | PyFloat q => negb (Qeq_bool q 0)
  | PyStr s => negb (String.eqb s "")
  | PyList l => negb (Nat.eqb (length l) 0)
  | PyDict d => negb (Nat.eqb (size d) 0)
  | PyObject _ => true
  end.

(** Exceptions: [CharterViolationError(msg)], and any other subclass of
    [Exception], with its class name and message. *)
Inductive PyExc : Type :=
  | CharterViolationError (msg : string)
  | Exception (cls : string) (msg : string).

Inductive Result (A : Type) : Type :=
  | Ok (a : A)
  | Raise (e : PyExc).
Arguments Ok {A} a.
Arguments Raise {A} e.

(** [Dict] is the type of a Python dict with [str] keys. *)
Abbreviation Dict := (gmap string PyVal).

(** [d.get(k, default)]. *)
Definition dict_get (d : Dict) (k : string) (default : PyVal) : PyVal :=
  match d !! k with
  | Some v => v
  | None => default
  end.

(** [k in d] for a dict. *)
Definition dict_has (d : Dict) (k : string) : bool :=
  match d !! k with
  | Some _ => true
  | None => false
  end.

(** [to_float v]: the number [v] denotes, for the three numeric types. *)
Definition to_float (v : PyVal) : option Q :=
  match v with
  | PyBool b => Some (if b then 1 else 0)%Q
  | PyInt z => Some (inject_Z z)
  | PyFloat q => Some q
  | _ => None
  end.

Definition Qlt_bool (x y : Q) : bool := negb (Qle_bool y x).

(** [v > bound] against a float literal: numbers compare by value, every
    other type raises [TypeError]. *)
Definition py_gt (v : PyVal) (bound : Q) : Result bool :=
  match to_float v with
  | Some x => Ok (Qlt_bool bound x)
  | None => Raise (Exception "TypeError" "'>' not supported")
  end.

(** ** Strings *)

Definition lower_ascii (c : ascii) : ascii :=
  let n := nat_of_ascii c in
  if (Nat.leb 65 n && Nat.leb n 90)%bool then ascii_of_nat (n + 32) else c.

(** [s.lower()] on an ASCII text: the letters A to Z are lower-cased,
    every other byte is kept. *)
Fixpoint py_lower (s : string) : string :=
  match s with
  | EmptyString => EmptyString
  | String c r => String (lower_ascii c) (py_lower r)
  end.

Fixpoint starts_with (needle hay : string) : bool :=
  match needle, hay with
  | EmptyString, _ => true
  | String _ _, EmptyString => false
  | String a n', String b h' => Ascii.eqb a b && starts_with n' h'
  end.

(** [needle in hay] on [str]: [needle] occurs as a substring of [hay]. *)
Fixpoint py_in (needle hay : string) : bool :=
  starts_with needle hay ||
  match hay with
  | EmptyString => false
  | String _ h' => py_in needle h'
  end.

(** The declarative reading of "the text contains the token": the token
    occurs in the text, letter case ignored (the checks compare against
    the lower-cased text). *)
Definition occurs_in (tok text : string) : Prop :=
  ∃ pre post, text = pre ++ tok ++ post.

Definition contains_token (tok text : string) : Prop :=
  occurs_in tok (py_lower text).

(** ** The candidate output

    [verify_output] takes [output : Any]. The checks look at it in three
    ways only: [hasattr(output, name)], [isinstance(output, str)] and
    [isinstance(output, dict)]. A candidate is therefore a value together
    with the names of the attributes it exposes ([hasattr] answers from
    that list; the built-in types have none of the four names asked for). *)
Record Candidate : Type := {
  cand_attrs : list string;
  cand_value : PyVal
}.

Definition hasattr (o : Candidate) (name : string) : bool :=
  bool_decide (name ∈ cand_attrs o).

Definition Text (s : string) : Candidate :=
  {| cand_attrs := []; cand_value := PyStr s |}.
Definition Mapping (d : Dict) : Candidate :=
  {| cand_attrs := []; cand_value := PyDict d |}.

(** ** charter.py *)

Inductive EthicalPrinciple : Type :=
  | NO_DECEPTION
  | HUMAN_DIGNITY
  | FAIRNESS
  | TRANSPARENCY
  | SAFETY.

Definition value (p : EthicalPrinciple) : string :=
  match p with
  | NO_DECEPTION => "no_deception"
  | HUMAN_DIGNITY => "human_dignity"
  | FAIRNESS => "fairness"
  | TRANSPARENCY => "transparency"
  | SAFETY => "safety"
  end.

Record OutputVerification : Type := {
  passed : bool;
  principle_results : gmap string bool;
  violations : list string;
  timestamp : string;
  confidence : Q
}.

Definition deception_markers : list string :=
  ["guaranteed"; "definite"; "absolutely certain"; "impossible"].
Definition sensitive_keywords : list string :=
  ["password"; "ssn"; "credit card"; "private medical"].
Definition protected_attributes : list string :=
  ["race"; "gender"; "religion"; "disability"; "age"].
Definition discriminatory_phrases : list string :=
  ["should not"; "incapable"; "unfit"; "inferior"].
Definition harmful_keywords : list string :=
  ["kill"; "harm"; "violence"; "illegal"; "exploit"; "abuse"].

Definition _check_honesty (output : Candidate) (context : Dict) : Result bool :=
  if hasattr output "confidence" || hasattr output "uncertainty" then Ok true
  else
    match cand_value output with
    | PyStr s =>
        if existsb (λ marker, py_in (py_lower marker) (py_lower s))
                   deception_markers
        then Ok false else Ok true
    | _ => Ok true
    end.

Definition _check_dignity (output : Candidate) (context : Dict) : Result bool :=
  let leaks :=
    match cand_value output with
    | PyStr s =>
        let output_lower := py_lower s in
        existsb (λ keyword, py_in keyword output_lower) sensitive_keywords
    | _ => false
    end in
  if leaks then Ok false
  else
    let user_id := dict_get context "user_id" PyNone in
    if truthy user_id && truthy (dict_get context "requires_consent" PyNone)
    then
      let consent_given := dict_get context "consent_given" (PyBool false) in
      if negb (truthy consent_given) then Ok false else Ok true
    else Ok true.

Definition _check_fairness (output : Candidate) (context : Dict) : Result bool :=
  match cand_value output with
  | PyStr s =>
      let output_lower := py_lower s in
      if existsb (λ phrase,
            py_in phrase output_lower &&
            existsb (λ attr, py_in attr output_lower) protected_attributes)
          discriminatory_phrases
      then Ok false else Ok true
  | _ => Ok true
  end.

Definition _check_transparency (output : Candidate) (context : Dict)
  : Result bool :=
  if hasattr output "reasoning" || hasattr output "explanation" then Ok true
  else
    let in_dict :=
      match cand_value output with
      | PyDict d => dict_has d "reasoning" || dict_has d "explanation"
      | _ => false
      end in
    if in_dict then Ok true
    else if truthy (dict_get context "is_complex_decision" (PyBool false))
    then Ok false
    else Ok true.

Definition _check_safety (output : Candidate) (context : Dict) : Result bool :=
  let blocked :=
    match cand_value output with
    | PyStr s =>
        let output_lower := py_lower s in
        existsb (λ keyword,
            py_in keyword output_lower &&
            negb (truthy (dict_get context "safety_discussion" (PyBool false))))
          harmful_keywords
    | _ => false
    end in
  if blocked then Ok false
  else
    (* the escalation branch only logs; the comparison can raise *)
    match py_gt (dict_get context "uncertainty_level" (PyInt 0)) (7 # 10) with
    | Raise e => Raise e
    | Ok _ => Ok true
    end.

(** A check takes the candidate and the context and returns a bool, or
    raises. *)
Definition CheckFn : Type := Candidate → Dict → Result bool.

(** The dict [self.charter_rules]: its keys are the five members of the
    enumeration, in the insertion order [principles]; a table of checks
    is a function from the keys. *)
Definition principles : list EthicalPrinciple :=
  [NO_DECEPTION; HUMAN_DIGNITY; FAIRNESS; TRANSPARENCY; SAFETY].

Definition charter_rules (p : EthicalPrinciple) : CheckFn :=
  match p with
  | NO_DECEPTION => _check_honesty
  | HUMAN_DIGNITY => _check_dignity
  | FAIRNESS => _check_fairness
  | TRANSPARENCY => _check_transparency
  | SAFETY => _check_safety
  end.

Record CharterLayer : Type := {
  verification_log : list OutputVerification
}.

(** [CharterLayer.__init__] *)
Definition CharterLayer_init : CharterLayer := {| verification_log := [] |}.

(** [sum(d.values())], [all(d.values())] and [len(d)] on a dict of bools. *)
Definition py_sum (d : gmap string bool) : nat :=
  map_fold (λ _ (b : bool) n, n + Nat.b2n b) 0 d.
Definition py_all (d : gmap string bool) : bool :=
  map_fold (λ _ (b : bool) acc, acc && b) true d.

(** [a / b] on two ints: true division, [ZeroDivisionError] on [b = 0]. *)
Definition true_div (a b : nat) : Q := Qred (Z.of_nat a # Pos.of_nat b).

Definition py_truediv (a b : nat) : Result Q :=
  match b with
  | O => Raise (Exception "ZeroDivisionError" "division by zero")
  | S _ => Ok (true_div a b)
  end.

(** [repr] of a list of [str] (none of the strings built here holds a
    quote or an escape): ['a', 'b']. *)
Fixpoint join_repr (l : list string) : string :=
  match l with
  | [] => ""
  | [x] => "'" ++ x ++ "'"
  | x :: r => "'" ++ x ++ "', " ++ join_repr r
  end.
Definition py_repr (l : list string) : string := "[" ++ join_repr l ++ "]".

(** The two reasons the loop records: f"Violated: {principle.value}" and
    f"Check failed: {principle.value}". *)
Definition violated (p : EthicalPrinciple) : string :=
  "Violated: " ++ value p.
Definition check_failed (p : EthicalPrinciple) : string :=
  "Check failed: " ++ value p.

(** The body of the [for principle, check_func in ...] loop of
    [verify_output], with its [try] / [except Exception]. *)
Definition check_one (rules : EthicalPrinciple → CheckFn)
    (output : Candidate) (context : Dict)
    (acc : gmap string bool * list string) (principle : EthicalPrinciple)
  : gmap string bool * list string :=
  let '(principle_results, violations) := acc in
  match rules principle output context with
  | Ok passed =>
      (<[value principle := passed]> principle_results,
       if negb passed
       then (violations ++ [violated principle])%list
       else violations)
  | Raise e =>
      (<[value principle := false]> principle_results,
       (violations ++ [check_failed principle])%list)
  end.

Definition run_checks (rules : EthicalPrinciple → CheckFn)
    (output : Candidate) (context : Dict)
  : gmap string bool * list string :=
  foldl (check_one rules output context) (∅, []) principles.

(** [verify_output], over any table of checks. [now] is what
    [datetime.now().isoformat()] returns during the call; [context = None]
    is the default argument. *)
Definition verify_output_with (rules : EthicalPrinciple → CheckFn)
    (self : CharterLayer) (now : string)
    (output : Candidate) (context : option Dict)
  : Result OutputVerification * CharterLayer :=
  let context := default ∅ context in
  let '(principle_results, violations) := run_checks rules output context in
  let all_passed := py_all principle_results in
  match py_truediv (py_sum principle_results) (size principle_results) with
  | Raise e => (Raise e, self)
  | Ok conf =>
      let verification :=
        {| passed := all_passed;
           principle_results := principle_results;
           violations := violations;
           timestamp := now;
           confidence := conf |} in
      let self' :=
        {| verification_log :=
             (verification_log self ++ [verification])%list |} in
      if negb all_passed
      then (Raise (CharterViolationError
                     ("Output violates charter: " ++ py_repr violations)),
            self')
      else (Ok verification, self')
  end.

Definition verify_output := verify_output_with charter_rules.

(** [get_verification_history]: a copy of the log; the gate is unchanged. *)
Definition get_verification_history (self : CharterLayer)
  : list OutputVerification * CharterLayer :=
  (verification_log self, self).

(** What one check contributes, read off its outcome. *)
Definition check_passed (r : Result bool) : bool :=
  match r with
  | Ok b => b
  | Raise _ => false
  end.

Definition check_reason (p : EthicalPrinciple) (r : Result bool)
  : option string :=
  match r with
  | Ok true => None
  | Ok false => Some (violated p)
  | Raise _ => Some (check_failed p)
  end.

(** The closed form of the loop, used to state what a call records:
    [passes] is what [principle_results] stores for a principle, [reason]
    the entry the loop appends to [violations] for it, if any. *)
Definition passes (rules : EthicalPrinciple → CheckFn)
    (output : Candidate) (context : Dict) (p : EthicalPrinciple) : bool :=
  check_passed (rules p output context).

Definition reason (rules : EthicalPrinciple → CheckFn)
    (output : Candidate) (context : Dict) (p : EthicalPrinciple)
  : option string :=
  check_reason p (rules p output context).

Definition record_result (rules : EthicalPrinciple → CheckFn)
    (output : Candidate) (context : Dict)
    (m : gmap string bool) (p : EthicalPrinciple) : gmap string bool :=
  <[value p := passes rules output context p]> m.

(** Number of principles of [ps] whose check returned [True]. *)
Definition count_passed (rules : EthicalPrinciple → CheckFn)
    (output : Candidate) (context : Dict) (ps : list EthicalPrinciple) : nat :=
  length (List.filter (passes rules output context) ps).

Definition built_record (rules : EthicalPrinciple → CheckFn) (now : string)
    (output : Candidate) (context : Dict) : OutputVerification :=
  {| passed := forallb (passes rules output context) principles;
     principle_results := foldl (record_result rules output context) ∅ principles;
     violations := omap (reason rules output context) principles;
     timestamp := now;
     confidence :=
       Qred (Z.of_nat (count_passed rules output context principles) # 5) |}.

Definition veto (r : OutputVerification) : PyExc :=
  CharterViolationError ("Output violates charter: " ++ py_repr (violations r)).

(** The gate's operations, to speak of every history the gate can have. *)
Inductive GateOp : Type :=
  | OpVerify (now : string) (output : Candidate) (context : option Dict)
  | OpHistory.

Definition run_op (self : CharterLayer) (op : GateOp) : CharterLayer :=
  match op with
  | OpVerify now output context => snd (verify_output self now output context)
  | OpHistory => snd (get_verification_history self)
  end.

Definition run_ops (self : CharterLayer) (ops : list GateOp) : CharterLayer :=
  foldl run_op self ops.

Definition is_verify (op : GateOp) : bool :=
  match op with
  | OpVerify _ _ _ => true
  | OpHistory => false
  end.

(** A candidate "exposes an explicit confidence or uncertainty indicator":
    as an attribute, or as a named field of a mapping. *)
Definition exposes_indicator (o : Candidate) : Prop :=
  "confidence" ∈ cand_attrs o ∨ "uncertainty" ∈ cand_attrs o ∨
  ∃ d, cand_value o = PyDict d ∧
       (is_Some (d !! "confidence") ∨ is_Some (d !! "uncertainty")).

(** Inputs used in the statements below. *)
Definition deny_50000 : Dict :=
  <["decision" := PyStr "deny"]> (<["amount" := PyInt 50000]> ∅).
Definition complex_decision : Dict :=
  <["is_complex_decision" := PyBool true]> ∅.
Definition test_output : string :=
  "This is a test output with confidence level 0.85".
Definition uncertainty_high : Dict :=
  <["uncertainty_level" := PyStr "high"]> ∅.
Definition consent_required : Dict :=
  <["requires_consent" := PyBool true]> ∅.
Definition consent_required_of_user : Dict :=
  <["user_id" := PyStr "u1"]> (<["requires_consent" := PyBool true]> ∅).

(** ** core/base.py and synergy_engine/core.py *)

Record ModuleConfig : Type := {
  name : string;
  version : string;
  enabled : bool;
  governance_level : string;
  audit_enabled : bool;
  max_latency_ms : Z;
  metadata : Dict
}.

(** One entry of [audit_log] (a dict with these four keys). *)
Record AuditEntry : Type := {
  entry_timestamp : string;
  entry_module : string;
  entry_event : string;
  entry_details : Dict
}.

(** The dict [self.system_state]; its four keys are fixed. *)
Record SystemState : Type := {
  alignment_score : Q;
  coherence_level : Q;
  ethical_drift_detected : bool;
  last_synthesis : option string
}.

(** The part of a [BiasMetric] the engine reads. *)
Record BiasMetric : Type := {
  protected_attribute : string;
  disparity_ratio : Q;
  threshold : Q;
  violates_threshold : bool
}.

(** One reading of [datetime.now()]: its [isoformat()] and the text of
    its [timestamp()]. *)
Record Instant : Type := {
  isoformat : string;
  timestamp_text : string
}.

(** What a governance module answers: a value, or an exception of its
    own (none of them raises [CharterViolationError]). *)
Inductive Reply (A : Type) : Type :=
  | Returned (a : A)
  | Failed (cls : string) (msg : string).
Arguments Returned {A} a.
Arguments Failed {A} cls msg.

(** The governance modules the engine calls ([PrivacyPreservationModule],
    [BiasDetectionModule], [ExplainabilityModule]) and the environment
    ([datetime.now], [str]). They keep a state [Sv] of their own (privacy
    budget and logs, bias metrics, explanation log); the engine only
    calls them. Regular expressions, hashing and random noise are behind
    this interface. *)
Class Collaborators (Sv : Type) : Type := {
  sanitize_input : PyVal → Sv → Reply PyVal * Sv;
  analyze_output : PyVal → PyVal → Sv → Reply (list BiasMetric) * Sv;
  add_differential_privacy_noise : Q → PyVal → Sv → Reply Q * Sv;
  generate_explanation : PyVal → PyVal → PyVal → Sv → Reply Dict * Sv;
  clock : nat → Instant;
  py_str : PyVal → string
}.

(** [d[k] = v] on a dict whose keys are arbitrary hashable values: the
    dict is the list of its items in insertion order; assigning to a key
    equal to an existing one replaces the value in place. *)
Definition py_key_eqb (a b : PyVal) : bool :=
  match to_float a, to_float b with
  | Some x, Some y => Qeq_bool x y
  | _, _ =>
      match a, b with
      | PyNone, PyNone => true
      | PyStr s, PyStr t => String.eqb s t
      | PyObject i, PyObject j => Nat.eqb i j
      | _, _ => false
      end
  end.

Definition hashable (k : PyVal) : bool :=
  match k with
  | PyList _ | PyDict _ => false
  | _ => true
  end.

Fixpoint setitem (k v : PyVal) (items : list (PyVal * PyVal))
  : list (PyVal * PyVal) :=
  match items with
  | [] => [(k, v)]
  | (k', v') :: rest =>
      if py_key_eqb k' k then (k', v) :: rest
      else (k', v') :: setitem k v rest
  end.

Fixpoint getitem (k : PyVal) (items : list (PyVal * PyVal)) : option PyVal :=
  match items with
  | [] => None
  | (k', v') :: rest => if py_key_eqb k' k then Some v' else getitem k rest
  end.

(** The engine with what it owns: [CharterLayer], the governance modules
    (their joint state [services]), the task map, the system state, the
    audit log of [BaseNeuralModule]; [ticks] counts the readings of the
    clock made so far. *)
Record SynergyEngine (Sv : Type) : Type := {
  config : ModuleConfig;
  audit_log : list AuditEntry;
  charter_layer : CharterLayer;
  services : Sv;
  active_tasks : list (PyVal * PyVal);
  system_state : SystemState;
  ticks : nat
}.
Arguments config {Sv} _.
Arguments audit_log {Sv} _.
Arguments charter_layer {Sv} _.
Arguments services {Sv} _.
Arguments active_tasks {Sv} _.
Arguments system_state {Sv} _.
Arguments ticks {Sv} _.

Section Fields.
Context {Sv : Type}.
Implicit Type self : SynergyEngine Sv.

Definition set_audit_log (l : list AuditEntry) self : SynergyEngine Sv :=
  {| config := config self; audit_log := l;
     charter_layer := charter_layer self; services := services self;
     active_tasks := active_tasks self; system_state := system_state self;
     ticks := ticks self |}.
Definition set_charter_layer (g : CharterLayer) self : SynergyEngine Sv :=
  {| config := config self; audit_log := audit_log self;
     charter_layer := g; services := services self;
     active_tasks := active_tasks self; system_state := system_state self;
     ticks := ticks self |}.
Definition set_services (sv : Sv) self : SynergyEngine Sv :=
  {| config := config self; audit_log := audit_log self;
     charter_layer := charter_layer self; services := sv;
     active_tasks := active_tasks self; system_state := system_state self;
     ticks := ticks self |}.
Definition set_active_tasks (t : list (PyVal * PyVal)) self
  : SynergyEngine Sv :=
  {| config := config self; audit_log := audit_log self;
     charter_layer := charter_layer self; services := services self;
     active_tasks := t; system_state := system_state self;
     ticks := ticks self |}.
Definition set_system_state (st : SystemState) self : SynergyEngine Sv :=
  {| config := config self; audit_log := audit_log self;
     charter_layer := charter_layer self; services := services self;
     active_tasks := active_tasks self; system_state := st;
     ticks := ticks self |}.
Definition set_ticks (n : nat) self : SynergyEngine Sv :=
  {| config := config self; audit_log := audit_log self;
     charter_layer := charter_layer self; services := services self;
     active_tasks := active_tasks self; system_state := system_state self;
     ticks := n |}.
End Fields.

(** The dict [detect_alignment_drift] returns. *)
Record DriftReport : Type := {
  report_alignment_score : Q;
  drift_detected : bool;
  violation_rate : Q;
  total_checks : nat
}.

Section Engine.
Context {Sv : Type} `{Collaborators Sv}.

(** Methods read and write the fields of [self] and can raise. *)
Definition M (A : Type) : Type :=
  SynergyEngine Sv → Result A * SynergyEngine Sv.

Definition ret {A} (a : A) : M A := λ self, (Ok a, self).
Definition raise {A} (e : PyExc) : M A := λ self, (Raise e, self).
Definition bind {A B} (m : M A) (k : A → M B) : M B :=
  λ self,
    match m self with
    | (Ok a, self') => k a self'
    | (Raise e, self') => (Raise e, self')
    end.
Definition modify (f : SynergyEngine Sv → SynergyEngine Sv) : M unit :=
  λ self, (Ok tt, f self).
(** A computation that does not touch the engine. *)
Definition of_result {A} (r : Result A) : M A := λ self, (r, self).

Notation "'let!' x := m 'in' k" := (bind m (λ x, k))
  (at level 10, x name, m at level 100, k at level 200).
Notation "'run' m 'in' k" := (bind m (λ _, k))
  (at level 10, m at level 100, k at level 200).

(** [try: body except ... as e: handler e] *)
Definition try_except {A} (body : M A) (handler : PyExc → M A) : M A :=
  λ self,
    match body self with
    | (Ok a, self') => (Ok a, self')
    | (Raise e, self') => handler e self'
    end.

(** [datetime.now()] *)
Definition datetime_now : M Instant :=
  λ self, (Ok (clock (ticks self)), set_ticks (S (ticks self)) self).

(** A call into a governance module. *)
Definition call {A} (f : Sv → Reply A * Sv) : M A :=
  λ self,
    let '(reply, services') := f (services self) in
    match reply with
    | Returned a => (Ok a, set_services services' self)
    | Failed cls msg => (Raise (Exception cls msg), set_services services' self)
    end.

(** [str(e)] *)
Definition exc_str (e : PyExc) : string :=
  match e with
  | CharterViolationError msg => msg
  | Exception _ msg => msg
  end.

(** [BaseNeuralModule._audit] *)
Definition _audit (event : string) (details : Dict) : M unit :=
  λ self,
    if audit_enabled (config self) then
      (let! now := datetime_now in
       modify (λ self,
         set_audit_log
           (audit_log self ++
            [{| entry_timestamp := isoformat now;
                entry_module := name (config self);
                entry_event := event;
                entry_details := details |}])%list self)) self
    else (Ok tt, self).

(** [await self.charter_layer.verify_output(output, context)] *)
Definition charter_verify (output : Dict) (context : Dict)
  : M OutputVerification :=
  let! now := datetime_now in
  λ self,
    let '(res, gate') :=
      verify_output (charter_layer self) (isoformat now)
                    (Mapping output) (Some context) in
    (res, set_charter_layer gate' self).

(** [float(f)] of an int: [OverflowError] when the int is beyond the
    range of a float, that is from 2^1024 - 2^970 on, which rounds to
    2^1024. *)
Definition float_overflows (z : Z) : bool :=
  Z.leb (2 ^ 1024 - 2 ^ 970) (Z.abs z).

(** [float(f) if isinstance(f, (int, float)) else 0.5] *)
Definition feature_value (f : PyVal) : Result Q :=
  match f with
  | PyInt z =>
      if float_overflows z
      then Raise (Exception "OverflowError"
                    "int too large to convert to float")
      else Ok (inject_Z z)
  | _ => Ok (default (1 # 2) (to_float f))
  end.

(** [sum(... for f in features)], the generator consumed from the left,
    [acc] being the sum so far. *)
Fixpoint sum_features (acc : Q) (features : list PyVal) : Result Q :=
  match features with
  | [] => Ok acc
  | f :: rest =>
      match feature_value f with
      | Raise e => Raise e
      | Ok x => sum_features (acc + x) rest
      end
  end.

(** [_process_through_drs]: the mean of the features, a non-number
    counting for 0.5; 0.5 when the input is not a dict or is empty. The
    mean is the exact one: the rounding of the float sum, and a sum
    beyond the range of a float, are not modelled. *)
Definition _process_through_drs (input_data : PyVal) (context : Dict)
  : Result Q :=
  match input_data with
  | PyDict d =>
      let features := (map_to_list d).*2 in
      if negb (Nat.eqb (length features) 0) then
        match sum_features 0 features with
        | Raise e => Raise e
        | Ok total =>
            Ok (total / inject_Z (Z.of_nat (length features)))%Q
        end
      else Ok (1 # 2)%Q
  | _ => Ok (1 # 2)%Q
  end.

(** [self.active_tasks[task_id] = final_output] *)
Definition store_task (task_id : PyVal) (final_output : Dict) : M unit :=
  if hashable task_id then
    modify (λ self,
      set_active_tasks
        (setitem task_id (PyDict final_output) (active_tasks self)) self)
  else raise (Exception "TypeError" "unhashable type").

Definition set_last_synthesis (t : string) (st : SystemState) : SystemState :=
  {| alignment_score := alignment_score st;
     coherence_level := coherence_level st;
     ethical_drift_detected := ethical_drift_detected st;
     last_synthesis := Some t |}.

(** [BaseNeuralModule._verify_governance_compliance]; when it passes
    the four checks are [True] and the audited text is constant. *)
Definition _verify_governance_compliance : M bool :=
  λ self,
    let name_valid := negb (String.eqb (name (config self)) "") in
    let version_valid := negb (String.eqb (version (config self)) "") in
    let governance_level_valid :=
      bool_decide (governance_level (config self)
                     ∈ ["standard"; "strict"; "unrestricted"]) in
    if negb (name_valid && version_valid && audit_enabled (config self)
             && governance_level_valid)
    then (Raise (Exception "ValueError"
                   "Module does not meet governance standards"), self)
    else
      (run _audit
         ("Governance compliance verified: {'name_valid': True, " ++
          "'version_valid': True, 'audit_enabled': True, " ++
          "'governance_level_valid': True}") ∅ in
       ret true) self.

(** [SynergyEngine.__init__], with [BaseNeuralModule.__init__]: [sv] is
    the state of the freshly built governance modules, [t0] the number
    of clock readings made before. *)
Definition SynergyEngine_init (cfg : ModuleConfig) (sv : Sv) (t0 : nat)
  : Result (SynergyEngine Sv) :=
  let blank :=
    {| config := cfg; audit_log := [];
       charter_layer := CharterLayer_init; services := sv;
       active_tasks := [];
       system_state :=
         {| alignment_score := 1; coherence_level := 1;
            ethical_drift_detected := false; last_synthesis := None |};
       ticks := t0 |} in
  match (let! initialization_time := datetime_now in
         let! compliant := _verify_governance_compliance in
         _audit "Synergy Engine initialized with 4 governance modules" ∅)
        blank with
  | (Ok _, self) => Ok self
  | (Raise e, _) => Raise e
  end.

(** The [try] block of [process]. *)
Definition process_body (input_data : PyVal) (context : Dict)
    (task_id : PyVal) : M Dict :=
  (* 1. Input sanitization *)
  let! sanitized_input := call (sanitize_input input_data) in
  run _audit ("Input sanitized for task " ++ py_str task_id) ∅ in
  (* 2. Route through DRS *)
  let! drs_output :=
    of_result (_process_through_drs sanitized_input context) in
  (* 3. Bias detection *)
  let demographics := dict_get context "demographics" (PyDict ∅) in
  let! biases := call (analyze_output (PyFloat drs_output) demographics) in
  run (if existsb violates_threshold biases
       then _audit ("Bias violations detected in task " ++ py_str task_id) ∅
       else ret tt) in
  (* 4. Differential privacy (if needed) *)
  let! drs_output :=
    (if truthy (dict_get context "apply_dp" (PyBool false))
     then call (add_differential_privacy_noise drs_output
                  (dict_get context "sensitivity" (PyFloat 1)))
     else ret drs_output) in
  (* 5. Generate explanation *)
  let! explanation :=
    call (generate_explanation (PyFloat drs_output) sanitized_input
            (dict_get context "feature_importance" (PyDict ∅))) in
  (* 6. CharterLayer verification *)
  let output_package : Dict :=
    <["task_id" := task_id]>
    (<["confidence" := dict_get explanation "confidence" PyNone]>
    (<["explanation" := PyDict explanation]>
    (<["prediction" := PyFloat drs_output]> ∅))) in
  let! charter_result := charter_verify output_package context in
  run _audit "Output passed CharterLayer verification"
        (<["confidence" := PyFloat (confidence charter_result)]>
         (<["principles_passed" :=
              PyDict (PyBool <$> principle_results charter_result)]> ∅)) in
  (* 7. Return complete verified output *)
  let! now := datetime_now in
  let final_output : Dict :=
    <["explanation_detail" := PyDict explanation]>
    (<["biases_detected" := PyInt (Z.of_nat (length biases))]>
    (<["timestamp" := PyStr (isoformat now)]>
    (<["charter_verified" := PyBool true]> output_package))) in
  run store_task task_id final_output in
  let! now' := datetime_now in
  run modify (λ self,
        set_system_state
          (set_last_synthesis (isoformat now') (system_state self)) self) in
  ret final_output.

(** The two [except] clauses of [process]: audit, then re-raise. *)
Definition process_handler (e : PyExc) : M Dict :=
  match e with
  | CharterViolationError _ =>
      run _audit "Output blocked by CharterLayer"
                 (<["error" := PyStr (exc_str e)]> ∅) in
      raise e
  | Exception _ _ =>
      run _audit "Processing error" (<["error" := PyStr (exc_str e)]> ∅) in
      raise e
  end.

(** [SynergyEngine.process] *)
Definition process (input_data : PyVal) (context : option Dict) : M Dict :=
  let context := default ∅ context in
  let! now := datetime_now in
  let task_id :=
    dict_get context "task_id" (PyStr ("task_" ++ timestamp_text now)) in
  try_except (process_body input_data context task_id) process_handler.

(** [sum(1 for v in violations if not v.passed)] *)
Definition blocked_count (history : list OutputVerification) : nat :=
  foldl (λ acc v, if negb (passed v) then acc + 1 else acc) 0 history.

Definition set_drift (score : Q) (drift : bool) (st : SystemState)
  : SystemState :=
  {| alignment_score := score;
     coherence_level := coherence_level st;
     ethical_drift_detected := drift;
     last_synthesis := last_synthesis st |}.

(** [SynergyEngine.detect_alignment_drift] *)
Definition detect_alignment_drift : M DriftReport :=
  λ self,
    let '(violations, gate) :=
      get_verification_history (charter_layer self) in
    let blocked := blocked_count violations in
    let total := length violations in
    let drift_rate : Q :=
      if Nat.ltb 0 total then true_div blocked total else 0%Q in
    let self' :=
      set_system_state
        (set_drift (Qred (1 - drift_rate)) (Qlt_bool (1 # 10) drift_rate)
           (system_state self))
        (set_charter_layer gate self) in
    (Ok {| report_alignment_score := alignment_score (system_state self');
           drift_detected := ethical_drift_detected (system_state self');
           violation_rate := drift_rate;
           total_checks := total |},
     self').
End Engine.
Arguments M : clear implicits.

(** An instance of the interface, for examples: what the three modules
    answer on an input that holds no text, with no demographics and no
    feature importance in the context (the branches of the source that
    need no regular expression, hash or random number); the clock stands
    still. *)
Definition demo_explanation (prediction : PyVal) : Dict :=
  <["timestamp" := PyStr "2026-01-01T00:00:00"]>
  (<["confidence" := PyFloat (1 # 2)]>
  (<["counterfactual" := PyStr "No clear counterfactual available."]>
  (<["top_factors" := PyDict ∅]>
  (<["reasoning" := PyStr "Based on 0 key factors"]>
  (<["explanation" := PyStr "Unable to determine key factors."]>
  (<["prediction" := prediction]> ∅)))))).

#[local] Instance demo_modules : Collaborators unit := {|
  sanitize_input data sv := (Returned data, sv);
  analyze_output output demographics sv := (Returned [], sv);
  add_differential_privacy_noise statistic sensitivity sv :=
    (Failed "RuntimeError" "no random source", sv);
  generate_explanation prediction input_features feature_importance sv :=
    (Returned (demo_explanation prediction), sv);
  clock n :=
    {| isoformat := "2026-01-01T00:00:00"; timestamp_text := "1767225600.0" |};
  py_str v := match v with PyStr s => s | _ => "?" end
|}.

Definition demo_config : ModuleConfig :=
  {| name := "synergy"; version := "7.0"; enabled := true;
     governance_level := "standard"; audit_enabled := true;
     max_latency_ms := 5000; metadata := ∅ |}.

(** The engine [SynergyEngine(demo_config)] right after construction. *)
Definition demo_engine : SynergyEngine unit :=
  match SynergyEngine_init demo_config tt 0 with
  | Ok self => self
  | Raise _ =>
      {| config := demo_config; audit_log := [];
         charter_layer := CharterLayer_init; services := tt;
         active_tasks := [];
         system_state :=
           {| alignment_score := 1; coherence_level := 1;
              ethical_drift_detected := false; last_synthesis := None |};
         ticks := 0 |}
  end.

(** ** Predicates on the steps of [process] *)

Section Steps.
Context {Sv : Type}.
Implicit Types self s : SynergyEngine Sv.

(** [s'] differs from [s] at most by the state of the governance
    modules, the clock and new audit entries. *)
Definition untouched s s' : Prop :=
  active_tasks s' = active_tasks s
  ∧ system_state s' = system_state s
  ∧ config s' = config s
  ∧ charter_layer s' = charter_layer s
  ∧ ∃ more, audit_log s' = (audit_log s ++ more)%list.

(** A step that never raises [CharterViolationError] and leaves the
    engine [untouched]. *)
Definition quiet {A} (m : M Sv A) : Prop :=
  ∀ s, untouched s (snd (m s))
       ∧ ∀ msg, fst (m s) ≠ Raise (CharterViolationError msg).

(** What a veto leaves behind. *)
Definition vetoed s s' (msg : string) : Prop :=
  active_tasks s' = active_tasks s
  ∧ system_state s' = system_state s
  ∧ config s' = config s
  ∧ (∃ more, audit_log s' = (audit_log s ++ more)%list)
  ∧ ∃ record,
      verification_log (charter_layer s')
      = (verification_log (charter_layer s) ++ [record])%list
      ∧ passed record = false
      ∧ msg = "Output violates charter: " ++ py_repr (violations record).

Definition veto_safe {A} (m : M Sv A) : Prop :=
  ∀ s msg s', m s = (Raise (CharterViolationError msg), s') →
              vetoed s s' msg.

Definition never_vetoes {A} (m : M Sv A) : Prop :=
  ∀ s msg, fst (m s) ≠ Raise (CharterViolationError msg).

(** A step that leaves [self.config] as it is. *)
Definition keeps_config {A} (m : M Sv A) : Prop :=
  ∀ s, config (snd (m s)) = config s.
End Steps.

(** ** Further readings of the checks *)

(** A candidate "exposes a reasoning or explanation": as an attribute, or
    as a key of a mapping. *)
Definition exposes_reasoning (o : Candidate) : Prop :=
  "reasoning" ∈ cand_attrs o ∨ "explanation" ∈ cand_attrs o ∨
  ∃ d, cand_value o = PyDict d ∧
       (is_Some (d !! "reasoning") ∨ is_Some (d !! "explanation")).

(** The candidate is a text in which a harmful keyword occurs. *)
Definition harmful_text (o : Candidate) : Prop :=
  ∃ s, cand_value o = PyStr s ∧
       ∃ keyword, keyword ∈ harmful_keywords ∧ contains_token keyword s.

(** [s.isascii()]: every character of the text is an ASCII character.
    On such a text [py_lower] is [str.lower]; outside ASCII [str.lower]
    also maps U+212A (the Kelvin sign) to 'k' and U+0130 to 'i' followed
    by U+0307, which [py_lower] leaves as they are. *)
Definition isascii (s : string) : bool :=
  forallb (λ c, Nat.ltb (nat_of_ascii c) 128) (list_ascii_of_string s).

(** The candidate, if a text, is an ASCII text. *)
Definition ascii_candidate (o : Candidate) : Prop :=
  ∀ s, cand_value o = PyStr s → isascii s = true.

(** The candidate is not a [str]. *)
Definition not_text (o : Candidate) : Prop :=
  ∀ s, cand_value o ≠ PyStr s.

(** The consent rule of [_check_dignity] fires on this context. *)
Definition consent_missing (context : Dict) : bool :=
  truthy (dict_get context "user_id" PyNone)
  && truthy (dict_get context "requires_consent" PyNone)
  && negb (truthy (dict_get context "consent_given" (PyBool false))).

(** The context holds a number (or nothing) under [uncertainty_level]. *)
Definition uncertainty_numeric (context : Dict) : bool :=
  match to_float (dict_get context "uncertainty_level" (PyInt 0)) with
  | Some _ => true
  | None => false
  end.

Definition principle_keys : gset string :=
  list_to_set (value <$> principles).

(** ** What a run of the pipeline leaves behind *)

Section Outcomes.
Context {Sv : Type}.
Implicit Types s : SynergyEngine Sv.

(** The final package extends the package [pkg] the gate saw. *)
Definition final_package (pkg out : Dict) : Prop :=
  pkg ⊆ out
  ∧ out !! "charter_verified" = Some (PyBool true)
  ∧ is_Some (out !! "timestamp")
  ∧ out !! "explanation_detail" = pkg !! "explanation"
  ∧ ∃ n : nat, out !! "biases_detected" = Some (PyInt (Z.of_nat n)).

(** The four ways the [try] block of [process] can end, run from [s]
    with context [c] and task id [task_id]: a stage before the gate
    raised; the gate vetoed; the gate passed and the task id could not be
    a key; the gate passed and the package was stored. *)
Definition body_outcome (c : Dict) (task_id : PyVal)
    s (res : Result Dict) s' : Prop :=
  config s' = config s
  ∧ ∃ more,
      audit_log s' = (audit_log s ++ more)%list
      ∧ (((∃ cls msg, res = Raise (Exception cls msg))
          ∧ charter_layer s' = charter_layer s
          ∧ active_tasks s' = active_tasks s
          ∧ system_state s' = system_state s)
         ∨ ∃ now pkg,
             let r := built_record charter_rules now (Mapping pkg) c in
             verification_log (charter_layer s')
             = (verification_log (charter_layer s) ++ [r])%list
             ∧ is_Some (pkg !! "explanation")
             ∧ pkg !! "task_id" = Some task_id
             ∧ ((passed r = false
                 ∧ res = Raise (veto r)
                 ∧ active_tasks s' = active_tasks s
                 ∧ system_state s' = system_state s)
                ∨ (passed r = true
                   ∧ hashable task_id = false
                   ∧ res = Raise (Exception "TypeError" "unhashable type")
                   ∧ active_tasks s' = active_tasks s
                   ∧ system_state s' = system_state s)
                ∨ (passed r = true
                   ∧ hashable task_id = true
                   ∧ ∃ out t,
                       res = Ok out
                       ∧ final_package pkg out
                       ∧ active_tasks s'
                         = setitem task_id (PyDict out) (active_tasks s)
                       ∧ system_state s'
                         = set_last_synthesis t (system_state s)
                       ∧ (audit_enabled (config s) = true →
                          ∃ entry, entry ∈ more
                            ∧ entry_event entry
                              = "Output passed CharterLayer verification")))).

Definition body_spec (c : Dict) (task_id : PyVal) (m : M Sv Dict) : Prop :=
  ∀ s res s', m s = (res, s') → body_outcome c task_id s res s'.
End Outcomes.

(** The event the [except] clauses of [process] audit for an error. *)
Definition handler_event (e : PyExc) : string :=
  match e with
  | CharterViolationError _ => "Output blocked by CharterLayer"
  | Exception _ _ => "Processing error"
  end.

(** The violations the gate finds on a package of [process]: they come
    from the context alone. *)
Definition context_violations (c : Dict) : list string :=
  ((if consent_missing c then [violated HUMAN_DIGNITY] else []) ++
   (if uncertainty_numeric c then [] else [check_failed SAFETY]))%list.

(** Contexts used in the examples below. *)
Definition unhashable_task : Dict := <["task_id" := PyList []]> ∅.
Definition named_task : Dict := <["task_id" := PyStr "test_001"]> ∅.

(** A configuration [_verify_governance_compliance] accepts. *)
Definition compliant (cfg : ModuleConfig) : Prop :=
  name cfg ≠ "" ∧ version cfg ≠ "" ∧ audit_enabled cfg = true
  ∧ governance_level cfg ∈ ["standard"; "strict"; "unrestricted"].

(** Records of a history, and those among them that did not pass. *)
Definition checks_of (g : CharterLayer) : nat :=
  length (verification_log g).
Definition blocked_of (g : CharterLayer) : nat :=
  length (List.filter (λ v, negb (passed v)) (verification_log g)).

(** ** nbos/governance/bias_detection.py *)

Module BiasDetection.

Inductive BiasType : Type :=
  | REPRESENTATION
  | MEASUREMENT
  | AGGREGATION
  | EVALUATION
  | DEPLOYMENT.

Record BiasMetric : Type := {
  bias_type : BiasType;
  protected_attribute : string;
  disparity_ratio : Q;
  threshold : Q;
  violates_threshold : bool;
  timestamp : string;
  remediation_suggested : string
}.

(** The module's state is the list [bias_metrics]; [protected_attributes]
    and the mitigation table are set once by [__init__]. *)
Record BiasDetectionModule : Type := {
  bias_metrics : list BiasMetric
}.

Definition BiasDetectionModule_init : BiasDetectionModule :=
  {| bias_metrics := [] |}.

Definition protected_attributes : list string :=
  ["race"; "gender"; "age_group"; "disability_status"; "religion"].

(** [v == 'minority'] *)
Definition is_minority (v : PyVal) : bool :=
  match v with
  | PyStr s => String.eqb s "minority"
  | _ => false
  end.

(** The first half of [_check_disparate_impact]: the disparity ratio.
    The comparison [base_score > 0.7] is only reached for a dict output
    with a [score] and a 'minority' attribute value, and can raise. *)
Definition disparity_of (output : PyVal) (attribute : string)
    (demographics : Dict) : Result Q :=
  match output with
  | PyDict d =>
      match d !! "score" with
      | Some base_score =>
          let attr_value := dict_get demographics attribute PyNone in
          if is_minority attr_value then
            match py_gt base_score (7 # 10) with
            | Ok true => Ok (3 # 4)%Q
            | Ok false => Ok 1%Q
            | Raise e => Raise e
            end
          else Ok 1%Q
      | None => Ok 1%Q
      end
  | _ => Ok 1%Q
  end.

(** [_check_disparate_impact]; [now] is the reading of the clock taken
    for the metric's timestamp. *)
Definition _check_disparate_impact (now : string) (output : PyVal)
    (attribute : string) (demographics : Dict) : Result BiasMetric :=
  match disparity_of output attribute demographics with
  | Raise e => Raise e
  | Ok disparity_ratio =>
      let threshold := (8 # 10)%Q in
      let violates := Qlt_bool disparity_ratio threshold in
      Ok {| bias_type := MEASUREMENT;
            protected_attribute := attribute;
            disparity_ratio := disparity_ratio;
            threshold := threshold;
            violates_threshold := violates;
            timestamp := now;
            remediation_suggested :=
              "Review and retrain model on balanced " ++ attribute
              ++ " distribution" |}
  end.

(** The loop of [analyze_output] over the protected attributes left to
    visit; [t] counts the clock readings. The mitigation step only
    logs. *)
Fixpoint analyze_loop (clock : nat → Instant) (t : nat) (output : PyVal)
    (demographics : Dict) (attrs : list string)
    (detected_biases : list BiasMetric) : Result (list BiasMetric) * nat :=
  match attrs with
  | [] => (Ok detected_biases, t)
  | protected_attr :: rest =>
      if negb (dict_has demographics protected_attr)
      then analyze_loop clock t output demographics rest detected_biases
      else
        match _check_disparate_impact (isoformat (clock t)) output
                protected_attr demographics with
        | Raise e => (Raise e, t)
        | Ok metric =>
            analyze_loop clock (S t) output demographics rest
              (detected_biases ++ [metric])%list
        end
  end.

(** [analyze_output]: the metrics found are added to [bias_metrics] after
    the loop, so not when the loop raises. *)
Definition analyze_output (clock : nat → Instant)
    (self : BiasDetectionModule) (t : nat)
    (output : PyVal) (demographics : Dict)
  : Result (list BiasMetric) * BiasDetectionModule * nat :=
  match analyze_loop clock t output demographics protected_attributes [] with
  | (Ok detected_biases, t') =>
      (Ok detected_biases,
       {| bias_metrics := (bias_metrics self ++ detected_biases)%list |}, t')
  | (Raise e, t') => (Raise e, self, t')
  end.

(** The attribute is one for which the source simulates a disparity: a
    dict output whose [score] exceeds 0.7 and a 'minority' value of the
    attribute. *)
Definition flagged (output : PyVal) (demographics : Dict)
    (attribute : string) : Prop :=
  ∃ d score x,
    output = PyDict d ∧ d !! "score" = Some score
    ∧ to_float score = Some x ∧ (7 # 10 < x)%Q
    ∧ demographics !! attribute = Some (PyStr "minority").

(** What [_check_disparate_impact] guarantees of a metric it returns. *)
Definition metric_ok (output : PyVal) (demographics : Dict)
    (m : BiasMetric) : Prop :=
  bias_type m = MEASUREMENT
  ∧ threshold m = (8 # 10)%Q
  ∧ (violates_threshold m = true
     ↔ flagged output demographics (protected_attribute m))
  ∧ disparity_ratio m = (if violates_threshold m then 3 # 4 else 1)%Q.

End BiasDetection.

(** ** governance/privacy_preservation.py *)

Module PrivacyPreservation.

(** An entry of [privacy_log]: one of the two dicts the module appends. *)
Inductive LogEntry : Type :=
  | DifferentialPrivacy (timestamp : string)
      (sensitivity epsilon_cost total_spent : Q)
  | FederatedReadinessCheck (timestamp : string) (safe : bool).

Record PrivacyPreservationModule : Type := {
  epsilon : Q;
  delta : Q;
  privacy_budget_spent : Q;
  privacy_log : list LogEntry
}.

(** [__init__(epsilon, delta)] *)
Definition PrivacyPreservationModule_init (epsilon delta : Q)
  : PrivacyPreservationModule :=
  {| epsilon := epsilon; delta := delta;
     privacy_budget_spent := 0; privacy_log := [] |}.

Definition pii_types : list string := ["email"; "phone"; "ssn"; "credit_card"].

Section Sanitize.
(** [_sanitize_string]: four regular-expression substitutions, with an MD5
    digest for e-mail addresses; a parameter here. *)
Variable _sanitize_string : string → string.

(** [sanitize_input] *)
Definition sanitize_input (data : PyVal) : PyVal :=
  match data with
  | PyStr text => PyStr (_sanitize_string text)
  | PyDict d =>
      PyDict ((λ v, match v with
                    | PyStr text => PyStr (_sanitize_string text)
                    | _ => v
                    end) <$> d)
  | _ => data
  end.
End Sanitize.

Section Noise.
(** [np.random.laplace(0, scale)]: the sample drawn for a scale, or the
    error the sampler raises. *)
Variable laplace : Q → Result Q.

(** [add_differential_privacy_noise]; [now] is the clock reading for the
    log entry. The budget check only logs a warning. *)
Definition add_differential_privacy_noise (self : PrivacyPreservationModule)
    (now : string) (statistic : Q) (sensitivity : PyVal)
  : Result Q * PrivacyPreservationModule :=
  match to_float sensitivity with
  | None => (Raise (Exception "TypeError" "unsupported operand type(s) for /"),
             self)
  | Some s =>
      if Qeq_bool (epsilon self) 0
      then (Raise (Exception "ZeroDivisionError" "float division by zero"),
            self)
      else
        let privacy_cost := (s / epsilon self)%Q in
        let scale := (s / epsilon self)%Q in
        match laplace scale with
        | Raise e => (Raise e, self)
        | Ok noise =>
            let noisy_statistic := (statistic + noise)%Q in
            let spent := (privacy_budget_spent self + privacy_cost)%Q in
            (Ok noisy_statistic,
             {| epsilon := epsilon self; delta := delta self;
                privacy_budget_spent := spent;
                privacy_log :=
                  (privacy_log self ++
                   [DifferentialPrivacy now s privacy_cost spent])%list |})
        end
  end.
End Noise.

(** [v < bound] against an int literal. *)
Definition py_lt (v : PyVal) (bound : Q) : Result bool :=
  match to_float v with
  | Some x => Ok (Qlt_bool x bound)
  | None => Raise (Exception "TypeError" "'<' not supported")
  end.

(** [federated_learning_ready] *)
Definition federated_learning_ready (self : PrivacyPreservationModule)
    (now : string) (model_update : Dict)
  : Result bool * PrivacyPreservationModule :=
  if dict_has model_update "gradients"
     && dict_has model_update "individual_gradients"
  then (Ok false, self)
  else
    let model_params := dict_get model_update "num_parameters" (PyInt 0) in
    match py_lt model_params 1000 with
    | Raise e => (Raise e, self)
    | Ok _ =>
        (Ok true,
         {| epsilon := epsilon self; delta := delta self;
            privacy_budget_spent := privacy_budget_spent self;
            privacy_log :=
              (privacy_log self ++ [FederatedReadinessCheck now true])%list |})
    end.

(** The dict [get_privacy_report] returns. *)
Record PrivacyReport : Type := {
  report_epsilon : Q;
  report_delta : Q;
  report_budget_spent : Q;
  budget_remaining : Q;
  total_operations : nat;
  pii_types_protected : list string;
  status : string
}.

(** [max(0, x)] *)
Definition max0 (x : Q) : Q := if Qlt_bool 0 x then x else 0%Q.

Definition get_privacy_report (self : PrivacyPreservationModule)
  : PrivacyReport :=
  {| report_epsilon := epsilon self;
     report_delta := delta self;
     report_budget_spent := privacy_budget_spent self;
     budget_remaining := max0 (1 - privacy_budget_spent self);
     total_operations := length (privacy_log self);
     pii_types_protected := pii_types;
     status := if Qlt_bool (privacy_budget_spent self) 1
               then "COMPLIANT" else "BUDGET_EXCEEDED" |}.

(** The calls that change the module, to speak of every state it can
    reach. *)
Inductive Op : Type :=
  | Noise (now : string) (statistic : Q) (sensitivity : PyVal)
  | Federated (now : string) (model_update : Dict).

Definition run_op (laplace : Q → Result Q)
    (self : PrivacyPreservationModule) (op : Op) : PrivacyPreservationModule :=
  match op with
  | Noise now statistic sensitivity =>
      snd (add_differential_privacy_noise laplace self now statistic sensitivity)
  | Federated now model_update =>
      snd (federated_learning_ready self now model_update)
  end.

(** What an entry of the log makes of the budget spent before it: a
    differential-privacy entry adds its cost, as [+=] does. *)
Definition spend (spent : Q) (entry : LogEntry) : Q :=
  match entry with
  | DifferentialPrivacy _ _ epsilon_cost _ => (spent + epsilon_cost)%Q
  | FederatedReadinessCheck _ _ => spent
  end.

(** The costs logged, added up from 0 in the order of the log. *)
Definition logged_cost (log : list LogEntry) : Q := foldl spend 0%Q log.

(** The differential-privacy entries of a log, in its order. *)
Definition is_differential_privacy (entry : LogEntry) : bool :=
  match entry with
  | DifferentialPrivacy _ _ _ _ => true
  | FederatedReadinessCheck _ _ => false
  end.

Definition differential_entries (log : list LogEntry) : list LogEntry :=
  List.filter is_differential_privacy log.

End PrivacyPreservation.

(** ** governance/explainability.py *)

Module Explainability.

Record ExplainabilityModule : Type := {
  explanations_generated : nat;
  explanation_log : list Dict
}.

Definition ExplainabilityModule_init : ExplainabilityModule :=
  {| explanations_generated := 0; explanation_log := [] |}.

(** An item of [feature_importance.items()], in the dict's insertion
    order: the order decides ties in [sorted]. *)
Definition Item : Type := string * PyVal.

(** [abs(x[1])], the sort key; [abs] raises on what is not a number. *)
Definition abs_key (x : Item) : Result Q :=
  match to_float (snd x) with
  | Some q => Ok (Qabs q)
  | None => Raise (Exception "TypeError" "bad operand type for abs()")
  end.

(** The keys of all items, computed before any comparison. *)
Fixpoint keyed (items : list Item) : Result (list (Q * Item)) :=
  match items with
  | [] => Ok []
  | x :: rest =>
      match abs_key x with
      | Raise e => Raise e
      | Ok k =>
          match keyed rest with
          | Raise e => Raise e
          | Ok ks => Ok ((k, x) :: ks)
          end
      end
  end.

(** [sorted(..., reverse=True)]: descending by key and stable, an item
    staying before the later items with an equal key. *)
Fixpoint insert_desc (x : Q * Item) (sorted : list (Q * Item))
  : list (Q * Item) :=
  match sorted with
  | [] => [x]
  | y :: ys =>
      if Qle_bool (fst y) (fst x) then x :: y :: ys
      else y :: insert_desc x ys
  end.

Definition sort_desc (l : list (Q * Item)) : list (Q * Item) :=
  foldr insert_desc [] l.

(** [sorted(feature_importance.items(), key=..., reverse=True)[:3]] *)
Definition top_features_of (items : list Item) : Result (list Item) :=
  match keyed items with
  | Raise e => Raise e
  | Ok ks => Ok (take 3 (snd <$> sort_desc ks))
  end.

(** [dict(pairs)]: of two pairs with one key the later one stays. *)
Definition py_dict (pairs : list Item) : Dict := list_to_map (reverse pairs).

(** [len(top_features)] as text; there are at most three. *)
Definition count_text (n : nat) : string :=
  match n with
  | 0 => "0"
  | 1 => "1"
  | 2 => "2"
  | _ => "3"
  end.

Section Texts.
(** [f"{prediction:.2f}"] and [str(v)]: parameters. *)
Variable format_2f : Q → string.
Variable py_str : PyVal → string.

(** [_generate_natural_language_explanation] *)
Definition _generate_natural_language_explanation (prediction : Q)
    (top_features : list Item) : Result string :=
  match top_features with
  | [] => Ok "Unable to determine key factors."
  | (primary_factor, primary_importance) :: others =>
      match py_gt primary_importance (1 # 2) with
      | Raise e => Raise e
      | Ok strong =>
          match (if strong
                 then match py_gt primary_importance 0 with
                      | Ok positive =>
                          Ok (if positive then "positively" else "negatively")
                      | Raise e => Raise e
                      end
                 else Ok "somewhat") with
          | Raise e => Raise e
          | Ok direction =>
              let explanation :=
                "The prediction of " ++ format_2f prediction
                ++ " is primarily driven by " ++ primary_factor
                ++ ", which " ++ direction ++ " influences the outcome." in
              match others with
              | (secondary_factor, _) :: _ =>
                  Ok (explanation ++ " Additionally, " ++ secondary_factor
                      ++ " plays a secondary role.")
              | [] => Ok explanation
              end
          end
      end
  end.

(** [_generate_counterfactual]; [features.get] needs a dict. *)
Definition _generate_counterfactual (prediction : Q) (features : PyVal)
    (top_factors : list Item) : Result string :=
  match top_factors with
  | [] => Ok "No clear counterfactual available."
  | (primary_factor, _) :: _ =>
      match features with
      | PyDict d =>
          let current_value := dict_get d primary_factor (PyStr "unknown") in
          Ok ("To achieve a different outcome, adjust " ++ primary_factor
              ++ " (currently: " ++ py_str current_value ++ ").")
      | _ => Raise (Exception "AttributeError" "object has no attribute 'get'")
      end
  end.

(** [min(1.0, max(0.5, n / 5))] *)
Definition confidence_of (n : nat) : Q :=
  let ratio := true_div n 5 in
  let lower := if Qlt_bool (1 # 2) ratio then ratio else (1 # 2)%Q in
  if Qlt_bool lower 1 then lower else 1%Q.

(** [generate_explanation]; [now] is the clock reading for the result's
    timestamp, [feature_importance] the items of the dict. *)
Definition generate_explanation (self : ExplainabilityModule) (now : string)
    (prediction : Q) (input_features : PyVal)
    (feature_importance : list Item)
  : Result Dict * ExplainabilityModule :=
  match top_features_of feature_importance with
  | Raise e => (Raise e, self)
  | Ok top_features =>
      match _generate_natural_language_explanation prediction top_features with
      | Raise e => (Raise e, self)
      | Ok explanation =>
          match _generate_counterfactual prediction input_features
                  top_features with
          | Raise e => (Raise e, self)
          | Ok counterfactual =>
              let result : Dict :=
                <["timestamp" := PyStr now]>
                (<["confidence" :=
                     PyFloat (confidence_of (length top_features))]>
                (<["counterfactual" := PyStr counterfactual]>
                (<["top_factors" := PyDict (py_dict top_features)]>
                (<["reasoning" :=
                     PyStr ("Based on " ++ count_text (length top_features)
                            ++ " key factors")]>
                (<["explanation" := PyStr explanation]>
                (<["prediction" := PyFloat prediction]> ∅)))))) in
              (Ok result,
               {| explanations_generated := S (explanations_generated self);
                  explanation_log := (explanation_log self ++ [result])%list |})
          end
      end
  end.
End Texts.

(** [len(v)] *)
Definition py_len (v : PyVal) : Result nat :=
  match v with
  | PyStr s => Ok (String.length s)
  | PyList l => Ok (length l)
  | PyDict d => Ok (size d)
  | _ => Raise (Exception "TypeError" "object has no len()")
  end.

(** [sum(e.get('confidence', 0) for e in log)] and
    [sum(len(e.get('top_factors', {})) for e in log)] *)
Fixpoint sum_confidence (log : list Dict) : Result Q :=
  match log with
  | [] => Ok 0%Q
  | e :: rest =>
      match to_float (dict_get e "confidence" (PyInt 0)), sum_confidence rest with
      | Some c, Ok total => Ok (c + total)%Q
      | None, _ => Raise (Exception "TypeError" "unsupported operand type(s) for +")
      | _, Raise err => Raise err
      end
  end.

Fixpoint sum_factors (log : list Dict) : Result nat :=
  match log with
  | [] => Ok 0
  | e :: rest =>
      match py_len (dict_get e "top_factors" (PyDict ∅)), sum_factors rest with
      | Ok n, Ok total => Ok (n + total)
      | Raise err, _ => Raise err
      | _, Raise err => Raise err
      end
  end.

(** The dict [audit_explanation_quality] returns; the two averages are
    the exact ones. *)
Inductive QualityReport : Type :=
  | NoExplanations
  | Quality (total_explanations : nat) (avg_confidence avg_factors : Q)
      (quality : string).

Definition audit_explanation_quality (self : ExplainabilityModule)
  : Result QualityReport :=
  match explanation_log self with
  | [] => Ok NoExplanations
  | _ :: _ =>
      let n := inject_Z (Z.of_nat (length (explanation_log self))) in
      match sum_confidence (explanation_log self) with
      | Raise err => Raise err
      | Ok total =>
          let avg_confidence := (total / n)%Q in
          match sum_factors (explanation_log self) with
          | Raise err => Raise err
          | Ok factors =>
              let avg_factors := (inject_Z (Z.of_nat factors) / n)%Q in
              Ok (Quality (length (explanation_log self)) avg_confidence
                    avg_factors
                    (if Qlt_bool (7 # 10) avg_confidence
                     then "good" else "fair"))
          end
      end
  end.

(** One call of [generate_explanation], to speak of the states the
    module can reach. *)
Record Call : Type := {
  call_now : string;
  call_prediction : Q;
  call_features : PyVal;
  call_importance : list Item
}.

Definition run_call (format_2f : Q → string) (py_str : PyVal → string)
    (self : ExplainabilityModule) (c : Call) : ExplainabilityModule :=
  snd (generate_explanation format_2f py_str self (call_now c)
         (call_prediction c) (call_features c) (call_importance c)).

(** The size of an item's importance, and the order [sorted] puts the
    keyed items in. *)
Definition magnitude (x : Item) : Q :=
  Qabs (default 0%Q (to_float (snd x))).

Definition before (a b : Q * Item) : Prop := (fst b <= fst a)%Q.

(** [a] may stand before [b] in the sorted items: it is at least as
    large. *)
Definition outweighs (a b : Item) : Prop := (magnitude b <= magnitude a)%Q.

(** An entry of the log as [generate_explanation] writes it: a confidence
    of 0.5 or 0.6 and a dict of at most three top factors. *)
Definition logged_ok (e : Dict) : Prop :=
  (e !! "confidence" = Some (PyFloat (1 # 2))
   ∨ e !! "confidence" = Some (PyFloat (3 # 5)))
  ∧ ∃ d, e !! "top_factors" = Some (PyDict d) ∧ (size d ≤ 3)%nat.

(** The invariant of the module: the counter is the length of the log,
    and every entry is as [generate_explanation] writes it. *)
Definition consistent (self : ExplainabilityModule) : Prop :=
  explanations_generated self = length (explanation_log self)
  ∧ Forall logged_ok (explanation_log self).

(** The module after a sequence of calls on a fresh one. *)
Definition after_calls (format_2f : Q → string) (py_str : PyVal → string)
    (calls : list Call) : ExplainabilityModule :=
  foldl (run_call format_2f py_str) ExplainabilityModule_init calls.

End Explainability.

(** * Properties *)

(** ** Strings *)

Lemma starts_with_spec needle hay :
  starts_with needle hay = true ↔ ∃ post, hay = needle ++ post.
Proof.
  revert hay. induction needle as [| a n IH]; intros hay; simpl.
  - split; [intros _; by exists hay | done].
  - destruct hay as [| b h].
    + split; [discriminate | intros [post Hp]; discriminate Hp].
    + rewrite andb_true_iff, Ascii.eqb_eq, IH. split.
      * intros [-> [post ->]]. by exists post.
      * intros [post Hp]. injection Hp as -> ->. split; [done | by exists post].
Qed.

(** [py_in] decides substring occurrence. *)
Lemma py_in_spec needle hay :
  py_in needle hay = true ↔ occurs_in needle hay.
Proof.
  unfold occurs_in. induction hay as [| c h IH].
  - cbn [py_in]. rewrite orb_false_r, starts_with_spec. split.
    + intros [post Hp]. by exists "", post.
    + intros ([| a pre] & post & Hp); [by exists post | discriminate Hp].
  - cbn [py_in]. rewrite orb_true_iff, starts_with_spec, IH. split.
    + intros [[post Hp] | (pre & post & Hp)].
      * by exists "", post.
      * exists (String c pre), post. simpl. by rewrite Hp.
    + intros ([| a pre] & post & Hp).
      * left. by exists post.
      * right. simpl in Hp. injection Hp as _ Hp. by exists pre, post.
Qed.

Lemma py_lower_app s t : py_lower (s ++ t) = py_lower s ++ py_lower t.
Proof. induction s as [| c s IH]; simpl; [done | by rewrite IH]. Qed.

(** A token that is already lower case and occurs literally in a text
    still occurs after the text is lower-cased. *)
Lemma occurs_in_lower tok text :
  py_lower tok = tok → occurs_in tok text → contains_token tok text.
Proof.
  intros Htok (pre & post & ->). unfold contains_token.
  exists (py_lower pre), (py_lower post).
  by rewrite !py_lower_app, Htok.
Qed.

Lemma existsb_py_in (toks : list string) (text : string) :
  existsb (λ tok, py_in tok text) toks = true
  ↔ ∃ tok, tok ∈ toks ∧ occurs_in tok text.
Proof.
  rewrite existsb_exists. split.
  - intros (tok & Hin & Hp). exists tok. split.
    + by apply list_elem_of_In.
    + by apply py_in_spec.
  - intros (tok & Hin & Hp). exists tok. split.
    + by apply list_elem_of_In.
    + by apply py_in_spec.
Qed.

(** ** The loop of [verify_output] *)

Lemma value_inj p q : value p = value q → p = q.
Proof. destruct p, q; simpl; intros H; first [reflexivity | discriminate H]. Qed.

Lemma principles_NoDup : NoDup (value <$> principles).
Proof. apply (bool_decide_unpack _). vm_compute. exact I. Qed.

Lemma principles_all p : p ∈ principles.
Proof. destruct p; unfold principles; set_solver. Qed.

Lemma py_sum_insert k (b : bool) (m : gmap string bool) :
  m !! k = None → py_sum (<[k := b]> m) = py_sum m + Nat.b2n b.
Proof.
  intros Hk. unfold py_sum.
  rewrite (map_fold_insert_L (λ _ (b : bool) n, n + Nat.b2n b)); [done | | exact Hk].
  intros; lia.
Qed.

Lemma py_all_insert k (b : bool) (m : gmap string bool) :
  m !! k = None → py_all (<[k := b]> m) = py_all m && b.
Proof.
  intros Hk. unfold py_all.
  rewrite (map_fold_insert_L (λ _ (b : bool) acc, acc && b)); [done | | exact Hk].
  intros j1 j2 z1 z2 y _ _ _. destruct y, z1, z2; reflexivity.
Qed.

Section Loop.
Variable rules : EthicalPrinciple → CheckFn.
Variable output : Candidate.
Variable context : Dict.

#[local] Abbreviation ok_of := (passes rules output context).
#[local] Abbreviation why_of := (reason rules output context).
#[local] Abbreviation assign := (record_result rules output context).
#[local] Abbreviation tally := (count_passed rules output context).

Lemma check_one_closed m v p :
  check_one rules output context (m, v) p
  = (assign m p, (v ++ option_list (why_of p))%list).
Proof.
  unfold check_one, record_result, reason,
    passes, check_reason, check_passed.
  destruct (rules p output context) as [[|]|e]; simpl;
    rewrite ?app_nil_r; reflexivity.
Qed.

(** One dict assignment per principle, one why_of per principle that
    did not return [True]. *)
Lemma check_loop_closed ps m v :
  foldl (check_one rules output context) (m, v) ps
  = (foldl assign m ps, (v ++ omap why_of ps)%list).
Proof.
  revert m v. induction ps as [| p ps IH]; intros m v.
  - simpl. by rewrite app_nil_r.
  - cbn [foldl]. rewrite check_one_closed, IH. f_equal.
    rewrite <- app_assoc. f_equal. cbn [omap list_omap].
    destruct (why_of p); reflexivity.
Qed.

Lemma record_results_lookup_other ps m k :
  k ∉ value <$> ps → foldl assign m ps !! k = m !! k.
Proof.
  revert m. induction ps as [| p ps IH]; intros m Hk; simpl; [done |].
  rewrite fmap_cons, not_elem_of_cons in Hk. destruct Hk as [Hne Hk].
  rewrite IH by exact Hk. unfold record_result.
  by rewrite lookup_insert_ne.
Qed.

Lemma record_results_lookup ps m p :
  NoDup (value <$> ps) → p ∈ ps →
  foldl assign m ps !! value p = Some (ok_of p).
Proof.
  revert m. induction ps as [| q ps IH]; intros m Hnd Hin; simpl.
  - by apply elem_of_nil in Hin.
  - rewrite fmap_cons in Hnd. apply NoDup_cons in Hnd as [Hq Hnd].
    apply elem_of_cons in Hin as [-> | Hin].
    + rewrite record_results_lookup_other by exact Hq.
      unfold record_result. by rewrite lookup_insert_eq.
    + by apply IH.
Qed.

Lemma record_results_stats ps m :
  NoDup (value <$> ps) → (∀ p, p ∈ ps → m !! value p = None) →
  size (foldl assign m ps) = size m + length ps
  ∧ py_sum (foldl assign m ps) = py_sum m + tally ps
  ∧ py_all (foldl assign m ps) = py_all m && forallb ok_of ps.
Proof.
  revert m. induction ps as [| p ps IH]; intros m Hnd Hfresh.
  - unfold count_passed; simpl. rewrite andb_true_r.
    repeat split; lia.
  - rewrite fmap_cons in Hnd. apply NoDup_cons in Hnd as [Hp Hnd].
    assert (Hm : m !! value p = None) by (apply Hfresh; left).
    destruct (IH (assign m p) Hnd) as (Hsz & Hsum & Hall).
    { intros q Hq. unfold record_result. rewrite lookup_insert_ne.
      - apply Hfresh. by right.
      - intros Heq. apply Hp. rewrite Heq. by apply list_elem_of_fmap_2. }
    cbn [foldl]. rewrite Hsz, Hsum, Hall. unfold record_result.
    rewrite map_size_insert_None, py_sum_insert, py_all_insert by exact Hm.
    unfold count_passed. cbn [List.filter forallb length].
    destruct (ok_of p); cbn [Nat.b2n length];
      rewrite ?andb_assoc; repeat split; lia.
Qed.

Lemma omap_reason_nil ps :
  omap why_of ps = [] ↔ forallb ok_of ps = true.
Proof.
  induction ps as [| p ps IH]; simpl; [done |].
  unfold reason at 1, passes at 1,
    check_reason, check_passed.
  destruct (rules p output context) as [[|]|e]; simpl; [exact IH | |];
    split; intros H; discriminate H.
Qed.

Lemma count_passed_all ps :
  tally ps = length ps ↔ forallb ok_of ps = true.
Proof.
  unfold count_passed.
  induction ps as [| p ps IH]; simpl; [done |].
  destruct (ok_of p); simpl.
  - rewrite <- IH. lia.
  - pose proof (List.filter_length_le ok_of ps). split; [lia | discriminate].
Qed.

Lemma reason_elem_of (ps : list EthicalPrinciple) p :
  p ∈ ps → ok_of p = false →
  ∃ why, why_of p = Some why ∧ why ∈ omap why_of ps.
Proof.
  intros Hin Hp.
  assert (Hsome : is_Some (why_of p)).
  { unfold reason, passes, check_reason, check_passed in *.
    destruct (rules p output context) as [[|]|e]; [discriminate Hp | |]; eauto. }
  destruct Hsome as [why Hwhy]. exists why. split; [done |].
  apply list_elem_of_omap. eauto.
Qed.

Lemma run_checks_closed :
  run_checks rules output context
  = (foldl assign ∅ principles, omap why_of principles).
Proof. unfold run_checks. by rewrite check_loop_closed. Qed.

Lemma results_stats :
  size (foldl assign ∅ principles) = 5
  ∧ py_sum (foldl assign ∅ principles) = tally principles
  ∧ py_all (foldl assign ∅ principles) = forallb ok_of principles.
Proof.
  destruct (record_results_stats principles ∅) as (Hsz & Hsum & Hall).
  - exact principles_NoDup.
  - intros p _. apply lookup_empty.
  - rewrite Hsz, Hsum, Hall. repeat split.
Qed.

Lemma count_passed_le : (tally principles ≤ 5)%nat.
Proof.
  unfold count_passed.
  exact (List.filter_length_le ok_of principles).
Qed.
End Loop.

(** One call of [verify_output]: the record is appended, and the call
    returns it or raises the veto built from its violations. *)
Lemma verify_output_with_step rules self now output context :
  let r := built_record rules now output (default ∅ context) in
  verify_output_with rules self now output context
  = (if passed r then Ok r else Raise (veto r),
     {| verification_log := (verification_log self ++ [r])%list |}).
Proof.
  unfold verify_output_with. rewrite run_checks_closed.
  destruct (results_stats rules output (default ∅ context))
    as (Hsz & Hsum & Hall).
  rewrite Hsz, Hsum, Hall. cbn [py_truediv Pos.of_nat].
  unfold built_record, veto, true_div. cbn [passed violations].
  destruct (forallb _ principles); reflexivity.
Qed.

Lemma built_record_lookup rules now output context p :
  principle_results (built_record rules now output context) !! value p
  = Some (passes rules output context p).
Proof.
  apply record_results_lookup; [exact principles_NoDup | apply principles_all].
Qed.

Lemma forallb_principles (f : EthicalPrinciple → bool) :
  forallb f principles = true ↔ ∀ p, f p = true.
Proof.
  rewrite forallb_forall. split.
  - intros H p. apply H. apply list_elem_of_In, principles_all.
  - intros H p _. apply H.
Qed.

(** ** The gate: result, history, confidence *)

Lemma built_record_passed_all rules now output context :
  passed (built_record rules now output context) = true
  ↔ ∀ p, rules p output context = Ok true.
Proof.
  cbn [passed built_record]. rewrite forallb_principles.
  unfold passes, check_passed. split; intros H p; specialize (H p).
  - destruct (rules p output context) as [[|]|e]; done.
  - by rewrite H.
Qed.

Lemma built_record_violations rules now output context p :
  rules p output context ≠ Ok true →
  ∃ why, check_reason p (rules p output context) = Some why
         ∧ why ∈ violations (built_record rules now output context).
Proof.
  intros Hp. apply reason_elem_of; [apply principles_all |].
  unfold passes, check_passed.
  destruct (rules p output context) as [[|]|e]; done.
Qed.

(** C1. For every candidate and context, [verify_output] returns the record
    it created (and appended) when all five checks return [True]; when at
    least one check does not, it raises [CharterViolationError] whose text
    carries the list of violation reasons, one for each principle that
    failed. On [{"decision": "deny", "amount": 50000}] with
    [{"is_complex_decision": True}] it raises, the only reason being the
    transparency one. *)
Theorem verify_output_returns_or_vetoes
    (self : CharterLayer) (now : string)
    (output : Candidate) (context : option Dict) :
  let c := default ∅ context in
  ((∀ p, charter_rules p output c = Ok true) →
     ∃ r, verify_output self now output context
          = (Ok r, {| verification_log := (verification_log self ++ [r])%list |})
          ∧ passed r = true)
  ∧ ((∃ p, charter_rules p output c ≠ Ok true) →
     ∃ r, verify_output self now output context
          = (Raise (CharterViolationError
                      ("Output violates charter: " ++ py_repr (violations r))),
             {| verification_log := (verification_log self ++ [r])%list |})
          ∧ passed r = false
          ∧ violations r ≠ []
          ∧ (∀ p, charter_rules p output c = Ok false →
                  violated p ∈ violations r))
  ∧ (fst (verify_output self now (Mapping deny_50000) (Some complex_decision))
     = Raise (CharterViolationError
                "Output violates charter: ['Violated: transparency']")
     ∧ _check_transparency (Mapping deny_50000) complex_decision = Ok false).
Proof.
  intros c. unfold verify_output. split; [| split].
  - intros Hall. exists (built_record charter_rules now output c).
    rewrite verify_output_with_step. fold c.
    apply built_record_passed_all with (now := now) in Hall.
    by rewrite Hall.
  - intros [p Hp]. exists (built_record charter_rules now output c).
    rewrite verify_output_with_step. fold c.
    assert (Hfail : passed (built_record charter_rules now output c) = false).
    { apply not_true_is_false. rewrite built_record_passed_all.
      intros Hall. by apply Hp. }
    rewrite Hfail. split; [reflexivity |]. split; [reflexivity |]. split.
    + destruct (built_record_violations charter_rules now output c p Hp)
        as (why & _ & Hin).
      intros Hnil. rewrite Hnil in Hin. by apply elem_of_nil in Hin.
    + intros q Hq.
      destruct (built_record_violations charter_rules now output c q)
        as (why & Hwhy & Hin).
      * rewrite Hq. discriminate.
      * rewrite Hq in Hwhy. by injection Hwhy as <-.
  - split; [| reflexivity].
    rewrite verify_output_with_step. vm_compute. reflexivity.
Qed.

Lemma verify_output_returns_or_vetoes_witness :
  (∃ r, verify_output CharterLayer_init "t0" (Text "hello") None
        = (Ok r, {| verification_log := [r] |}) ∧ passed r = true)
  ∧ (∃ r, verify_output CharterLayer_init "t0" (Mapping deny_50000)
            (Some complex_decision)
          = (Raise (CharterViolationError
                      ("Output violates charter: " ++ py_repr (violations r))),
             {| verification_log := [r] |})
          ∧ passed r = false
          ∧ violations r ≠ []
          ∧ (∀ p, charter_rules p (Mapping deny_50000) complex_decision
                  = Ok false → violated p ∈ violations r)).
Proof.
  split.
  - apply (verify_output_returns_or_vetoes CharterLayer_init "t0"
             (Text "hello") None).
    intros p. destruct p; vm_compute; reflexivity.
  - apply (verify_output_returns_or_vetoes CharterLayer_init "t0"
             (Mapping deny_50000) (Some complex_decision)).
    exists TRANSPARENCY. vm_compute. discriminate.
Defined.

Lemma run_ops_snoc self ops op :
  run_ops self (ops ++ [op]) = run_op (run_ops self ops) op.
Proof. unfold run_ops. by rewrite foldl_app. Qed.

Lemma run_op_log self op :
  ∃ added,
    verification_log (run_op self op)
    = (verification_log self ++ added)%list
    ∧ length added = (if is_verify op then 1 else 0)
    ∧ ∀ r, r ∈ added → ∃ now output c, r = built_record charter_rules now output c.
Proof.
  destruct op as [now output context |]; cbn [run_op is_verify].
  - unfold verify_output. rewrite verify_output_with_step. cbn [snd verification_log].
    eexists. split; [reflexivity |]. split; [reflexivity |].
    intros r Hr. apply list_elem_of_singleton in Hr. eauto.
  - exists []. cbn. rewrite app_nil_r. split; [done |]. split; [done |].
    intros r Hr. by apply elem_of_nil in Hr.
Qed.

(** C3. Every call of [verify_output] appends exactly one record to the
    log, whatever the verdict; [get_verification_history] leaves the gate
    as it is; two calls on a fresh gate leave a log of length 2; and over
    any sequence of operations the earlier log stays as a prefix, one
    record longer per [verify_output]. *)
Theorem verification_log_append_only :
  (∀ self now output context, ∃ r,
      verification_log (snd (verify_output self now output context))
      = (verification_log self ++ [r])%list)
  ∧ (∀ self, snd (get_verification_history self) = self)
  ∧ (∀ now1 o1 c1 now2 o2 c2,
      length (verification_log
                (run_ops CharterLayer_init
                   [OpVerify now1 o1 c1; OpVerify now2 o2 c2])) = 2)
  ∧ (∀ self ops, ∃ added,
      verification_log (run_ops self ops)
      = (verification_log self ++ added)%list
      ∧ length added = length (List.filter is_verify ops)).
Proof.
  repeat split.
  - intros self now output context. unfold verify_output.
    rewrite verify_output_with_step. eexists. reflexivity.
  - intros now1 o1 c1 now2 o2 c2. unfold run_ops. cbn [foldl run_op].
    unfold verify_output. rewrite !verify_output_with_step. reflexivity.
  - intros self ops. induction ops as [| op ops IH] using rev_ind.
    + exists []. by rewrite app_nil_r.
    + destruct IH as (added & Hlog & Hlen).
      rewrite run_ops_snoc.
      destruct (run_op_log (run_ops self ops) op) as (more & Hmore & Hn & _).
      exists (added ++ more)%list. split.
      * by rewrite Hmore, Hlog, app_assoc.
      * rewrite List.filter_app, !length_app, Hlen, Hn. cbn [List.filter].
        destruct (is_verify op); reflexivity.
Qed.

(** C7. The confidence stored in the record a call creates is the number
    of principles whose check passed over the number of principles
    checked, five, both read from the record's own [principle_results];
    on the test string with an empty context the call passes with
    confidence 1.0. *)
Theorem confidence_is_fraction_passed
    (self : CharterLayer) (now : string)
    (output : Candidate) (context : option Dict) :
  let c := default ∅ context in
  (∃ r, verification_log (snd (verify_output self now output context))
        = (verification_log self ++ [r])%list
     ∧ (∀ p, principle_results r !! value p
             = Some (check_passed (charter_rules p output c)))
     ∧ size (principle_results r) = 5
     ∧ py_sum (principle_results r)
       = length (List.filter
                   (λ p, check_passed (charter_rules p output c)) principles)
     ∧ confidence r
       = true_div (py_sum (principle_results r)) (size (principle_results r))
     ∧ (confidence r == Z.of_nat (py_sum (principle_results r)) # 5)%Q)
  ∧ (∃ r, verify_output self now (Text test_output) (Some ∅)
          = (Ok r, {| verification_log := (verification_log self ++ [r])%list |})
     ∧ passed r = true ∧ confidence r = 1%Q).
Proof.
  intros c. unfold verify_output. split.
  - exists (built_record charter_rules now output c).
    rewrite verify_output_with_step. fold c. cbn [snd verification_log].
    destruct (results_stats charter_rules output c) as (Hsz & Hsum & _).
    cbn [principle_results confidence built_record].
    rewrite Hsz, Hsum.
    split; [reflexivity |]. split.
    { intros p. apply (built_record_lookup charter_rules now output c p). }
    do 3 (split; [reflexivity |]).
    apply Qred_correct.
  - exists (built_record charter_rules now (Text test_output) ∅).
    rewrite verify_output_with_step. cbn [default].
    assert (Hp : passed (built_record charter_rules now (Text test_output) ∅)
                 = true) by (vm_compute; reflexivity).
    rewrite Hp. split; [reflexivity |]. split; [reflexivity |].
    vm_compute. reflexivity.
Qed.

(** ** The gate: faults inside a check, and the shape of every record *)

(** C9. If the check of a principle raises, whatever the table of checks,
    that principle is recorded as failed and its reason, the text
    "Check failed: " followed by the principle's name, is in the record's
    violations; every principle still has its result in the record's
    [principle_results], the failures among them their reason in the
    violations ("Violated: " and the name for a check that returned
    [False]); and the call raises [CharterViolationError] from the
    aggregate failure, not the fault. *)
Theorem predicate_fault_fails_closed
    (rules : EthicalPrinciple → CheckFn) (self : CharterLayer) (now : string)
    (output : Candidate) (context : option Dict)
    (p : EthicalPrinciple) (e : PyExc) :
  let c := default ∅ context in
  rules p output c = Raise e →
  ∃ r, verify_output_with rules self now output context
       = (Raise (CharterViolationError
                   ("Output violates charter: " ++ py_repr (violations r))),
          {| verification_log := (verification_log self ++ [r])%list |})
     ∧ principle_results r !! value p = Some false
     ∧ "Check failed: " ++ value p ∈ violations r
     ∧ violations r ≠ []
     ∧ (∀ q, principle_results r !! value q
             = Some (check_passed (rules q output c)))
     ∧ (∀ q, rules q output c = Ok false →
             "Violated: " ++ value q ∈ violations r)
     ∧ (∀ q e', rules q output c = Raise e' →
                "Check failed: " ++ value q ∈ violations r).
Proof.
  intros c Hp. exists (built_record rules now output c).
  rewrite verify_output_with_step. fold c.
  assert (Hne : rules p output c ≠ Ok true) by (rewrite Hp; discriminate).
  assert (Hfail : passed (built_record rules now output c) = false).
  { apply not_true_is_false. rewrite built_record_passed_all.
    intros Hall. by apply Hne. }
  rewrite Hfail. split; [reflexivity |].
  assert (Hlookup : ∀ q, principle_results (built_record rules now output c)
                           !! value q
                         = Some (check_passed (rules q output c))).
  { intros q. apply built_record_lookup. }
  assert (Hraised : ∀ q e', rules q output c = Raise e' →
            "Check failed: " ++ value q
            ∈ violations (built_record rules now output c)).
  { intros q e' Hq.
    destruct (built_record_violations rules now output c q)
      as (why & Hwhy & Hin).
    - rewrite Hq. discriminate.
    - rewrite Hq in Hwhy. cbn [check_reason] in Hwhy. unfold check_failed in Hwhy.
      by injection Hwhy as <-. }
  split; [| split; [| split; [| split; [| split]]]].
  - rewrite Hlookup, Hp. reflexivity.
  - exact (Hraised p e Hp).
  - intros Hnil. pose proof (Hraised p e Hp) as Hin. rewrite Hnil in Hin.
    by apply elem_of_nil in Hin.
  - exact Hlookup.
  - intros q Hq.
    destruct (built_record_violations rules now output c q)
      as (why & Hwhy & Hin).
    + rewrite Hq. discriminate.
    + rewrite Hq in Hwhy. cbn [check_reason] in Hwhy. unfold violated in Hwhy.
      by injection Hwhy as <-.
  - exact Hraised.
Qed.

Lemma predicate_fault_fails_closed_witness :
  _check_safety (Text "fine") uncertainty_high
  = Raise (Exception "TypeError" "'>' not supported")
  ∧ ∃ r, verify_output CharterLayer_init "t0" (Text "fine")
           (Some uncertainty_high)
         = (Raise (CharterViolationError
                     ("Output violates charter: " ++ py_repr (violations r))),
            {| verification_log := [r] |})
       ∧ principle_results r !! "safety" = Some false
       ∧ "Check failed: safety" ∈ violations r
       ∧ violations r ≠ []
       ∧ (∀ q, principle_results r !! value q
               = Some (check_passed
                         (charter_rules q (Text "fine") uncertainty_high)))
       ∧ (∀ q, charter_rules q (Text "fine") uncertainty_high = Ok false →
               "Violated: " ++ value q ∈ violations r)
       ∧ (∀ q e', charter_rules q (Text "fine") uncertainty_high = Raise e' →
                  "Check failed: " ++ value q ∈ violations r).
Proof.
  split; [vm_compute; reflexivity |].
  apply (predicate_fault_fails_closed charter_rules CharterLayer_init "t0"
           (Text "fine") (Some uncertainty_high) SAFETY
           (Exception "TypeError" "'>' not supported")).
  vm_compute. reflexivity.
Defined.

Lemma fraction_of_five (n : nat) :
  (n ≤ 5)%nat →
  (n = 5 ∧ Qred (Z.of_nat n # 5) = 1%Q)
  ∨ ((n < 5)%nat ∧ (Qred (Z.of_nat n # 5) < 1)%Q ∧ Qred (Z.of_nat n # 5) ≠ 1%Q).
Proof.
  intros Hn.
  do 5 (destruct n as [| n];
        [right; split; [lia |]; split; [vm_compute; reflexivity | discriminate] |]).
  destruct n as [| n]; [| lia].
  left. split; [reflexivity | vm_compute; reflexivity].
Qed.

Lemma built_record_consistent rules now output context :
  let r := built_record rules now output context in
  (passed r = true ↔ confidence r = 1%Q)
  ∧ (passed r = false → (confidence r < 1)%Q ∧ violations r ≠ [])
  ∧ (passed r = true → violations r = []).
Proof.
  cbn [passed confidence violations built_record].
  pose proof (count_passed_le rules output context) as Hle.
  pose proof (count_passed_all rules output context principles) as Hall.
  pose proof (omap_reason_nil rules output context principles) as Hnil.
  change (length principles) with 5 in Hall.
  destruct (fraction_of_five _ Hle) as [[Hn Hq] | (Hn & Hlt & Hne)].
  - assert (Hp : forallb (passes rules output context) principles = true)
      by (by apply Hall).
    rewrite Hp. split; [done |]. split; [discriminate |].
    intros _. by apply Hnil.
  - assert (Hp : forallb (passes rules output context) principles = false).
    { apply not_true_is_false. intros Hp. apply Hall in Hp. lia. }
    rewrite Hp. split; [| split].
    + split; [discriminate | intros Hq; by destruct Hne].
    + intros _. split; [exact Hlt |].
      intros Hv. apply Hnil in Hv. rewrite Hp in Hv. discriminate Hv.
    + discriminate.
Qed.

Lemma run_ops_records ops :
  ∀ r, r ∈ verification_log (run_ops CharterLayer_init ops) →
       ∃ now output c, r = built_record charter_rules now output c.
Proof.
  induction ops as [| op ops IH] using rev_ind; intros r Hr.
  - by apply elem_of_nil in Hr.
  - rewrite run_ops_snoc in Hr.
    destruct (run_op_log (run_ops CharterLayer_init ops) op)
      as (added & Hlog & _ & Hadded).
    rewrite Hlog in Hr. apply elem_of_app in Hr as [Hr | Hr].
    + by apply IH.
    + by apply Hadded.
Qed.

(** C10. Every record in a history the gate can have satisfies: [passed]
    is true exactly when [confidence] is 1.0; a record with [passed]
    false has a confidence below 1.0 and at least one violation; a record
    with [passed] true has no violation. *)
Theorem history_records_consistent (ops : list GateOp) (r : OutputVerification) :
  r ∈ verification_log (run_ops CharterLayer_init ops) →
  (passed r = true ↔ confidence r = 1%Q)
  ∧ (passed r = false → (confidence r < 1)%Q ∧ violations r ≠ [])
  ∧ (passed r = true → violations r = []).
Proof.
  intros Hr. apply run_ops_records in Hr as (now & output & c & ->).
  apply built_record_consistent.
Qed.

Lemma history_records_consistent_witness :
  let r := built_record charter_rules "t1" (Mapping deny_50000)
             complex_decision in
  (passed r = true ↔ confidence r = 1%Q)
  ∧ (passed r = false → (confidence r < 1)%Q ∧ violations r ≠ [])
  ∧ (passed r = true → violations r = []).
Proof.
  intros r.
  apply (history_records_consistent
           [OpVerify "t0" (Text "hello") None;
            OpVerify "t1" (Mapping deny_50000) (Some complex_decision)] r).
  unfold run_ops. cbn [foldl run_op]. unfold verify_output.
  rewrite !verify_output_with_step. cbn [snd verification_log app default].
  apply list_elem_of_further, list_elem_of_here.
Defined.

(** ** The principle checks *)

Lemma contains_token_py_in tok text :
  contains_token tok text ↔ py_in tok (py_lower text) = true.
Proof. unfold contains_token. symmetry. apply py_in_spec. Qed.

Lemma some_token_py_in (toks : list string) (text : string) :
  (∃ tok, tok ∈ toks ∧ contains_token tok text)
  ↔ existsb (λ tok, py_in tok (py_lower text)) toks = true.
Proof. unfold contains_token. symmetry. apply existsb_py_in. Qed.

Lemma hasattr_true o attr : hasattr o attr = true ↔ attr ∈ cand_attrs o.
Proof. unfold hasattr. apply bool_decide_eq_true. Qed.

Lemma hasattr_false o attr : hasattr o attr = false ↔ attr ∉ cand_attrs o.
Proof. unfold hasattr. apply bool_decide_eq_false. Qed.

Lemma deception_markers_lower marker :
  marker ∈ deception_markers → py_lower marker = marker.
Proof.
  unfold deception_markers. rewrite !elem_of_cons, elem_of_nil.
  intros [-> | [-> | [-> | [-> | []]]]]; reflexivity.
Qed.

Lemma sensitive_keywords_lower keyword :
  keyword ∈ sensitive_keywords → py_lower keyword = keyword.
Proof.
  unfold sensitive_keywords. rewrite !elem_of_cons, elem_of_nil.
  intros [-> | [-> | [-> | [-> | []]]]]; reflexivity.
Qed.

(** C4, as the code has it. The consent rule applies to a context that
    names a user: when [user_id] and [requires_consent] are true and
    [consent_given] is not, HUMAN_DIGNITY fails whatever the candidate;
    and a textual candidate that contains one of the sensitive-data
    keywords fails HUMAN_DIGNITY in every context. Without a [user_id]
    the consent rule does not apply: the verdict is the one on the empty
    context, whatever [requires_consent] and [consent_given] are, and
    the check passes unless the candidate is a text that contains one of
    the keywords. *)
Theorem dignity_fails_without_consent :
  (∀ (output : Candidate) (context : Dict),
      truthy (dict_get context "user_id" PyNone) = true →
      truthy (dict_get context "requires_consent" PyNone) = true →
      truthy (dict_get context "consent_given" (PyBool false)) = false →
      _check_dignity output context = Ok false)
  ∧ (∀ (attrs : list string) (s : string) (context : Dict) (keyword : string),
      keyword ∈ sensitive_keywords →
      contains_token keyword s →
      _check_dignity {| cand_attrs := attrs; cand_value := PyStr s |} context
      = Ok false)
  ∧ (∀ (output : Candidate) (context : Dict),
      truthy (dict_get context "user_id" PyNone) = false →
      _check_dignity output context = _check_dignity output ∅
      ∧ ((∀ s, cand_value output = PyStr s →
               ¬ ∃ keyword, keyword ∈ sensitive_keywords
                            ∧ contains_token keyword s) →
         _check_dignity output context = Ok true)).
Proof.
  split; [| split].
  - intros output context Huser Hreq Hconsent. unfold _check_dignity.
    rewrite Huser, Hreq, Hconsent. cbn [andb negb].
    by destruct (match cand_value output with PyStr _ => _ | _ => _ end).
  - intros attrs s context keyword Hin Hc. unfold _check_dignity.
    cbn [cand_value].
    assert (Hleak : existsb (λ kw, py_in kw (py_lower s)) sensitive_keywords
                    = true).
    { apply some_token_py_in. by exists keyword. }
    by rewrite Hleak.
  - intros output context Huser. unfold _check_dignity. rewrite Huser.
    unfold dict_get at 3. rewrite lookup_empty. cbn [truthy andb].
    split; [reflexivity |]. intros Hclean.
    destruct (cand_value output) as [| | | | s | | |] eqn:Hvalue;
      try reflexivity.
    destruct (existsb (λ kw, py_in kw (py_lower s)) sensitive_keywords)
      eqn:Hleak; [| reflexivity].
    destruct (Hclean s eq_refl). by apply some_token_py_in.
Qed.

Lemma dignity_fails_without_consent_witness :
  _check_dignity (Text "hello") consent_required_of_user = Ok false
  ∧ _check_dignity (Text "Patient john.doe@example.com has SSN 123-45-6789") ∅
    = Ok false
  ∧ _check_dignity (Text "hello") consent_required
    = _check_dignity (Text "hello") ∅
  ∧ _check_dignity (Text "hello") consent_required = Ok true.
Proof.
  pose proof dignity_fails_without_consent as (Hconsent & Hkeyword & Hnobody).
  split; [| split].
  - apply Hconsent; vm_compute; reflexivity.
  - apply (Hkeyword [] _ ∅ "ssn").
    + unfold sensitive_keywords. rewrite !elem_of_cons. auto.
    + apply contains_token_py_in. vm_compute. reflexivity.
  - assert (Huser : truthy (dict_get consent_required "user_id" PyNone)
                    = false) by (vm_compute; reflexivity).
    pose proof (Hnobody (Text "hello") consent_required Huser)
      as [Hsame Hpass].
    split; [exact Hsame |]. apply Hpass.
    intros s [= <-] Hsome. apply some_token_py_in in Hsome.
    vm_compute in Hsome. discriminate Hsome.
Defined.

(** C4 as stated fails: with [requires_consent] true, [consent_given]
    absent and no [user_id], HUMAN_DIGNITY passes. *)
Lemma dignity_passes_without_user_id :
  truthy (dict_get consent_required "requires_consent" PyNone) = true
  ∧ truthy (dict_get consent_required "consent_given" (PyBool false)) = false
  ∧ _check_dignity (Text "hello") consent_required = Ok true
  ∧ ¬ (∀ (output : Candidate) (context : Dict),
         truthy (dict_get context "requires_consent" PyNone) = true →
         truthy (dict_get context "consent_given" (PyBool false)) = false →
         _check_dignity output context = Ok false).
Proof.
  assert (Hpass : _check_dignity (Text "hello") consent_required = Ok true)
    by (vm_compute; reflexivity).
  repeat split; try (vm_compute; reflexivity).
  intros Hclaim.
  specialize (Hclaim (Text "hello") consent_required).
  rewrite Hpass in Hclaim.
  assert (Habs : Ok true = Ok false)
    by (apply Hclaim; vm_compute; reflexivity).
  discriminate Habs.
Qed.

(** C5. On a textual candidate FAIRNESS fails exactly when the text
    contains a discriminatory phrase of the list and a protected
    attribute of the list (both looked up in the lower-cased text), and
    passes otherwise; so a text with a discriminatory phrase and no
    protected attribute passes. *)
Theorem fairness_fails_iff_both
    (attrs : list string) (s : string) (context : Dict) :
  let output := {| cand_attrs := attrs; cand_value := PyStr s |} in
  let has_phrase :=
    ∃ phrase, phrase ∈ discriminatory_phrases ∧ contains_token phrase s in
  let has_attribute :=
    ∃ attr, attr ∈ protected_attributes ∧ contains_token attr s in
  (_check_fairness output context = Ok false ↔ has_phrase ∧ has_attribute)
  ∧ (_check_fairness output context = Ok true ↔ ¬ (has_phrase ∧ has_attribute))
  ∧ (has_phrase → ¬ has_attribute → _check_fairness output context = Ok true).
Proof.
  intros output has_phrase has_attribute.
  assert (Hboth :
    existsb (λ phrase,
        py_in phrase (py_lower s) &&
        existsb (λ attr, py_in attr (py_lower s)) protected_attributes)
      discriminatory_phrases = true
    ↔ has_phrase ∧ has_attribute).
  { unfold has_phrase, has_attribute. rewrite !some_token_py_in.
    generalize (existsb (λ attr, py_in attr (py_lower s)) protected_attributes).
    intros b. induction discriminatory_phrases as [| ph phs IH]; simpl.
    - split; [discriminate | intros [H _]; discriminate H].
    - rewrite !orb_true_iff, andb_true_iff, IH. tauto. }
  unfold _check_fairness. cbn [cand_value output].
  destruct (existsb _ discriminatory_phrases).
  - split; [| split].
    + split; [intros _; by apply Hboth | done].
    + split; [discriminate | intros Hn; destruct Hn; by apply Hboth].
    + intros Hp Ha. destruct Ha. by apply Hboth.
  - assert (Hn : ¬ (has_phrase ∧ has_attribute)).
    { intros H. apply Hboth in H. discriminate H. }
    split; [| split].
    + split; [discriminate | intros H; by destruct Hn].
    + done.
    + done.
Qed.

Lemma fairness_fails_iff_both_witness :
  _check_fairness
    (Text "Women should not apply for this role due to inferior capabilities")
    ∅ = Ok true
  ∧ _check_fairness (Text "Older people are UNFIT for this; age matters") ∅
    = Ok false.
Proof.
  split.
  - apply (fairness_fails_iff_both []).
    + apply some_token_py_in. vm_compute. reflexivity.
    + rewrite some_token_py_in. vm_compute. discriminate.
  - apply (fairness_fails_iff_both []). split.
    + apply some_token_py_in. vm_compute. reflexivity.
    + apply some_token_py_in. vm_compute. reflexivity.
Defined.

(** C6. A candidate that exposes a confidence or uncertainty indicator,
    as an attribute or as a field of a mapping, passes NO_DECEPTION
    whatever its wording; a textual candidate without such an attribute
    whose text contains a phrase of the absolute-certainty list fails
    it. *)
Theorem honesty_indicator_exempts :
  (∀ (output : Candidate) (context : Dict),
      exposes_indicator output → _check_honesty output context = Ok true)
  ∧ (∀ (attrs : list string) (s : string) (context : Dict) (marker : string),
      "confidence" ∉ attrs → "uncertainty" ∉ attrs →
      marker ∈ deception_markers →
      contains_token marker s ∨ occurs_in marker s →
      _check_honesty {| cand_attrs := attrs; cand_value := PyStr s |} context
      = Ok false).
Proof.
  split.
  - intros output context Hexp. unfold _check_honesty.
    destruct Hexp as [Hc | [Hu | (d & Hd & _)]].
    + apply hasattr_true in Hc. by rewrite Hc.
    + apply hasattr_true in Hu. rewrite Hu. by rewrite orb_true_r.
    + rewrite Hd. by destruct (hasattr output "confidence" || hasattr output "uncertainty").
  - intros attrs s context marker Hc Hu Hin Hocc. unfold _check_honesty.
    apply (hasattr_false {| cand_attrs := attrs; cand_value := PyStr s |}) in Hc, Hu.
    rewrite Hc, Hu. cbn [orb cand_value].
    assert (Htok : contains_token marker s).
    { destruct Hocc as [H | H]; [exact H |].
      apply occurs_in_lower; [by apply deception_markers_lower | exact H]. }
    assert (Hhit : existsb (λ m, py_in (py_lower m) (py_lower s))
                     deception_markers = true).
    { apply existsb_exists. exists marker. split.
      - by apply list_elem_of_In.
      - rewrite deception_markers_lower by exact Hin.
        by apply contains_token_py_in. }
    by rewrite Hhit.
Qed.

Lemma honesty_indicator_exempts_witness :
  _check_honesty
    {| cand_attrs := ["confidence"];
       cand_value := PyStr "This is absolutely certain" |} ∅ = Ok true
  ∧ _check_honesty
      (Mapping (<["confidence" := PyFloat (85 # 100)]>
                (<["prediction" := PyStr "guaranteed"]> ∅))) ∅ = Ok true
  ∧ _check_honesty
      (Text "This outcome is absolutely guaranteed with certainty") ∅
    = Ok false.
Proof.
  destruct honesty_indicator_exempts as [Hexempt Hdeny].
  split; [| split].
  - apply Hexempt. left. cbn. set_solver.
  - apply Hexempt. right. right. eexists. split; [reflexivity |].
    left. vm_compute. eauto.
  - apply (Hdeny [] _ ∅ "guaranteed").
    + set_solver.
    + set_solver.
    + unfold deception_markers. set_solver.
    + left. apply contains_token_py_in. vm_compute. reflexivity.
Defined.

(** ** The orchestrator *)

Lemma blocked_count_filter (history : list OutputVerification) :
  blocked_count history
  = length (List.filter (λ v, negb (passed v)) history).
Proof.
  unfold blocked_count.
  assert (Hacc : ∀ l n,
    foldl (λ acc v, if negb (passed v) then acc + 1 else acc) n l
    = n + length (List.filter (λ v, negb (passed v)) l)).
  { induction l as [| v l IH]; intros n; simpl; [lia |].
    rewrite IH. destruct (negb (passed v)); simpl; lia. }
  by rewrite Hacc.
Qed.

Lemma Qlt_bool_iff (x y : Q) : Qlt_bool x y = true ↔ (x < y)%Q.
Proof.
  unfold Qlt_bool. rewrite negb_true_iff. split.
  - intros Hb. apply Qnot_le_lt. intros Hle.
    apply Qle_bool_iff in Hle. congruence.
  - intros Hlt. apply not_true_is_false. intros Hb.
    apply Qle_bool_iff in Hb. by apply Qlt_not_le in Hlt.
Qed.

(** C8. With [N] records in the gate's history, [V] of them with
    [passed] false, [detect_alignment_drift] reports the rate [V / N]
    (0 for an empty history), the score [1 - rate] and drift exactly
    when the rate exceeds 0.1; it stores score and drift flag in the
    system state and touches nothing else; run again on the state it
    left, it reports the same and leaves the state as it is. *)
Theorem drift_report_from_history {Sv : Type} (self : SynergyEngine Sv) :
  let history := verification_log (charter_layer self) in
  let N := length history in
  let V := length (List.filter (λ v, negb (passed v)) history) in
  ∃ report self',
    detect_alignment_drift self = (Ok report, self')
    ∧ total_checks report = N
    ∧ (violation_rate report
       == if Nat.eqb N 0 then 0 else Z.of_nat V # Pos.of_nat N)%Q
    ∧ (report_alignment_score report == 1 - violation_rate report)%Q
    ∧ (drift_detected report = true ↔ (1 # 10 < violation_rate report)%Q)
    ∧ alignment_score (system_state self') = report_alignment_score report
    ∧ ethical_drift_detected (system_state self') = drift_detected report
    ∧ coherence_level (system_state self')
      = coherence_level (system_state self)
    ∧ last_synthesis (system_state self')
      = last_synthesis (system_state self)
    ∧ self' = set_system_state (system_state self') self
    ∧ detect_alignment_drift self' = (Ok report, self').
Proof.
  intros history N V. unfold detect_alignment_drift.
  cbn [get_verification_history]. fold history.
  rewrite blocked_count_filter. fold V N.
  eexists _, _. split; [reflexivity |].
  cbn [total_checks violation_rate report_alignment_score drift_detected
       system_state set_system_state set_charter_layer set_drift
       alignment_score ethical_drift_detected coherence_level last_synthesis
       charter_layer].
  split; [reflexivity |]. split.
  { destruct N as [| n]; [reflexivity |]. cbn [Nat.ltb Nat.leb Nat.eqb].
    unfold true_div. apply Qred_correct. }
  split; [apply Qred_correct |].
  split; [apply Qlt_bool_iff |].
  do 4 (split; [reflexivity |]).
  split; [by destruct self |].
  fold history. rewrite blocked_count_filter. fold V N. reflexivity.
Qed.

(** ** [process] on the veto path *)

Section Process.
Context {Sv : Type} `{Collaborators Sv}.
Implicit Types self s : SynergyEngine Sv.

Lemma untouched_refl s : untouched s s.
Proof. repeat split. exists []. by rewrite app_nil_r. Qed.

Lemma untouched_trans s1 s2 s3 :
  untouched s1 s2 → untouched s2 s3 → untouched s1 s3.
Proof.
  intros (Ht & Hs & Hc & Hg & more & Ha) (Ht' & Hs' & Hc' & Hg' & more' & Ha').
  repeat split; try congruence.
  exists (more ++ more')%list. by rewrite Ha', Ha, app_assoc.
Qed.

Lemma untouched_vetoed s1 s2 s3 msg :
  untouched s1 s2 → vetoed s2 s3 msg → vetoed s1 s3 msg.
Proof.
  intros (Ht & Hs & Hc & Hg & more & Ha)
         (Ht' & Hs' & Hc' & (more' & Ha') & record & Hlog & Hrec).
  repeat split; try congruence.
  - exists (more ++ more')%list. by rewrite Ha', Ha, app_assoc.
  - exists record. by rewrite Hlog, Hg.
Qed.

Lemma quiet_ret {A} (a : A) : quiet (ret (Sv := Sv) a).
Proof. intros s. split; [apply untouched_refl | discriminate]. Qed.

Lemma quiet_datetime_now : quiet (datetime_now (Sv := Sv)).
Proof.
  intros s. split; [| discriminate].
  repeat split. exists []. cbn. by rewrite app_nil_r.
Qed.

Lemma quiet_call {A} (f : Sv → Reply A * Sv) : quiet (call f).
Proof.
  intros s. unfold call. destruct (f (services s)) as [[a | cls msg] sv'];
    (split; [| discriminate]);
    repeat split; exists []; cbn; by rewrite app_nil_r.
Qed.

Lemma quiet_bind {A B} (m : M Sv A) (k : A → M Sv B) :
  quiet m → (∀ a, quiet (k a)) → quiet (bind m k).
Proof.
  intros Hm Hk s. unfold bind. destruct (Hm s) as [Hu Hne].
  destruct (m s) as [[a | e] s1]; cbn [fst snd] in *.
  - destruct (Hk a s1) as [Hu' Hne']. split; [| exact Hne'].
    by eapply untouched_trans.
  - split; [exact Hu |].
    intros msg Heq. apply (Hne msg). by injection Heq as ->.
Qed.

Lemma quiet_audit event details : quiet (_audit event details).
Proof.
  intros s. unfold _audit. destruct (audit_enabled (config s)).
  - split; [| discriminate]. cbn. repeat split. eexists. reflexivity.
  - split; [apply untouched_refl | discriminate].
Qed.

Lemma quiet_if {A} (b : bool) (m1 m2 : M Sv A) :
  quiet m1 → quiet m2 → quiet (if b then m1 else m2).
Proof. by destruct b. Qed.

Lemma sum_features_raises acc features e :
  sum_features acc features = Raise e →
  e = Exception "OverflowError" "int too large to convert to float".
Proof.
  revert acc. induction features as [| f rest IH]; intros acc;
    cbn [sum_features]; [discriminate |].
  destruct (feature_value f) as [x | e'] eqn:Hf; [apply IH |].
  intros [= <-]. unfold feature_value in Hf.
  destruct f as [| | z | | | | |]; try discriminate Hf.
  destruct (float_overflows z); [| discriminate Hf]. by injection Hf as <-.
Qed.

Lemma drs_raises input_data context e :
  _process_through_drs input_data context = Raise e →
  e = Exception "OverflowError" "int too large to convert to float".
Proof.
  unfold _process_through_drs.
  destruct input_data as [| | | | | | d |]; try discriminate.
  destruct (negb _); [| discriminate].
  destruct (sum_features 0 (map_to_list d).*2) as [total | e'] eqn:Hsum;
    [discriminate |].
  intros [= <-]. by apply sum_features_raises in Hsum.
Qed.

Lemma quiet_drs input_data context :
  quiet (of_result (Sv := Sv) (_process_through_drs input_data context)).
Proof.
  intros s. split; [apply untouched_refl |]. cbn [of_result fst].
  intros msg Hveto. apply drs_raises in Hveto. discriminate Hveto.
Qed.

Lemma veto_safe_bind_quiet {A B} (m : M Sv A) (k : A → M Sv B) :
  quiet m → (∀ a, veto_safe (k a)) → veto_safe (bind m k).
Proof.
  intros Hm Hk s msg s' Hrun. unfold bind in Hrun.
  destruct (Hm s) as [Hu Hne].
  destruct (m s) as [[a | e] s1]; cbn [fst snd] in *.
  - eapply untouched_vetoed; [exact Hu |]. by apply (Hk a).
  - injection Hrun as -> ->. by destruct (Hne msg).
Qed.

Lemma never_vetoes_bind {A B} (m : M Sv A) (k : A → M Sv B) :
  never_vetoes m → (∀ a, never_vetoes (k a)) → never_vetoes (bind m k).
Proof.
  intros Hm Hk s msg. unfold bind. specialize (Hm s msg).
  destruct (m s) as [[a | e] s1]; cbn [fst] in *; [apply Hk |].
  intros Heq. apply Hm. by injection Heq as ->.
Qed.

Lemma quiet_never_vetoes {A} (m : M Sv A) : quiet m → never_vetoes m.
Proof. intros Hm s. apply Hm. Qed.

Lemma never_vetoes_modify (f : SynergyEngine Sv → SynergyEngine Sv) :
  never_vetoes (modify f).
Proof. intros s msg. discriminate. Qed.

Lemma never_vetoes_store task_id final_output :
  never_vetoes (store_task (Sv := Sv) task_id final_output).
Proof.
  unfold store_task. destruct (hashable task_id); intros s msg; discriminate.
Qed.

(** The gate call: a veto appends the failed record and changes
    nothing else but the clock. *)
Lemma charter_verify_run output context s :
  let r := built_record charter_rules (isoformat (clock (ticks s)))
             (Mapping output) context in
  charter_verify output context s
  = (if passed r then Ok r else Raise (veto r),
     set_charter_layer
       {| verification_log :=
            (verification_log (charter_layer s) ++ [r])%list |}
       (set_ticks (S (ticks s)) s)).
Proof.
  unfold charter_verify, bind, datetime_now, verify_output.
  rewrite verify_output_with_step. reflexivity.
Qed.

Lemma veto_safe_charter {B} output context (k : OutputVerification → M Sv B) :
  (∀ r, never_vetoes (k r)) →
  veto_safe (bind (charter_verify output context) k).
Proof.
  intros Hk s msg s' Hrun. unfold bind in Hrun.
  rewrite charter_verify_run in Hrun.
  set (r := built_record _ _ _ _) in *.
  destruct (passed r) eqn:Hp.
  - exfalso. eapply (Hk r). rewrite Hrun. reflexivity.
  - assert (Hmsg : veto r = CharterViolationError msg) by congruence.
    assert (Hs' : s' = set_charter_layer
              {| verification_log :=
                   (verification_log (charter_layer s) ++ [r])%list |}
              (set_ticks (S (ticks s)) s)) by congruence.
    subst s'. unfold veto in Hmsg. injection Hmsg as Hmsg.
    split; [reflexivity |]. split; [reflexivity |]. split; [reflexivity |].
    split.
    + exists []. cbn. by rewrite app_nil_r.
    + exists r. split; [reflexivity |]. split; [exact Hp |].
      symmetry. exact Hmsg.
Qed.

Lemma veto_safe_process_body input_data context task_id :
  veto_safe (process_body input_data context task_id).
Proof.
  unfold process_body.
  apply veto_safe_bind_quiet; [apply quiet_call | intros sanitized_input].
  apply veto_safe_bind_quiet; [apply quiet_audit | intros _].
  apply veto_safe_bind_quiet; [apply quiet_drs | intros score].
  apply veto_safe_bind_quiet; [apply quiet_call | intros biases].
  apply veto_safe_bind_quiet;
    [apply quiet_if; [apply quiet_audit | apply quiet_ret] | intros _].
  apply veto_safe_bind_quiet;
    [apply quiet_if; [apply quiet_call | apply quiet_ret] | intros drs_output].
  apply veto_safe_bind_quiet; [apply quiet_call | intros explanation].
  apply veto_safe_charter. intros charter_result.
  apply never_vetoes_bind;
    [apply quiet_never_vetoes, quiet_audit | intros _].
  apply never_vetoes_bind;
    [apply quiet_never_vetoes, quiet_datetime_now | intros now].
  apply never_vetoes_bind; [apply never_vetoes_store | intros _].
  apply never_vetoes_bind;
    [apply quiet_never_vetoes, quiet_datetime_now | intros now'].
  apply never_vetoes_bind; [apply never_vetoes_modify | intros _].
  apply quiet_never_vetoes, quiet_ret.
Qed.

Lemma keeps_config_bind {A B} (m : M Sv A) (k : A → M Sv B) :
  keeps_config m → (∀ a, keeps_config (k a)) → keeps_config (bind m k).
Proof.
  intros Hm Hk s. unfold bind. specialize (Hm s).
  destruct (m s) as [[a | e] s1]; cbn [snd] in *; [| exact Hm].
  by rewrite Hk.
Qed.

Lemma keeps_config_quiet {A} (m : M Sv A) : quiet m → keeps_config m.
Proof. intros Hm s. by destruct (Hm s) as [(_ & _ & Hc & _) _]. Qed.

Lemma keeps_config_try {A} (body : M Sv A) (handler : PyExc → M Sv A) :
  keeps_config body → (∀ e, keeps_config (handler e)) →
  keeps_config (try_except body handler).
Proof.
  intros Hb Hh s. unfold try_except. specialize (Hb s).
  destruct (body s) as [[a | e] s1]; cbn [snd] in *; [exact Hb |].
  by rewrite Hh.
Qed.

Lemma keeps_config_charter output context :
  keeps_config (charter_verify (Sv := Sv) output context).
Proof. intros s. by rewrite charter_verify_run. Qed.

Lemma keeps_config_raise {A} (e : PyExc) : keeps_config (raise (Sv := Sv) (A := A) e).
Proof. intros s. reflexivity. Qed.

(** [process] never changes the configuration, so an engine that audits
    keeps auditing. *)
Lemma process_keeps_config input_data context :
  keeps_config (process (Sv := Sv) input_data context).
Proof.
  unfold process.
  apply keeps_config_bind;
    [apply keeps_config_quiet, quiet_datetime_now | intros now].
  apply keeps_config_try.
  - unfold process_body.
    apply keeps_config_bind; [apply keeps_config_quiet, quiet_call | intros ?].
    apply keeps_config_bind; [apply keeps_config_quiet, quiet_audit | intros _].
    apply keeps_config_bind; [apply keeps_config_quiet, quiet_drs | intros ?].
    apply keeps_config_bind; [apply keeps_config_quiet, quiet_call | intros ?].
    apply keeps_config_bind;
      [apply keeps_config_quiet, quiet_if; [apply quiet_audit | apply quiet_ret]
      | intros _].
    apply keeps_config_bind;
      [apply keeps_config_quiet, quiet_if; [apply quiet_call | apply quiet_ret]
      | intros ?].
    apply keeps_config_bind; [apply keeps_config_quiet, quiet_call | intros ?].
    apply keeps_config_bind; [apply keeps_config_charter | intros ?].
    apply keeps_config_bind; [apply keeps_config_quiet, quiet_audit | intros _].
    apply keeps_config_bind;
      [apply keeps_config_quiet, quiet_datetime_now | intros ?].
    apply keeps_config_bind.
    { unfold store_task. destruct (hashable _); intros s; reflexivity. }
    intros _.
    apply keeps_config_bind;
      [apply keeps_config_quiet, quiet_datetime_now | intros ?].
    apply keeps_config_bind; [intros s; reflexivity | intros _].
    apply keeps_config_quiet, quiet_ret.
  - intros [msg | cls msg]; cbn [process_handler];
      (apply keeps_config_bind;
       [apply keeps_config_quiet, quiet_audit
       | intros _; apply keeps_config_raise]).
Qed.

(** The constructor only returns an engine whose configuration has
    auditing on; the engine starts with no task, no verification record
    and no synthesis. *)
Lemma SynergyEngine_init_state cfg (sv : Sv) t0 self :
  SynergyEngine_init cfg sv t0 = Ok self →
  audit_enabled (config self) = true
  ∧ active_tasks self = []
  ∧ verification_log (charter_layer self) = []
  ∧ last_synthesis (system_state self) = None.
Proof.
  unfold SynergyEngine_init, bind, datetime_now, _verify_governance_compliance.
  cbn [fst snd set_ticks config].
  destruct (audit_enabled cfg) eqn:Haudit.
  - destruct (negb _); [discriminate |].
    unfold bind, _audit, ret, modify, bind, datetime_now. cbn. rewrite Haudit.
    cbn. rewrite Haudit. cbn. intros [= <-]. cbn. by rewrite Haudit.
  - rewrite !andb_false_r, andb_false_l. cbn. discriminate.
Qed.

(** C2. When [process] ends in a veto, the task map is as before the
    call, and so is the system state, [last_synthesis] included; the
    gate has logged one more record, a failed one whose violations the
    error carries; the last entry of the audit trail records the block
    with the error's text; the error raised is the gate's. *)
Theorem process_veto_leaves_no_trace
    (self self' : SynergyEngine Sv) (input_data : PyVal)
    (context : option Dict) (msg : string) :
  audit_enabled (config self) = true →
  process input_data context self
  = (Raise (CharterViolationError msg), self') →
  active_tasks self' = active_tasks self
  ∧ (∀ task_id, getitem task_id (active_tasks self')
                = getitem task_id (active_tasks self))
  ∧ last_synthesis (system_state self')
    = last_synthesis (system_state self)
  ∧ system_state self' = system_state self
  ∧ (∃ record,
       verification_log (charter_layer self')
       = (verification_log (charter_layer self) ++ [record])%list
       ∧ passed record = false
       ∧ msg = "Output violates charter: " ++ py_repr (violations record))
  ∧ (∃ earlier blocked,
       audit_log self' = (audit_log self ++ earlier ++ [blocked])%list
       ∧ entry_event blocked = "Output blocked by CharterLayer"
       ∧ entry_details blocked = <["error" := PyStr msg]> ∅).
Proof.
  intros Haudit Hrun. unfold process in Hrun.
  unfold bind at 1, datetime_now at 1 in Hrun. cbn [fst snd] in Hrun.
  set (s0 := set_ticks (S (ticks self)) self) in *.
  set (task_id := dict_get _ "task_id" _) in *.
  unfold try_except in Hrun.
  destruct (process_body input_data (default ∅ context) task_id s0)
    as [[out | e] s1] eqn:Hbody; [discriminate Hrun |].
  destruct e as [msg' | cls msg'].
  - apply veto_safe_process_body in Hbody
      as (Ht & Hs & Hc & (more & Ha) & record & Hlog & Hp & Hmsg).
    cbn [process_handler] in Hrun. unfold bind, _audit in Hrun.
    rewrite Hc in Hrun. change (config s0) with (config self) in Hrun.
    rewrite Haudit in Hrun. cbn in Hrun.
    injection Hrun as <- <-. cbn.
    rewrite Ht, Hs, Hlog, Ha. repeat split.
    + exists record. done.
    + eexists more, _. split; [by rewrite <- app_assoc |]. done.
  - exfalso. cbn [process_handler] in Hrun. unfold bind, _audit in Hrun.
    destruct (audit_enabled (config s1)); cbn in Hrun; discriminate Hrun.
Qed.
End Process.

Lemma demo_engine_built : SynergyEngine_init demo_config tt 0 = Ok demo_engine.
Proof. vm_compute. reflexivity. Qed.

Lemma process_veto_leaves_no_trace_witness :
  let self := demo_engine in
  let msg := "Output violates charter: ['Violated: human_dignity']" in
  let self' := snd (process (PyInt 7) (Some consent_required_of_user) self) in
  process (PyInt 7) (Some consent_required_of_user) self
  = (Raise (CharterViolationError msg), self')
  ∧ active_tasks self' = active_tasks self
  ∧ (∀ task_id, getitem task_id (active_tasks self')
                = getitem task_id (active_tasks self))
  ∧ last_synthesis (system_state self')
    = last_synthesis (system_state self)
  ∧ system_state self' = system_state self
  ∧ (∃ record,
       verification_log (charter_layer self')
       = (verification_log (charter_layer self) ++ [record])%list
       ∧ passed record = false
       ∧ msg = "Output violates charter: " ++ py_repr (violations record))
  ∧ (∃ earlier blocked,
       audit_log self' = (audit_log self ++ earlier ++ [blocked])%list
       ∧ entry_event blocked = "Output blocked by CharterLayer"
       ∧ entry_details blocked = <["error" := PyStr msg]> ∅).
Proof.
  intros self msg self'.
  assert (Hrun : process (PyInt 7) (Some consent_required_of_user) self
                 = (Raise (CharterViolationError msg), self'))
    by (vm_compute; reflexivity).
  split; [exact Hrun |].
  apply (process_veto_leaves_no_trace self self' (PyInt 7)
           (Some consent_required_of_user) msg); [| exact Hrun].
  vm_compute. reflexivity.
Defined.

(** * Further properties *)

(** ** The checks *)

Lemma exposes_reasoning_pass output context :
  exposes_reasoning output → _check_transparency output context = Ok true.
Proof.
  intros [Hr | [He | (d & Hd & Hkey)]]; unfold _check_transparency.
  - apply hasattr_true in Hr. by rewrite Hr.
  - apply hasattr_true in He. rewrite He. by rewrite orb_true_r.
  - rewrite Hd. destruct (hasattr output "reasoning" || hasattr output "explanation");
      [done |].
    assert (Hin : dict_has d "reasoning" || dict_has d "explanation" = true).
    { unfold dict_has. destruct Hkey as [[v Hv] | [v Hv]]; rewrite Hv;
        [done | by rewrite orb_true_r]. }
    by rewrite Hin.
Qed.

(** X1. TRANSPARENCY never raises. It passes when the candidate exposes a
    reasoning or an explanation (attribute, or key of a mapping);
    otherwise it passes exactly when [is_complex_decision] is not true.
    A plain string therefore always fails it in a complex decision,
    whatever the string says. *)
Theorem transparency_verdict (output : Candidate) (context : Dict) :
  let complex :=
    truthy (dict_get context "is_complex_decision" (PyBool false)) in
  (exposes_reasoning output → _check_transparency output context = Ok true)
  ∧ (¬ exposes_reasoning output →
     _check_transparency output context = Ok (negb complex))
  ∧ (∀ s, complex = true → _check_transparency (Text s) context = Ok false).
Proof.
  intros complex. split; [apply exposes_reasoning_pass |].
  assert (Hplain : ¬ exposes_reasoning output →
                   _check_transparency output context = Ok (negb complex));
    [| split; [exact Hplain |]].
  - intros Hno. unfold _check_transparency.
    destruct (hasattr output "reasoning") eqn:Hr.
    { destruct Hno. left. by apply hasattr_true. }
    destruct (hasattr output "explanation") eqn:He.
    { destruct Hno. right. left. by apply hasattr_true. }
    cbn [orb].
    assert (Hd : match cand_value output with
                 | PyDict d => dict_has d "reasoning" || dict_has d "explanation"
                 | _ => false
                 end = false).
    { destruct (cand_value output) as [| | | | | | d |] eqn:Hv; try done.
      apply not_true_is_false. intros Hin. destruct Hno. right. right.
      exists d. split; [done |]. unfold dict_has in Hin.
      apply orb_true_iff in Hin as [Hin | Hin].
      - left. by destruct (d !! "reasoning").
      - right. by destruct (d !! "explanation"). }
    rewrite Hd. fold complex. by destruct complex.
  - intros s Hc.
    assert (Hno : ¬ exposes_reasoning (Text s)).
    { intros [Hr | [He | (d & Hd & _)]]; [| | discriminate Hd].
      - cbn in Hr. by apply elem_of_nil in Hr.
      - cbn in He. by apply elem_of_nil in He. }
    clear Hplain. unfold _check_transparency.
    assert (Hr : hasattr (Text s) "reasoning" = false)
      by (apply hasattr_false; cbn; apply not_elem_of_nil).
    assert (He : hasattr (Text s) "explanation" = false)
      by (apply hasattr_false; cbn; apply not_elem_of_nil).
    rewrite Hr, He. cbn [orb Text cand_value]. fold complex. by rewrite Hc.
Qed.

Lemma transparency_verdict_witness :
  _check_transparency
    (Mapping (<["explanation" := PyStr "because"]> ∅)) complex_decision
  = Ok true
  ∧ _check_transparency (Mapping deny_50000) complex_decision = Ok false
  ∧ _check_transparency (Text "reasoning: the applicant has no income")
      complex_decision = Ok false.
Proof.
  split; [| split].
  - apply transparency_verdict. right. right. eexists. split; [reflexivity |].
    right. vm_compute. eauto.
  - apply (transparency_verdict (Mapping deny_50000) complex_decision).
    intros [Hr | [He | (d & Hd & Hkey)]].
    + cbn in Hr. by apply elem_of_nil in Hr.
    + cbn in He. by apply elem_of_nil in He.
    + injection Hd as <-. destruct Hkey as [[v Hv] | [v Hv]];
        vm_compute in Hv; discriminate Hv.
  - destruct (transparency_verdict (Text "") complex_decision)
      as (_ & _ & Htext).
    apply Htext. vm_compute. reflexivity.
Defined.

Lemma harmful_keywords_lower keyword :
  keyword ∈ harmful_keywords → py_lower keyword = keyword.
Proof.
  unfold harmful_keywords. rewrite !elem_of_cons, elem_of_nil.
  intros [-> | [-> | [-> | [-> | [-> | [-> | []]]]]]]; reflexivity.
Qed.

Lemma safety_blocked_iff output context :
  match cand_value output with
  | PyStr s =>
      existsb (λ keyword,
          py_in keyword (py_lower s) &&
          negb (truthy (dict_get context "safety_discussion" (PyBool false))))
        harmful_keywords
  | _ => false
  end = true
  ↔ harmful_text output
    ∧ truthy (dict_get context "safety_discussion" (PyBool false)) = false.
Proof.
  unfold harmful_text.
  destruct (cand_value output) as [| | | | s | | |];
    try (split; [discriminate | intros [(s' & Hs & _) _]; discriminate Hs]).
  generalize (truthy (dict_get context "safety_discussion" (PyBool false))).
  intros sd. rewrite existsb_exists. split.
  - intros (kw & Hin & Hhit). apply andb_true_iff in Hhit as [Hhit Hsd].
    split; [| by destruct sd].
    exists s. split; [done |]. exists kw. split.
    + by apply list_elem_of_In.
    + by apply contains_token_py_in.
  - intros [(s' & Hs & kw & Hin & Hc) ->]. injection Hs as <-.
    exists kw. split; [by apply list_elem_of_In |].
    apply contains_token_py_in in Hc. by rewrite Hc.
Qed.

(** X2. SAFETY on a candidate that, if a text, is an ASCII text. It fails
    exactly when the candidate is a text that contains a harmful keyword
    (as a substring, case ignored) and [safety_discussion] is not true;
    this holds whatever [uncertainty_level] is. Otherwise the check
    passes for every numeric [uncertainty_level], however high, and
    raises [TypeError] when [uncertainty_level] is not a number. *)
Theorem safety_verdict (output : Candidate) (context : Dict) :
  ascii_candidate output →
  let blocked :=
    harmful_text output
    ∧ truthy (dict_get context "safety_discussion" (PyBool false)) = false in
  (_check_safety output context = Ok false ↔ blocked)
  ∧ (¬ blocked → uncertainty_numeric context = true →
     _check_safety output context = Ok true)
  ∧ (¬ blocked → uncertainty_numeric context = false →
     ∃ msg, _check_safety output context = Raise (Exception "TypeError" msg)).
Proof.
  intros _ blocked. pose proof (safety_blocked_iff output context) as Hb.
  fold blocked in Hb. unfold _check_safety, uncertainty_numeric, py_gt.
  destruct (match cand_value output with PyStr _ => _ | _ => false end).
  - assert (blocked) by (by apply Hb). split; [done |]. split; intros Hn; by destruct Hn.
  - assert (Hn : ¬ blocked) by (intros H; apply Hb in H; discriminate H).
    destruct (to_float (dict_get context "uncertainty_level" (PyInt 0))).
    + split; [split; [discriminate | done] |]. split; [done | discriminate].
    + split; [split; [discriminate | done] |]. split; [discriminate | eauto].
Qed.

Lemma safety_verdict_witness :
  _check_safety (Text "Ask your pharmacy") ∅ = Ok false
  ∧ _check_safety (Text "This might be harmful but I'm not sure")
      (<["auto_escalate" := PyBool true]>
       (<["uncertainty_level" := PyFloat (8 # 10)]> ∅)) = Ok false
  ∧ _check_safety (Text "All clear")
      (<["uncertainty_level" := PyFloat (99 # 100)]> ∅) = Ok true
  ∧ _check_safety (Text "How to report abuse")
      (<["safety_discussion" := PyBool true]> ∅) = Ok true
  ∧ ∃ msg, _check_safety (Mapping deny_50000) uncertainty_high
           = Raise (Exception "TypeError" msg).
Proof.
  assert (Hascii : ∀ s, isascii s = true → ascii_candidate (Text s)).
  { intros s Hs s' [= <-]. exact Hs. }
  assert (Hharm : ∀ s ctx kw,
    isascii s = true →
    kw ∈ harmful_keywords → py_in kw (py_lower s) = true →
    truthy (dict_get ctx "safety_discussion" (PyBool false)) = false →
    _check_safety (Text s) ctx = Ok false).
  { intros s ctx kw Hs Hin Hhit Hsd.
    apply (safety_verdict (Text s) ctx (Hascii s Hs)). split; [| exact Hsd].
    exists s. split; [reflexivity |]. exists kw. split; [exact Hin |].
    by apply contains_token_py_in. }
  split; [| split; [| split; [| split]]].
  - apply (Hharm _ _ "harm");
      [vm_compute; reflexivity | unfold harmful_keywords; set_solver | |];
      vm_compute; reflexivity.
  - apply (Hharm _ _ "harm");
      [vm_compute; reflexivity | unfold harmful_keywords; set_solver | |];
      vm_compute; reflexivity.
  - apply (safety_verdict (Text "All clear") _ (Hascii "All clear" eq_refl));
      [| vm_compute; reflexivity].
    intros [(s & Hs & kw & Hin & Hc) _]. injection Hs as <-.
    assert (Hany : existsb (λ k, py_in k (py_lower "All clear"))
                     harmful_keywords = true).
    { apply some_token_py_in. eauto. }
    vm_compute in Hany. discriminate Hany.
  - apply (safety_verdict (Text "How to report abuse") _
             (Hascii "How to report abuse" eq_refl));
      [| vm_compute; reflexivity].
    intros [_ Hsd]. vm_compute in Hsd. discriminate Hsd.
  - assert (Hmap : ascii_candidate (Mapping deny_50000))
      by (intros s Hs; discriminate Hs).
    apply (safety_verdict (Mapping deny_50000) uncertainty_high Hmap);
      [| vm_compute; reflexivity].
    intros [(s & Hs & _) _]. discriminate Hs.
Defined.

(** ** The gate *)

Lemma not_text_checks output context :
  not_text output →
  _check_honesty output context = Ok true
  ∧ _check_fairness output context = Ok true
  ∧ _check_dignity output context = Ok (negb (consent_missing context))
  ∧ (uncertainty_numeric context = true →
     _check_safety output context = Ok true).
Proof.
  intros Hnt. unfold not_text in Hnt.
  unfold _check_honesty, _check_fairness, _check_dignity, _check_safety,
    consent_missing, uncertainty_numeric, py_gt.
  destruct (cand_value output) as [| | | | s | | |] eqn:Hv;
    try (by destruct (Hnt s));
    (split; [by destruct (_ || _) |]); (split; [done |]);
    (split;
     [ destruct (truthy (dict_get context "user_id" PyNone)),
         (truthy (dict_get context "requires_consent" PyNone)),
         (truthy (dict_get context "consent_given" (PyBool false))); done
     | destruct (to_float _); [done | discriminate] ]).
Qed.

(** X3. A candidate that is not a [str] is never judged on its content:
    it passes the gate with confidence 1.0 whenever the context does not
    trigger the consent rule, does not flag a complex decision the
    candidate gives no reasoning for, and holds a numeric (or no)
    [uncertainty_level]. With no context at all every such candidate
    passes, whatever it contains. *)
Theorem non_text_candidate_passes
    (self : CharterLayer) (now : string)
    (output : Candidate) (context : option Dict) :
  not_text output →
  (let c := default ∅ context in
   consent_missing c = false →
   exposes_reasoning output
   ∨ truthy (dict_get c "is_complex_decision" (PyBool false)) = false →
   uncertainty_numeric c = true →
   ∃ r, verify_output self now output context
        = (Ok r, {| verification_log := (verification_log self ++ [r])%list |})
      ∧ confidence r = 1%Q ∧ violations r = [])
  ∧ (∃ r, verify_output self now output None
          = (Ok r, {| verification_log := (verification_log self ++ [r])%list |})
        ∧ confidence r = 1%Q ∧ violations r = []).
Proof.
  intros Hnt.
  assert (Hgen : ∀ c : Dict,
    consent_missing c = false →
    exposes_reasoning output
    ∨ truthy (dict_get c "is_complex_decision" (PyBool false)) = false →
    uncertainty_numeric c = true →
    passed (built_record charter_rules now output c) = true).
  { intros c Hconsent Htr Hnum. apply built_record_passed_all.
    destruct (not_text_checks output c Hnt) as (Hh & Hf & Hd & Hs).
    intros [ | | | | ]; cbn [charter_rules].
    - exact Hh.
    - by rewrite Hd, Hconsent.
    - exact Hf.
    - destruct Htr as [Hexp | Hsimple].
      + by apply exposes_reasoning_pass.
      + destruct (hasattr output "reasoning") eqn:Hr.
        { apply exposes_reasoning_pass. left. by apply hasattr_true. }
        unfold _check_transparency. rewrite Hr, Hsimple.
        destruct (hasattr output "explanation"); [done |]. cbn [orb].
        by destruct (match cand_value output with PyDict _ => _ | _ => _ end).
    - by apply Hs. }
  assert (Hres : ∀ (ctx : option Dict),
    passed (built_record charter_rules now output (default ∅ ctx)) = true →
    ∃ r, verify_output self now output ctx
         = (Ok r, {| verification_log := (verification_log self ++ [r])%list |})
       ∧ confidence r = 1%Q ∧ violations r = []).
  { intros ctx Hp. exists (built_record charter_rules now output (default ∅ ctx)).
    unfold verify_output. rewrite verify_output_with_step, Hp.
    split; [reflexivity |].
    destruct (built_record_consistent charter_rules now output (default ∅ ctx))
      as (Hconf & _ & Hnil).
    split; [by apply Hconf | by apply Hnil]. }
  split.
  - intros c Hconsent Htr Hnum. apply Hres. by apply Hgen.
  - apply Hres. apply Hgen; [reflexivity | right; reflexivity | reflexivity].
Qed.

Lemma non_text_candidate_passes_witness :
  let leaky : Candidate :=
    Mapping (<["text" := PyStr "password 1234, guaranteed to kill"]> ∅) in
  (∃ r, verify_output CharterLayer_init "t0" leaky
          (Some (<["uncertainty_level" := PyFloat (9 # 10)]> ∅))
        = (Ok r, {| verification_log := [r] |})
      ∧ confidence r = 1%Q ∧ violations r = [])
  ∧ (∃ r, verify_output CharterLayer_init "t0" leaky None
          = (Ok r, {| verification_log := [r] |})
        ∧ confidence r = 1%Q ∧ violations r = []).
Proof.
  intros leaky.
  assert (Hnt : not_text leaky) by (intros s; discriminate).
  destruct (non_text_candidate_passes CharterLayer_init "t0" leaky
              (Some (<["uncertainty_level" := PyFloat (9 # 10)]> ∅)) Hnt)
    as [Hctx Hnone].
  split; [| exact Hnone].
  apply Hctx; [vm_compute; reflexivity | right; vm_compute; reflexivity
              | vm_compute; reflexivity].
Defined.

Lemma record_results_dom rules output context :
  dom (foldl (record_result rules output context) ∅ principles)
  = principle_keys.
Proof.
  apply set_eq. intros k. unfold principle_keys.
  rewrite elem_of_dom, elem_of_list_to_set. split.
  - intros Hsome. destruct (decide (k ∈ value <$> principles)) as [| Hout];
      [done |].
    rewrite record_results_lookup_other in Hsome by exact Hout.
    rewrite lookup_empty in Hsome. by destruct Hsome.
  - intros Hin. apply list_elem_of_fmap in Hin as (p & -> & Hp).
    rewrite (record_results_lookup rules output context principles ∅ p
               principles_NoDup Hp). eauto.
Qed.

Lemma reasons_and_passes rules output context (ps : list EthicalPrinciple) :
  length (omap (reason rules output context) ps)
  + count_passed rules output context ps = length ps.
Proof.
  unfold count_passed. induction ps as [| p ps IH]; [reflexivity |].
  cbn [omap list_omap List.filter length].
  unfold reason at 1, passes at 1, check_reason, check_passed.
  destruct (rules p output context) as [[|]|e]; cbn [length]; lia.
Qed.

(** X4. The record a call of [verify_output] appends, over any table of
    checks: its [principle_results] has exactly the five principle names
    as keys; its violations are one reason per principle that did not
    return [True], in the order of the principles; the number of
    violations and the number of passed principles add up to five; and
    its confidence lies between 0 and 1. *)
Theorem verification_record_shape
    (rules : EthicalPrinciple → CheckFn) (self : CharterLayer) (now : string)
    (output : Candidate) (context : option Dict) :
  let c := default ∅ context in
  ∃ r, verification_log (snd (verify_output_with rules self now output context))
       = (verification_log self ++ [r])%list
     ∧ timestamp r = now
     ∧ dom (principle_results r) = principle_keys
     ∧ violations r
       = omap (λ p, check_reason p (rules p output c)) principles
     ∧ length (violations r) + py_sum (principle_results r) = 5
     ∧ (0 <= confidence r)%Q ∧ (confidence r <= 1)%Q.
Proof.
  intros c. exists (built_record rules now output c).
  rewrite verify_output_with_step. fold c.
  split; [reflexivity |]. split; [reflexivity |].
  split; [apply record_results_dom |]. split; [reflexivity |].
  destruct (results_stats rules output c) as (_ & Hsum & _).
  cbn [violations principle_results confidence built_record].
  rewrite Hsum. split; [apply (reasons_and_passes rules output c principles) |].
  pose proof (count_passed_le rules output c) as Hle.
  rewrite Qred_correct. unfold Qle. cbn [Qnum Qden]. lia.
Qed.

(** ** The task map *)

Lemma py_key_eqb_refl k : hashable k = true → py_key_eqb k k = true.
Proof.
  destruct k as [| b | z | q | s | l | d | i]; cbn; try done.
  - intros _. apply Qeq_bool_refl.
  - intros _. apply Qeq_bool_refl.
  - intros _. apply Qeq_bool_refl.
  - intros _. apply String.eqb_refl.
  - intros _. apply Nat.eqb_refl.
Qed.

Lemma py_key_eqb_sym a b : py_key_eqb a b = py_key_eqb b a.
Proof.
  unfold py_key_eqb.
  destruct (to_float a) as [x |] eqn:Ha, (to_float b) as [y |] eqn:Hb.
  - destruct (Qeq_bool x y) eqn:Hxy.
    + symmetry. by apply Qeq_bool_sym.
    + symmetry. apply not_true_is_false. intros Hyx.
      apply Qeq_bool_sym in Hyx. congruence.
  - destruct a, b; try discriminate; reflexivity.
  - destruct a, b; try discriminate; reflexivity.
  - destruct a, b; try discriminate; try reflexivity.
    + apply String.eqb_sym.
    + apply Nat.eqb_sym.
Qed.

Lemma py_key_eqb_trans a b c :
  py_key_eqb a b = true → py_key_eqb b c = true → py_key_eqb a c = true.
Proof.
  unfold py_key_eqb.
  destruct (to_float a) as [x |] eqn:Ha, (to_float b) as [y |] eqn:Hb,
    (to_float c) as [z |] eqn:Hc;
    try (destruct a, b; try discriminate; done);
    try (destruct b, c; try discriminate; done).
  - apply Qeq_bool_trans.
  - destruct a, b, c; try discriminate; try done.
    + rewrite !String.eqb_eq. congruence.
    + rewrite !Nat.eqb_eq. congruence.
Qed.

Lemma getitem_setitem_eq k v items :
  hashable k = true → getitem k (setitem k v items) = Some v.
Proof.
  intros Hk. induction items as [| [k0 v0] rest IH]; cbn.
  - by rewrite py_key_eqb_refl.
  - destruct (py_key_eqb k0 k) eqn:Hk0; cbn; by rewrite Hk0.
Qed.

Lemma getitem_setitem_ne k k' v items :
  py_key_eqb k k' = false →
  getitem k' (setitem k v items) = getitem k' items.
Proof.
  intros Hne. induction items as [| [k0 v0] rest IH]; cbn.
  - by rewrite Hne.
  - destruct (py_key_eqb k0 k) eqn:Hk0; cbn.
    + destruct (py_key_eqb k0 k') eqn:Hk0'; [| reflexivity].
      rewrite py_key_eqb_sym in Hk0.
      by rewrite (py_key_eqb_trans k k0 k' Hk0 Hk0') in Hne.
    + by rewrite IH.
Qed.

Lemma setitem_length k v items :
  length (setitem k v items)
  = match getitem k items with
    | Some _ => length items
    | None => S (length items)
    end.
Proof.
  induction items as [| [k0 v0] rest IH]; cbn; [reflexivity |].
  destruct (py_key_eqb k0 k); cbn; [reflexivity |].
  rewrite IH. by destruct (getitem k rest).
Qed.

(** ** The pipeline, outcome by outcome *)

Section Pipeline.
Context {Sv : Type} `{Collaborators Sv}.
Implicit Types self s : SynergyEngine Sv.

Lemma body_outcome_after c task_id s s1 res s' :
  untouched s s1 → body_outcome c task_id s1 res s' →
  body_outcome c task_id s res s'.
Proof.
  intros (Ht & Hs & Hc & Hg & pre & Ha) (Hc' & more & Ha' & Hcases).
  split; [congruence |]. exists (pre ++ more)%list.
  split; [by rewrite Ha', Ha, app_assoc |].
  destruct Hcases as [(Hexc & Hg' & Ht' & Hs') | (now & pkg & Hlog & Hexp & Htid & Hgate)].
  - left. repeat split; congruence.
  - right. exists now, pkg. cbn zeta in *. rewrite Hg in Hlog.
    split; [exact Hlog |]. split; [exact Hexp |]. split; [exact Htid |].
    destruct Hgate as [(Hp & Hres & Ht' & Hs') | [(Hp & Hh & Hres & Ht' & Hs')
      | (Hp & Hh & out & t & Hres & Hfin & Ht' & Hs' & Haud)]].
    + left. repeat split; congruence.
    + right. left. repeat split; congruence.
    + right. right. split; [exact Hp |]. split; [exact Hh |].
      exists out, t. split; [exact Hres |]. split; [exact Hfin |].
      split; [congruence |]. split; [congruence |].
      intros Hen. rewrite <- Hc in Hen. destruct (Haud Hen) as (e & He & Hev).
      exists e. split; [| exact Hev]. apply elem_of_app. by right.
Qed.

Lemma body_spec_bind_quiet {A} c task_id (m : M Sv A) (k : A → M Sv Dict) :
  quiet m → (∀ a, body_spec c task_id (k a)) →
  body_spec c task_id (bind m k).
Proof.
  intros Hm Hk s res s' Hrun. unfold bind in Hrun.
  destruct (Hm s) as [Hu Hne].
  destruct (m s) as [[a | e] s1]; cbn [fst snd] in *.
  - eapply body_outcome_after; [exact Hu |]. by apply (Hk a).
  - injection Hrun as <- <-.
    destruct Hu as (Ht & Hs & Hc & Hg & more & Ha).
    split; [exact Hc |]. exists more. split; [exact Ha |]. left.
    split; [| done]. destruct e as [msg | cls msg]; [by destruct (Hne msg) | eauto].
Qed.

Lemma final_package_built (pkg explanation : Dict) (n : nat) (ts : string) :
  pkg !! "charter_verified" = None
  ∧ pkg !! "timestamp" = None
  ∧ pkg !! "biases_detected" = None
  ∧ pkg !! "explanation_detail" = None →
  pkg !! "explanation" = Some (PyDict explanation) →
  final_package pkg
    (<["explanation_detail" := PyDict explanation]>
     (<["biases_detected" := PyInt (Z.of_nat n)]>
     (<["timestamp" := PyStr ts]>
     (<["charter_verified" := PyBool true]> pkg)))).
Proof.
  intros (Hcv & Hts & Hbd & Hed) Hexpl. unfold final_package.
  split; [| split; [| split; [| split]]].
  - repeat (apply insert_subseteq_r; [done |]). reflexivity.
  - by simplify_map_eq.
  - exists (PyStr ts). by simplify_map_eq.
  - rewrite Hexpl. by simplify_map_eq.
  - exists n. by simplify_map_eq.
Qed.

Lemma body_spec_process_body input_data c task_id :
  body_spec c task_id (process_body input_data c task_id).
Proof.
  unfold process_body.
  apply body_spec_bind_quiet; [apply quiet_call | intros sanitized_input].
  apply body_spec_bind_quiet; [apply quiet_audit | intros _].
  apply body_spec_bind_quiet; [apply quiet_drs | intros score].
  apply body_spec_bind_quiet; [apply quiet_call | intros biases].
  apply body_spec_bind_quiet;
    [apply quiet_if; [apply quiet_audit | apply quiet_ret] | intros _].
  apply body_spec_bind_quiet;
    [apply quiet_if; [apply quiet_call | apply quiet_ret] | intros drs_output].
  apply body_spec_bind_quiet; [apply quiet_call | intros explanation].
  set (pkg := <["task_id" := task_id]> _).
  assert (Hexp : is_Some (pkg !! "explanation")).
  { exists (PyDict explanation). subst pkg. by simplify_map_eq. }
  assert (Htid : pkg !! "task_id" = Some task_id).
  { subst pkg. by simplify_map_eq. }
  assert (Hexpl : pkg !! "explanation" = Some (PyDict explanation)).
  { subst pkg. by simplify_map_eq. }
  assert (Hfresh : pkg !! "charter_verified" = None
                   ∧ pkg !! "timestamp" = None
                   ∧ pkg !! "biases_detected" = None
                   ∧ pkg !! "explanation_detail" = None).
  { subst pkg. repeat split; by simplify_map_eq. }
  clearbody pkg.
  intros s res s' Hrun. unfold bind at 1 in Hrun.
  rewrite charter_verify_run in Hrun.
  set (now := isoformat (clock (ticks s))) in *.
  assert (Hr : ∃ r, r = built_record charter_rules now (Mapping pkg) c)
    by eauto.
  destruct Hr as [r Hr]. rewrite <- Hr in Hrun.
  destruct (passed r) eqn:Hp.
  - unfold bind, _audit, datetime_now, modify, ret, store_task in Hrun.
    cbn [config set_charter_layer set_ticks fst snd] in Hrun.
    destruct (audit_enabled (config s)) eqn:Hen;
      destruct (hashable task_id) eqn:Hh;
      cbn in Hrun; injection Hrun as <- <-; cbn;
      (split; [reflexivity |]); eexists;
      (split; [try reflexivity; by rewrite app_nil_r |]);
      right; exists now, pkg; cbn zeta; rewrite <- Hr;
      (split; [reflexivity |]); (split; [exact Hexp |]);
      (split; [exact Htid |]); right.
    + right. split; [done |]. split; [done |]. eexists _, _.
      split; [reflexivity |]. split; [by apply final_package_built |].
      split; [reflexivity |]. split; [reflexivity |].
      intros _. eexists.
      split; [apply list_elem_of_here | reflexivity].
    + left. by repeat split.
    + right. split; [done |]. split; [done |]. eexists _, _.
      split; [reflexivity |]. split; [by apply final_package_built |].
      split; [reflexivity |]. split; [reflexivity |].
      intros Habs. rewrite Hen in Habs. discriminate Habs.
    + left. by repeat split.
  - injection Hrun as <- <-. split; [reflexivity |]. exists [].
    split; [cbn; by rewrite app_nil_r |].
    right. exists now, pkg. cbn zeta. rewrite <- Hr.
    split; [reflexivity |]. split; [exact Hexp |]. split; [exact Htid |].
    left. by repeat split.
Qed.

Lemma handler_run (e : PyExc) s :
  process_handler e s
  = (Raise e,
     if audit_enabled (config s)
     then set_audit_log
            (audit_log s ++
             [{| entry_timestamp := isoformat (clock (ticks s));
                 entry_module := name (config s);
                 entry_event := handler_event e;
                 entry_details := <["error" := PyStr (exc_str e)]> ∅ |}])%list
            (set_ticks (S (ticks s)) s)
     else s).
Proof.
  destruct e as [msg | cls msg]; cbn [process_handler handler_event];
    unfold bind, _audit, raise; destruct (audit_enabled (config s)); reflexivity.
Qed.

(** One call of [process]: the [try] block ends in one of its four ways,
    and an error is audited and raised again. *)
Lemma process_run self input_data context :
  let c := default ∅ context in
  let task_id :=
    dict_get c "task_id"
      (PyStr ("task_" ++ timestamp_text (clock (ticks self)))) in
  ∃ res s1,
    body_outcome c task_id (set_ticks (S (ticks self)) self) res s1
    ∧ process input_data context self
      = match res with
        | Ok out => (Ok out, s1)
        | Raise e => process_handler e s1
        end.
Proof.
  intros c task_id. unfold process, bind at 1, datetime_now at 1, try_except.
  cbn [fst snd]. fold c. fold task_id.
  destruct (process_body input_data c task_id (set_ticks (S (ticks self)) self))
    as [res s1] eqn:Hbody.
  exists res, s1. split; [by apply body_spec_process_body in Hbody |].
  by destruct res.
Qed.

(** The gate on a package of [process]: three checks pass on every
    mapping with an [explanation]; the verdict is the context's. *)
Lemma package_record now (pkg c : Dict) :
  is_Some (pkg !! "explanation") →
  let r := built_record charter_rules now (Mapping pkg) c in
  passed r = negb (consent_missing c) && uncertainty_numeric c
  ∧ violations r = context_violations c.
Proof.
  intros Hexp r.
  assert (Hnt : not_text (Mapping pkg)) by (intros s; discriminate).
  destruct (not_text_checks (Mapping pkg) c Hnt) as (Hh & Hf & Hd & Hs).
  assert (Ht : _check_transparency (Mapping pkg) c = Ok true).
  { apply exposes_reasoning_pass. right. right. exists pkg. split; [done |].
    by right. }
  assert (Hsafe : _check_safety (Mapping pkg) c
                  = if uncertainty_numeric c then Ok true
                    else Raise (Exception "TypeError" "'>' not supported")).
  { destruct (uncertainty_numeric c) eqn:Hn; [by apply Hs |].
    unfold _check_safety, uncertainty_numeric, py_gt in *. cbn.
    by destruct (to_float _). }
  subst r. unfold built_record, context_violations.
  cbn [passed violations principles forallb omap list_omap].
  unfold passes, reason. cbn [charter_rules].
  rewrite Hh, Hf, Hd, Ht, Hsafe.
  destruct (consent_missing c), (uncertainty_numeric c); split; reflexivity.
Qed.

(** X5. When [process] returns a package: the task id is hashable and the
    task map now gives that package for it, every other task is as
    before, and the map grew by one entry only if the id was new (an
    existing id is overwritten); [last_synthesis] is set and the rest of
    the system state is as before; the package holds the context's task
    id, is marked [charter_verified] and repeats the explanation as
    [explanation_detail]; the gate logged one more record, a passed
    one. *)
Theorem process_success_stores_task
    (self self' : SynergyEngine Sv) (input_data : PyVal)
    (context : option Dict) (out : Dict) :
  process input_data context self = (Ok out, self') →
  let c := default ∅ context in
  let task_id :=
    dict_get c "task_id"
      (PyStr ("task_" ++ timestamp_text (clock (ticks self)))) in
  hashable task_id = true
  ∧ getitem task_id (active_tasks self') = Some (PyDict out)
  ∧ (∀ other, py_key_eqb task_id other = false →
       getitem other (active_tasks self') = getitem other (active_tasks self))
  ∧ length (active_tasks self')
    = match getitem task_id (active_tasks self) with
      | Some _ => length (active_tasks self)
      | None => S (length (active_tasks self))
      end
  ∧ is_Some (last_synthesis (system_state self'))
  ∧ alignment_score (system_state self') = alignment_score (system_state self)
  ∧ coherence_level (system_state self') = coherence_level (system_state self)
  ∧ ethical_drift_detected (system_state self')
    = ethical_drift_detected (system_state self)
  ∧ out !! "task_id" = Some task_id
  ∧ out !! "charter_verified" = Some (PyBool true)
  ∧ is_Some (out !! "explanation")
  ∧ out !! "explanation_detail" = out !! "explanation"
  ∧ ∃ record,
      verification_log (charter_layer self')
      = (verification_log (charter_layer self) ++ [record])%list
      ∧ passed record = true.
Proof.
  intros Hrun c task_id.
  destruct (process_run self input_data context) as (res & s1 & Hout & Hproc).
  fold c task_id in Hout. rewrite Hrun in Hproc.
  destruct res as [out' | e]; [| by rewrite handler_run in Hproc].
  clear Hrun. revert Hproc. intros Hproc.
  injection Hproc as <- <-.
  destruct Hout as (_ & more & _ & [((cls & msg & Habs) & _) | Hgate]);
    [discriminate Habs |].
  destruct Hgate as (now & pkg & Hlog & Hexp & Htid & Hcases). cbn zeta in *.
  destruct Hcases as [(_ & Habs & _) | [(_ & _ & Habs & _) | Hok]];
    [discriminate Habs | discriminate Habs |].
  destruct Hok as (Hp & Hh & o2 & t & Heq & Hfin & Htasks & Hstate & _).
  injection Heq as <-.
  destruct Hfin as (Hsub & Hcv & _ & Hed & _).
  cbn [active_tasks system_state set_ticks charter_layer] in *.
  rewrite Htasks, Hstate. cbn [set_last_synthesis last_synthesis
    alignment_score coherence_level ethical_drift_detected].
  split; [exact Hh |]. split; [by apply getitem_setitem_eq |].
  split; [intros other Hne; by apply getitem_setitem_ne |].
  split; [apply setitem_length |]. split; [eauto |].
  do 3 (split; [reflexivity |]).
  destruct Hexp as [ex Hex].
  split; [by apply (lookup_weaken pkg) |]. split; [exact Hcv |].
  assert (Hex' : out !! "explanation" = Some ex) by (by apply (lookup_weaken pkg)).
  split; [by rewrite Hex' |]. split; [by rewrite Hed, Hex', Hex |].
  eexists. split; [exact Hlog | exact Hp].
Qed.

(** X6. When [process] raises, whatever the error (a veto, a fault of a
    governance module, a task id that cannot be a key): no task is
    stored and the system state is as before; with auditing on, the last
    entry of the audit trail names the error's text, under the event
    "Output blocked by CharterLayer" for a veto and "Processing error"
    for anything else; the gate's log has at most one more record. *)
Theorem process_error_keeps_state
    (self self' : SynergyEngine Sv) (input_data : PyVal)
    (context : option Dict) (e : PyExc) :
  audit_enabled (config self) = true →
  process input_data context self = (Raise e, self') →
  active_tasks self' = active_tasks self
  ∧ system_state self' = system_state self
  ∧ (∃ earlier last,
       audit_log self' = (audit_log self ++ earlier ++ [last])%list
       ∧ entry_event last = handler_event e
       ∧ entry_details last = <["error" := PyStr (exc_str e)]> ∅
       ∧ entry_module last = name (config self))
  ∧ (∃ added,
       verification_log (charter_layer self')
       = (verification_log (charter_layer self) ++ added)%list
       ∧ (length added ≤ 1)%nat).
Proof.
  intros Haudit Hrun.
  destruct (process_run self input_data context) as (res & s1 & Hout & Hproc).
  rewrite Hrun in Hproc.
  destruct res as [out | e']; [discriminate Hproc |].
  rewrite handler_run in Hproc.
  destruct Hout as (Hc & more & Ha & Hcases).
  cbn [config set_ticks audit_log active_tasks system_state charter_layer] in *.
  rewrite Hc, Haudit in Hproc. injection Hproc as <- ->.
  cbn [active_tasks system_state audit_log charter_layer set_audit_log
       set_ticks].
  assert (Hkept : active_tasks s1 = active_tasks self
                  ∧ system_state s1 = system_state self
                  ∧ ∃ added,
                      verification_log (charter_layer s1)
                      = (verification_log (charter_layer self) ++ added)%list
                      ∧ (length added ≤ 1)%nat).
  { destruct Hcases as [(_ & Hg & Ht & Hs) | (now & pkg & Hlog & _ & _ & Hgate)].
    - split; [exact Ht |]. split; [exact Hs |]. exists [].
      rewrite Hg, app_nil_r. split; [reflexivity | cbn; lia].
    - cbn zeta in *.
      destruct Hgate as [(_ & _ & Ht & Hs) | [(_ & _ & _ & Ht & Hs)
        | (_ & _ & out & t & Habs & _)]]; [| | discriminate Habs];
        (split; [exact Ht |]; split; [exact Hs |]; eexists;
         split; [exact Hlog | cbn; lia]). }
  destruct Hkept as (Ht & Hs & Hlog).
  split; [exact Ht |]. split; [exact Hs |]. split; [| exact Hlog].
  eexists more, _. rewrite Ha, <- app_assoc. split; [reflexivity |].
  cbn. by repeat split.
Qed.

(** X7. Inside [process] the gate judges the context, not the package:
    a veto is raised exactly for a missing consent (HUMAN_DIGNITY) or an
    [uncertainty_level] that is not a number (the SAFETY check fails
    closed), and its text lists just these; a package is returned only
    when neither holds. *)
Theorem process_verdict_from_context
    (self self' : SynergyEngine Sv) (input_data : PyVal)
    (context : option Dict) (res : Result Dict) :
  process input_data context self = (res, self') →
  let c := default ∅ context in
  (∀ msg, res = Raise (CharterViolationError msg) →
     msg = "Output violates charter: " ++ py_repr (context_violations c)
     ∧ (consent_missing c = true ∨ uncertainty_numeric c = false))
  ∧ (∀ out, res = Ok out →
       consent_missing c = false ∧ uncertainty_numeric c = true).
Proof.
  intros Hrun c.
  destruct (process_run self input_data context) as (res' & s1 & Hout & Hproc).
  fold c in Hout. rewrite Hrun in Hproc.
  assert (Hres : res = res').
  { destruct res'; [congruence |]. rewrite handler_run in Hproc. congruence. }
  subst res'. clear Hproc Hrun.
  destruct Hout as (_ & more & _ & Hcases).
  destruct Hcases as [((cls & m & ->) & _) | (now & pkg & _ & Hexp & _ & Hgate)].
  { split; [intros msg Habs | intros out Habs]; discriminate Habs. }
  cbn zeta in Hgate.
  destruct (package_record now pkg c Hexp) as [Hpassed Hviol].
  destruct Hgate as [(Hp & -> & _) | [(Hp & _ & -> & _)
    | (Hp & _ & out & t & -> & _)]].
  - split; [| intros out Habs; discriminate Habs].
    intros msg Hmsg. unfold veto in Hmsg. rewrite Hviol in Hmsg.
    split; [congruence |].
    rewrite Hp in Hpassed.
    destruct (consent_missing c), (uncertainty_numeric c); auto.
  - split; [intros msg Habs | intros out Habs]; discriminate Habs.
  - split; [intros msg Habs; discriminate Habs |].
    intros out' _. rewrite Hp in Hpassed.
    by destruct (consent_missing c), (uncertainty_numeric c).
Qed.

(** X8. Whatever its outcome, [process] only adds: the audit trail and
    the gate's log keep their old entries as a prefix, the gate's log
    gains at most one record, and with auditing on the trail gains at
    least one entry; the configuration, the alignment score, the
    coherence level and the drift flag are not touched. *)
Theorem process_only_appends
    (self : SynergyEngine Sv) (input_data : PyVal) (context : option Dict) :
  let self' := snd (process input_data context self) in
  config self' = config self
  ∧ (∃ more, audit_log self' = (audit_log self ++ more)%list
             ∧ (audit_enabled (config self) = true → more ≠ []))
  ∧ (∃ added,
       verification_log (charter_layer self')
       = (verification_log (charter_layer self) ++ added)%list
       ∧ (length added ≤ 1)%nat)
  ∧ alignment_score (system_state self') = alignment_score (system_state self)
  ∧ coherence_level (system_state self') = coherence_level (system_state self)
  ∧ ethical_drift_detected (system_state self')
    = ethical_drift_detected (system_state self).
Proof.
  intros self'. subst self'.
  destruct (process_run self input_data context) as (res & s1 & Hout & Hproc).
  rewrite Hproc. clear Hproc.
  destruct Hout as (Hc & more & Ha & Hcases).
  cbn [config set_ticks audit_log active_tasks system_state charter_layer] in *.
  assert (Hbody :
    (∃ added,
       verification_log (charter_layer s1)
       = (verification_log (charter_layer self) ++ added)%list
       ∧ (length added ≤ 1)%nat)
    ∧ alignment_score (system_state s1) = alignment_score (system_state self)
    ∧ coherence_level (system_state s1) = coherence_level (system_state self)
    ∧ ethical_drift_detected (system_state s1)
      = ethical_drift_detected (system_state self)
    ∧ (∀ out, res = Ok out → audit_enabled (config self) = true → more ≠ [])).
  { destruct Hcases as [((cls & m & ->) & Hg & _ & Hs)
      | (now & pkg & Hlog & _ & _ & Hgate)].
    - split; [exists []; rewrite Hg, app_nil_r; split; [done | cbn; lia] |].
      rewrite Hs. repeat split. intros out Habs. discriminate Habs.
    - cbn zeta in *. split; [eexists; split; [exact Hlog | cbn; lia] |].
      destruct Hgate as [(_ & -> & _ & Hs) | [(_ & _ & -> & _ & Hs)
        | (_ & _ & out & t & -> & _ & _ & Hs & Hentry)]]; rewrite Hs.
      + repeat split. intros out Habs. discriminate Habs.
      + repeat split. intros out Habs. discriminate Habs.
      + repeat split. intros _ _ Hen Hnil. destruct (Hentry Hen) as (e & He & _).
        rewrite Hnil in He. by apply elem_of_nil in He. }
  destruct Hbody as (Hlog & Has & Hcl & Hed & Hmore).
  destruct res as [out | e].
  - cbn [snd]. split; [exact Hc |].
    split; [exists more; split; [exact Ha | by apply (Hmore out)] |].
    by repeat split.
  - rewrite handler_run. cbn [snd]. rewrite Hc.
    destruct (audit_enabled (config self)) eqn:Hen.
    + cbn. split; [exact Hc |]. split.
      { eexists. rewrite Ha, <- app_assoc. split; [reflexivity |].
        intros _ Hnil. by apply app_eq_nil in Hnil as [_ Hnil]. }
      by repeat split.
    + split; [exact Hc |].
      split; [exists more; split; [exact Ha | discriminate] |].
      by repeat split.
Qed.
End Pipeline.

Lemma process_success_stores_task_witness :
  let self := demo_engine in
  let run := process (PyInt 7) (Some named_task) self in
  let out := match fst run with Ok o => o | Raise _ => ∅ end in
  let self' := snd run in
  let c := default ∅ (Some named_task) in
  let task_id :=
    dict_get c "task_id"
      (PyStr ("task_" ++ timestamp_text (clock (ticks self)))) in
  run = (Ok out, self')
  ∧ hashable task_id = true
  ∧ getitem task_id (active_tasks self') = Some (PyDict out)
  ∧ (∀ other, py_key_eqb task_id other = false →
       getitem other (active_tasks self') = getitem other (active_tasks self))
  ∧ length (active_tasks self')
    = match getitem task_id (active_tasks self) with
      | Some _ => length (active_tasks self)
      | None => S (length (active_tasks self))
      end
  ∧ is_Some (last_synthesis (system_state self'))
  ∧ alignment_score (system_state self') = alignment_score (system_state self)
  ∧ coherence_level (system_state self') = coherence_level (system_state self)
  ∧ ethical_drift_detected (system_state self')
    = ethical_drift_detected (system_state self)
  ∧ out !! "task_id" = Some task_id
  ∧ out !! "charter_verified" = Some (PyBool true)
  ∧ is_Some (out !! "explanation")
  ∧ out !! "explanation_detail" = out !! "explanation"
  ∧ ∃ record,
      verification_log (charter_layer self')
      = (verification_log (charter_layer self) ++ [record])%list
      ∧ passed record = true.
Proof.
  intros self run out self' c task_id.
  assert (Hrun : run = (Ok out, self')) by (vm_compute; reflexivity).
  split; [exact Hrun |].
  exact (process_success_stores_task self self' (PyInt 7) (Some named_task)
           out Hrun).
Defined.

Lemma process_error_keeps_state_witness :
  let self := demo_engine in
  let run := process (PyInt 7) (Some unhashable_task) self in
  let e := Exception "TypeError" "unhashable type" in
  let self' := snd run in
  run = (Raise e, self')
  ∧ active_tasks self' = active_tasks self
  ∧ system_state self' = system_state self
  ∧ (∃ earlier last,
       audit_log self' = (audit_log self ++ earlier ++ [last])%list
       ∧ entry_event last = handler_event e
       ∧ entry_details last = <["error" := PyStr (exc_str e)]> ∅
       ∧ entry_module last = name (config self))
  ∧ (∃ added,
       verification_log (charter_layer self')
       = (verification_log (charter_layer self) ++ added)%list
       ∧ (length added ≤ 1)%nat).
Proof.
  intros self run e self'.
  assert (Hrun : run = (Raise e, self')) by (vm_compute; reflexivity).
  split; [exact Hrun |].
  apply (process_error_keeps_state self self' (PyInt 7)
           (Some unhashable_task) e); [vm_compute; reflexivity | exact Hrun].
Defined.

Lemma process_verdict_from_context_witness :
  (let msg := "Output violates charter: ['Violated: human_dignity']" in
   let c := default ∅ (Some consent_required_of_user) in
   msg = "Output violates charter: " ++ py_repr (context_violations c)
   ∧ (consent_missing c = true ∨ uncertainty_numeric c = false))
  ∧ (let msg := "Output violates charter: ['Check failed: safety']" in
     let c := default ∅ (Some uncertainty_high) in
     msg = "Output violates charter: " ++ py_repr (context_violations c)
     ∧ (consent_missing c = true ∨ uncertainty_numeric c = false))
  ∧ (let c := default ∅ (None : option Dict) in
     consent_missing c = false ∧ uncertainty_numeric c = true).
Proof.
  split; [| split].
  - intros msg c.
    set (run := process (PyInt 7) (Some consent_required_of_user) demo_engine).
    destruct (process_verdict_from_context demo_engine (snd run) (PyInt 7)
                (Some consent_required_of_user) (fst run)
                (surjective_pairing run)) as [Hveto _].
    apply Hveto. vm_compute. reflexivity.
  - intros msg c.
    set (run := process (PyInt 7) (Some uncertainty_high) demo_engine).
    destruct (process_verdict_from_context demo_engine (snd run) (PyInt 7)
                (Some uncertainty_high) (fst run)
                (surjective_pairing run)) as [Hveto _].
    apply Hveto. vm_compute. reflexivity.
  - intros c.
    set (run := process (PyStr "kill password guaranteed") None demo_engine).
    destruct (process_verdict_from_context demo_engine (snd run)
                (PyStr "kill password guaranteed") None (fst run)
                (surjective_pairing run)) as [_ Hok].
    apply (Hok (match fst run with Ok o => o | Raise _ => ∅ end)).
    vm_compute. reflexivity.
Defined.

(** ** Scoring, construction and drift *)

Lemma feature_value_unit (f : PyVal) :
  (∀ x, to_float f = Some x → (0 <= x)%Q ∧ (x <= 1)%Q) →
  ∃ x, feature_value f = Ok x ∧ (0 <= x)%Q ∧ (x <= 1)%Q.
Proof.
  intros Hf. unfold feature_value.
  destruct f as [| b | z | q | s | l | d | id]; cbn [to_float default] in *;
    try (eexists; split; [reflexivity |]; lra).
  - destruct (Hf _ eq_refl) as [H0 H1]. eauto.
  - destruct (Hf _ eq_refl) as [H0 H1].
    assert (Hz : (0 <= z <= 1)%Z).
    { change 0%Q with (inject_Z 0) in H0. change 1%Q with (inject_Z 1) in H1.
      rewrite <- Zle_Qle in H0, H1. lia. }
    assert (Hsmall : float_overflows z = false).
    { unfold float_overflows. apply Z.leb_gt.
      assert (Hbig : (1 < 2 ^ 1024 - 2 ^ 970)%Z) by (vm_compute; reflexivity).
      lia. }
    rewrite Hsmall. eauto.
  - destruct (Hf _ eq_refl) as [H0 H1]. eauto.
Qed.

Lemma sum_features_unit (acc : Q) (features : list PyVal) :
  (∀ v x, v ∈ features → to_float v = Some x → (0 <= x)%Q ∧ (x <= 1)%Q) →
  ∃ total, sum_features acc features = Ok total
    ∧ (acc <= total)%Q
    ∧ (total <= acc + inject_Z (Z.of_nat (length features)))%Q.
Proof.
  revert acc. induction features as [| f fs IH]; intros acc Hall.
  - exists acc. cbn [sum_features length].
    change (inject_Z (Z.of_nat 0)) with 0%Q. split; [reflexivity |]. split; lra.
  - destruct (feature_value_unit f) as (x & Hx & H0 & H1).
    { intros x. apply Hall. by left. }
    destruct (IH (acc + x)%Q) as (total & Htotal & Hlow & Hhigh).
    { intros v y Hv. apply Hall. by right. }
    exists total. cbn [sum_features length]. rewrite Hx.
    split; [exact Htotal |].
    rewrite Nat2Z.inj_succ, <- Z.add_1_r, inject_Z_plus.
    change (inject_Z 1) with 1%Q. split; lra.
Qed.

Lemma sum_features_overflow (acc : Q) (features : list PyVal) :
  (∃ e, sum_features acc features = Raise e)
  ↔ ∃ z, PyInt z ∈ features ∧ float_overflows z = true.
Proof.
  revert acc. induction features as [| f fs IH]; intros acc;
    cbn [sum_features].
  - split; [intros [e He]; discriminate He |].
    intros (z & Hz & _). by apply elem_of_nil in Hz.
  - destruct (feature_value f) as [x | e'] eqn:Hf.
    + rewrite IH. split; intros (z & Hz & Hbig).
      * exists z. split; [by right | exact Hbig].
      * exists z. split; [| exact Hbig].
        apply elem_of_cons in Hz as [<- | Hz]; [| exact Hz].
        unfold feature_value in Hf. rewrite Hbig in Hf. discriminate Hf.
    + split; [intros _ | eauto].
      unfold feature_value in Hf.
      destruct f as [| | z | | | | |]; try discriminate Hf.
      destruct (float_overflows z) eqn:Hbig; [| discriminate Hf].
      exists z. split; [by left | exact Hbig].
Qed.

(** X9. The score of [_process_through_drs]: it is 0.5 for an input that
    is not a dict or is an empty dict; when every feature that is a
    number lies in [0, 1] a score is returned and lies in [0, 1] (a
    feature that is not a number counts for 0.5); and the call raises
    exactly when a feature is an int beyond the range of a float, with
    [OverflowError]. *)
Theorem drs_score_bounds (input_data : PyVal) (context : Dict) :
  ((∀ d, input_data ≠ PyDict d) ∨ input_data = PyDict ∅ →
   _process_through_drs input_data context = Ok (1 # 2)%Q)
  ∧ ((∀ d k v x, input_data = PyDict d → d !! k = Some v →
                 to_float v = Some x → (0 <= x)%Q ∧ (x <= 1)%Q) →
     ∃ score, _process_through_drs input_data context = Ok score
              ∧ (0 <= score)%Q ∧ (score <= 1)%Q)
  ∧ ((∃ e, _process_through_drs input_data context = Raise e)
     ↔ ∃ d k z, input_data = PyDict d ∧ d !! k = Some (PyInt z)
                ∧ float_overflows z = true)
  ∧ (∀ e, _process_through_drs input_data context = Raise e →
          e = Exception "OverflowError" "int too large to convert to float").
Proof.
  split; [| split; [| split]].
  - intros [Hnd | ->]; [| reflexivity].
    destruct input_data; try reflexivity. by destruct (Hnd d).
  - intros Hall. unfold _process_through_drs.
    destruct input_data as [| | | | | | d |];
      try (eexists; split; [reflexivity |]; lra).
    set (features := (map_to_list d).*2).
    destruct (sum_features_unit 0 features) as (total & Htotal & Hlow & Hhigh).
    { intros v x Hv Hx. subst features.
      apply list_elem_of_fmap in Hv as ([k v'] & -> & Hkv).
      apply elem_of_map_to_list in Hkv. by apply (Hall d k v' x). }
    rewrite Htotal.
    destruct (length features) as [| n] eqn:Hlen; cbn [Nat.eqb negb];
      [eexists; split; [reflexivity |]; lra |].
    assert (Hpos : (0 < inject_Z (Z.of_nat (S n)))%Q).
    { change 0%Q with (inject_Z 0). rewrite <- Zlt_Qlt. lia. }
    eexists. split; [reflexivity |]. split.
    + apply Qle_shift_div_l; [exact Hpos | lra].
    + apply Qle_shift_div_r; [exact Hpos | lra].
  - unfold _process_through_drs.
    destruct input_data as [| | | | | | d |];
      try (split; [intros [e He]; cbv beta iota in He; discriminate He
                  | intros (d' & k' & z' & Hd & _); discriminate Hd]).
    set (features := (map_to_list d).*2).
    assert (Hmem : (∃ z, PyInt z ∈ features ∧ float_overflows z = true)
                   ↔ ∃ d' k z, PyDict d = PyDict d' ∧ d' !! k = Some (PyInt z)
                               ∧ float_overflows z = true).
    { subst features. split.
      - intros (z & Hz & Hbig).
        apply list_elem_of_fmap in Hz as ([k v] & Hv & Hkv). cbn in Hv.
        subst v. apply elem_of_map_to_list in Hkv. by exists d, k, z.
      - intros (d' & k & z & [= <-] & Hk & Hbig). exists z.
        split; [| exact Hbig]. apply list_elem_of_fmap.
        exists (k, PyInt z). split; [reflexivity |].
        by apply elem_of_map_to_list. }
    rewrite <- Hmem, <- (sum_features_overflow 0 features).
    destruct (length features) as [| n] eqn:Hlen; cbn [Nat.eqb negb].
    + destruct features; [| discriminate Hlen]. cbn [sum_features].
      split; intros [e He]; discriminate He.
    + destruct (sum_features 0 features) as [total | e'].
      * split; intros [e He]; discriminate He.
      * split; eauto.
  - apply drs_raises.
Qed.

Lemma drs_score_bounds_witness :
  _process_through_drs (PyStr "free text") ∅ = Ok (1 # 2)%Q
  ∧ (let features : Dict :=
       <["feature1" := PyFloat (1 # 2)]>
       (<["feature2" := PyFloat (3 # 4)]>
       (<["label" := PyStr "n/a"]> ∅)) in
     ∃ score, _process_through_drs (PyDict features) ∅ = Ok score
              ∧ (0 <= score)%Q ∧ (score <= 1)%Q)
  ∧ ∃ e, _process_through_drs
           (PyDict (<["amount" := PyInt (10 ^ 400)]> ∅)) ∅ = Raise e.
Proof.
  split; [| split].
  - destruct (drs_score_bounds (PyStr "free text") ∅) as [Hhalf _].
    apply Hhalf. left. discriminate.
  - intros features.
    destruct (drs_score_bounds (PyDict features) ∅) as (_ & Hunit & _).
    apply Hunit.
    intros d k v x [= <-] Hk Hx. subst features.
    destruct (decide (k = "feature1")) as [-> | ?];
      [rewrite lookup_insert_eq in Hk; injection Hk as <-;
       injection Hx as <-; done |].
    rewrite lookup_insert_ne in Hk by done.
    destruct (decide (k = "feature2")) as [-> | ?];
      [rewrite lookup_insert_eq in Hk; injection Hk as <-;
       injection Hx as <-; done |].
    rewrite lookup_insert_ne in Hk by done.
    destruct (decide (k = "label")) as [-> | ?];
      [rewrite lookup_insert_eq in Hk; injection Hk as <-; discriminate Hx |].
    rewrite lookup_insert_ne, lookup_empty in Hk by done. discriminate Hk.
  - destruct (drs_score_bounds
                (PyDict (<["amount" := PyInt (10 ^ 400)]> ∅)) ∅)
      as (_ & _ & Hraise & _).
    apply Hraise. exists (<["amount" := PyInt (10 ^ 400)]> ∅), "amount",
      (10 ^ 400)%Z.
    split; [reflexivity |]. split; [apply lookup_insert_eq |].
    vm_compute. reflexivity.
Defined.

Section Construction.
Context {Sv : Type} `{Collaborators Sv}.

(** X10. [SynergyEngine(config)] is built exactly for a configuration
    with a name, a version, auditing on and a governance level among
    standard, strict and unrestricted; any other is refused with
    [ValueError]. The built engine keeps the configuration, has no task,
    no verification record and no synthesis, scores 1.0 with no drift,
    and its audit trail holds two entries: the compliance check and the
    initialisation. *)
Theorem SynergyEngine_init_compliant (cfg : ModuleConfig) (sv : Sv) (t0 : nat) :
  (compliant cfg →
   ∃ self, SynergyEngine_init cfg sv t0 = Ok self
     ∧ config self = cfg ∧ services self = sv
     ∧ active_tasks self = []
     ∧ verification_log (charter_layer self) = []
     ∧ system_state self
       = {| alignment_score := 1; coherence_level := 1;
            ethical_drift_detected := false; last_synthesis := None |}
     ∧ entry_event <$> audit_log self
       = ["Governance compliance verified: {'name_valid': True, " ++
          "'version_valid': True, 'audit_enabled': True, " ++
          "'governance_level_valid': True}";
          "Synergy Engine initialized with 4 governance modules"]
     ∧ Forall (λ entry, entry_module entry = name cfg) (audit_log self))
  ∧ (¬ compliant cfg →
     SynergyEngine_init cfg sv t0
     = Raise (Exception "ValueError"
                "Module does not meet governance standards")).
Proof.
  unfold compliant, SynergyEngine_init, bind, datetime_now,
    _verify_governance_compliance.
  cbn [fst snd set_ticks config].
  destruct (String.eqb (name cfg) "") eqn:Hn.
  { apply String.eqb_eq in Hn. split; [intros (Hn' & _); by destruct Hn' |].
    reflexivity. }
  destruct (String.eqb (version cfg) "") eqn:Hv.
  { apply String.eqb_eq in Hv. split; [intros (_ & Hv' & _); by destruct Hv' |].
    reflexivity. }
  apply String.eqb_neq in Hn, Hv.
  destruct (audit_enabled cfg) eqn:Ha.
  2: { split; [intros (_ & _ & Ha' & _); discriminate Ha' | reflexivity]. }
  destruct (bool_decide (governance_level cfg
                           ∈ ["standard"; "strict"; "unrestricted"])) eqn:Hg.
  - apply bool_decide_eq_true in Hg. cbn [negb andb].
    split; [| intros Hno; destruct Hno; by repeat split].
    intros _. unfold bind, _audit, ret, modify, bind, datetime_now.
    cbn. rewrite Ha. cbn. rewrite Ha. cbn.
    eexists. split; [reflexivity |]. cbn.
    repeat split; repeat constructor.
  - apply bool_decide_eq_false in Hg. cbn [negb andb].
    split; [intros (_ & _ & _ & Hg'); by destruct Hg | reflexivity].
Qed.
End Construction.

Lemma SynergyEngine_init_compliant_witness :
  (∃ self, SynergyEngine_init demo_config tt 0 = Ok self
     ∧ config self = demo_config ∧ services self = tt
     ∧ active_tasks self = []
     ∧ verification_log (charter_layer self) = []
     ∧ system_state self
       = {| alignment_score := 1; coherence_level := 1;
            ethical_drift_detected := false; last_synthesis := None |}
     ∧ entry_event <$> audit_log self
       = ["Governance compliance verified: {'name_valid': True, " ++
          "'version_valid': True, 'audit_enabled': True, " ++
          "'governance_level_valid': True}";
          "Synergy Engine initialized with 4 governance modules"]
     ∧ Forall (λ entry, entry_module entry = name demo_config) (audit_log self))
  ∧ (let quiet_config :=
       {| name := "synergy"; version := "7.0"; enabled := true;
          governance_level := "standard"; audit_enabled := false;
          max_latency_ms := 5000; metadata := (∅ : Dict) |} in
     SynergyEngine_init quiet_config tt 0
     = Raise (Exception "ValueError"
                "Module does not meet governance standards")).
Proof.
  split.
  - apply (SynergyEngine_init_compliant demo_config tt 0).
    unfold compliant. repeat split; try discriminate.
    cbn. set_solver.
  - intros quiet_config.
    apply (SynergyEngine_init_compliant quiet_config tt 0).
    intros (_ & _ & Ha & _). discriminate Ha.
Defined.

Lemma blocked_le_checks (g : CharterLayer) : (blocked_of g ≤ checks_of g)%nat.
Proof. unfold blocked_of, checks_of. apply List.filter_length_le. Qed.

Lemma detect_report {Sv : Type} (self : SynergyEngine Sv) :
  let N := checks_of (charter_layer self) in
  let V := blocked_of (charter_layer self) in
  let rate := (if Nat.ltb 0 N then true_div V N else 0)%Q in
  fst (detect_alignment_drift self)
  = Ok {| report_alignment_score := Qred (1 - rate);
          drift_detected := Qlt_bool (1 # 10) rate;
          violation_rate := rate;
          total_checks := N |}.
Proof.
  unfold detect_alignment_drift, checks_of, blocked_of.
  cbn [get_verification_history fst]. by rewrite blocked_count_filter.
Qed.

Lemma true_div_bounds (v n : nat) :
  (v ≤ S n)%nat →
  (0 <= true_div v (S n))%Q ∧ (true_div v (S n) <= 1)%Q
  ∧ ((1 # 10 < true_div v (S n))%Q ↔ (S n < 10 * v)%nat).
Proof.
  intros Hle. unfold true_div.
  assert (Hpos : Z.pos (Pos.of_nat (S n)) = Z.of_nat (S n)).
  { rewrite <- Pos.of_nat_succ, Zpos_P_of_succ_nat. lia. }
  pose proof (Qred_correct (Z.of_nat v # Pos.of_nat (S n))) as Hred.
  split; [| split].
  - rewrite Hred. unfold Qle. cbn [Qnum Qden]. lia.
  - rewrite Hred. unfold Qle. cbn [Qnum Qden]. rewrite Hpos. lia.
  - rewrite Hred. unfold Qlt. cbn [Qnum Qden]. rewrite Hpos. lia.
Qed.

Lemma detect_report_counts {Sv : Type} (self : SynergyEngine Sv) :
  let N := checks_of (charter_layer self) in
  let V := blocked_of (charter_layer self) in
  ∃ report,
    fst (detect_alignment_drift self) = Ok report
    ∧ total_checks report = N
    ∧ (drift_detected report = true ↔ (N < 10 * V)%nat)
    ∧ (0 <= violation_rate report)%Q ∧ (violation_rate report <= 1)%Q
    ∧ (0 <= report_alignment_score report)%Q
    ∧ (report_alignment_score report <= 1)%Q
    ∧ (V = 0 → report_alignment_score report = 1%Q
               ∧ drift_detected report = false).
Proof.
  intros N V. eexists. split; [apply detect_report |].
  fold N V. cbn [total_checks drift_detected violation_rate
                 report_alignment_score].
  split; [reflexivity |].
  pose proof (blocked_le_checks (charter_layer self)) as Hle. fold N V in Hle.
  destruct N as [| n].
  - assert (V = 0) as -> by lia. cbn [Nat.ltb Nat.leb].
    split; [split; [discriminate | lia] |].
    repeat split; try done.
  - change (Nat.ltb 0 (S n)) with true. cbn match.
    destruct (true_div_bounds V n Hle) as (H0 & H1 & Hdrift).
    split; [by rewrite Qlt_bool_iff |].
    split; [exact H0 |]. split; [exact H1 |].
    pose proof (Qred_correct (1 - true_div V (S n))) as Hred.
    split; [rewrite Hred; lra |]. split; [rewrite Hred; lra |].
    intros ->. split.
    + apply (Qred_complete _ 1). unfold true_div. rewrite Qred_correct.
      unfold Qeq, Qminus, Qplus, Qopp. cbn. lia.
    + apply not_true_is_false. rewrite Qlt_bool_iff, Hdrift. lia.
Qed.

(** X11. In the report of [detect_alignment_drift], with [N] records in
    the gate's history of which [V] did not pass: drift is flagged
    exactly when [N < 10 * V] (more than one record in ten; exactly one
    in ten is not drift); the rate and the score lie between 0 and 1;
    and with no failed record the score is 1.0 and no drift is
    flagged. *)
Theorem drift_threshold_counts {Sv : Type} (self : SynergyEngine Sv) :
  let N := checks_of (charter_layer self) in
  let V := blocked_of (charter_layer self) in
  ∃ report,
    fst (detect_alignment_drift self) = Ok report
    ∧ total_checks report = N
    ∧ (drift_detected report = true ↔ (N < 10 * V)%nat)
    ∧ (0 <= violation_rate report)%Q ∧ (violation_rate report <= 1)%Q
    ∧ (0 <= report_alignment_score report)%Q
    ∧ (report_alignment_score report <= 1)%Q
    ∧ (V = 0 → report_alignment_score report = 1%Q
               ∧ drift_detected report = false).
Proof. exact (detect_report_counts self). Qed.

Section Composition.
Context {Sv : Type} `{Collaborators Sv}.

Lemma blocked_of_snoc (log : list OutputVerification) r :
  blocked_of {| verification_log := (log ++ [r])%list |}
  = blocked_of {| verification_log := log |}
    + (if passed r then 0 else 1).
Proof.
  unfold blocked_of. cbn [verification_log].
  rewrite List.filter_app, length_app. cbn. by destruct (passed r).
Qed.

(** X12. How [process] feeds the drift estimate: a call that ends in a
    veto adds one record and one failed record to the counts
    [detect_alignment_drift] works from; a call that returns a package
    adds one record and no failed one; any other call adds at most one
    record and no failed one. *)
Theorem process_feeds_drift
    (self : SynergyEngine Sv) (input_data : PyVal) (context : option Dict) :
  let run := process input_data context self in
  let N := checks_of (charter_layer self) in
  let V := blocked_of (charter_layer self) in
  let N' := checks_of (charter_layer (snd run)) in
  let V' := blocked_of (charter_layer (snd run)) in
  (∃ report, fst (detect_alignment_drift (snd run)) = Ok report
             ∧ total_checks report = N'
             ∧ (drift_detected report = true ↔ (N' < 10 * V')%nat))
  ∧ (∀ msg, fst run = Raise (CharterViolationError msg) →
            N' = S N ∧ V' = S V)
  ∧ (∀ out, fst run = Ok out → N' = S N ∧ V' = V)
  ∧ (∀ cls msg, fst run = Raise (Exception cls msg) →
                (N ≤ N')%nat ∧ (N' ≤ S N)%nat ∧ V' = V).
Proof.
  intros run N V N' V'. split.
  { destruct (detect_report_counts (snd run)) as (report & Hrep & Htot & Hd & _).
    exists report. by repeat split; try apply Hd. }
  subst run N V N' V'.
  destruct (process_run self input_data context) as (res & s1 & Hout & Hproc).
  assert (Hgate : charter_layer (snd (process input_data context self))
                  = charter_layer s1).
  { rewrite Hproc. destruct res; [reflexivity |]. rewrite handler_run.
    cbn [snd]. by destruct (audit_enabled (config s1)). }
  assert (Hres : fst (process input_data context self) = res).
  { rewrite Hproc. destruct res; [reflexivity |]. by rewrite handler_run. }
  rewrite Hgate, Hres. clear Hgate Hres Hproc.
  destruct Hout as (_ & more & _ & Hcases).
  cbn [charter_layer set_ticks] in Hcases.
  destruct Hcases as [((cls & m & ->) & Hg & _)
    | (now & pkg & Hlog & _ & _ & Hcases)].
  - rewrite Hg. split; [intros msg Habs; discriminate Habs |].
    split; [intros out Habs; discriminate Habs |].
    intros _ _ _. repeat split; lia.
  - cbn zeta in *.
    set (r := built_record charter_rules now (Mapping pkg) (default ∅ context))
      in *.
    assert (Hn : checks_of (charter_layer s1)
                 = S (checks_of (charter_layer self))).
    { unfold checks_of. rewrite Hlog, length_app. cbn. lia. }
    assert (Hv : blocked_of (charter_layer s1)
                 = blocked_of (charter_layer self)
                   + (if passed r then 0 else 1)).
    { destruct (charter_layer s1) as [log1], (charter_layer self) as [log0].
      cbn [verification_log] in Hlog. rewrite Hlog. apply blocked_of_snoc. }
    rewrite Hn, Hv.
    destruct Hcases as [(Hp & -> & _) | [(Hp & _ & -> & _)
      | (Hp & _ & out & t & -> & _)]]; rewrite Hp.
    + split; [intros msg _; split; lia |].
      split; [intros out Habs; discriminate Habs |].
      intros cls msg Habs. discriminate Habs.
    + split; [intros msg Habs; discriminate Habs |].
      split; [intros out Habs; discriminate Habs |].
      intros _ _ _. repeat split; lia.
    + split; [intros msg Habs; discriminate Habs |].
      split; [intros out' _; split; lia |].
      intros cls msg Habs. discriminate Habs.
Qed.
End Composition.

Lemma process_feeds_drift_witness :
  let self := demo_engine in
  let run := process (PyInt 7) (Some consent_required_of_user) self in
  let msg := "Output violates charter: ['Violated: human_dignity']" in
  fst run = Raise (CharterViolationError msg)
  ∧ checks_of (charter_layer (snd run)) = S (checks_of (charter_layer self))
  ∧ blocked_of (charter_layer (snd run)) = S (blocked_of (charter_layer self)).
Proof.
  intros self run msg.
  assert (Hrun : fst run = Raise (CharterViolationError msg))
    by (vm_compute; reflexivity).
  split; [exact Hrun |].
  destruct (process_feeds_drift self (PyInt 7) (Some consent_required_of_user))
    as (_ & Hveto & _).
  exact (Hveto msg Hrun).
Defined.

(** ** Bias detection *)

Lemma is_minority_spec v :
  BiasDetection.is_minority v = true ↔ v = PyStr "minority".
Proof.
  destruct v; cbn; try (split; [discriminate | discriminate]).
  rewrite String.eqb_eq. split; [by intros -> | by intros [= ->]].
Qed.

Lemma disparity_of_cases output attribute demographics :
  match BiasDetection.disparity_of output attribute demographics with
  | Ok q =>
      (q = (3 # 4)%Q ∧ BiasDetection.flagged output demographics attribute)
      ∨ (q = 1%Q ∧ ¬ BiasDetection.flagged output demographics attribute)
  | Raise e =>
      ∃ d score, output = PyDict d ∧ d !! "score" = Some score
        ∧ to_float score = None
        ∧ demographics !! attribute = Some (PyStr "minority")
  end.
Proof.
  unfold BiasDetection.disparity_of, BiasDetection.flagged.
  destruct output as [| | | | | | d |];
    try (right; split; [reflexivity |];
         intros (d' & score & x & Hd & _); discriminate Hd).
  destruct (d !! "score") as [base_score |] eqn:Hscore.
  2: { right. split; [reflexivity |].
       intros (d' & score & x & [= <-] & Hs & _). congruence. }
  destruct (BiasDetection.is_minority (dict_get demographics attribute PyNone))
    eqn:Hmin.
  2: { right. split; [reflexivity |].
       intros (d' & score & x & _ & _ & _ & _ & Hm).
       unfold dict_get in Hmin. rewrite Hm in Hmin. discriminate Hmin. }
  apply is_minority_spec in Hmin. unfold dict_get in Hmin.
  destruct (demographics !! attribute) as [v |] eqn:Hv; [| discriminate Hmin].
  subst v. unfold py_gt.
  destruct (to_float base_score) as [x |] eqn:Hx.
  - destruct (Qlt_bool (7 # 10) x) eqn:Hgt.
    + left. split; [reflexivity |]. apply Qlt_bool_iff in Hgt.
      by exists d, base_score, x.
    + right. split; [reflexivity |].
      intros (d' & score & x' & [= <-] & Hs & Hx' & Hlt & _).
      rewrite Hscore in Hs. injection Hs as <-. rewrite Hx in Hx'.
      injection Hx' as <-. apply Qlt_bool_iff in Hlt. congruence.
  - by exists d, base_score.
Qed.

Lemma analyze_loop_spec clock output demographics attrs :
  ∀ t detected,
  match BiasDetection.analyze_loop clock t output demographics attrs detected with
  | (Ok found, t') =>
      ∃ new,
        found = (detected ++ new)%list
        ∧ BiasDetection.protected_attribute <$> new
          = List.filter (dict_has demographics) attrs
        ∧ t' = t + length new
        ∧ Forall (BiasDetection.metric_ok output demographics) new
  | (Raise e, t') =>
      ∃ attribute d score,
        attribute ∈ attrs ∧ output = PyDict d ∧ d !! "score" = Some score
        ∧ to_float score = None
        ∧ demographics !! attribute = Some (PyStr "minority")
  end.
Proof.
  induction attrs as [| a rest IH]; intros t detected; cbn [BiasDetection.analyze_loop].
  - exists []. rewrite app_nil_r. repeat split; [cbn; lia | constructor].
  - cbn [List.filter]. destruct (dict_has demographics a) eqn:Ha; cbn [negb].
    + unfold BiasDetection._check_disparate_impact.
      pose proof (disparity_of_cases output a demographics) as Hd.
      destruct (BiasDetection.disparity_of output a demographics) as [q | e].
      * set (metric := BiasDetection.Build_BiasMetric _ _ _ _ _ _ _).
        specialize (IH (S t) (detected ++ [metric])%list).
        destruct (BiasDetection.analyze_loop clock (S t) output demographics
                    rest (detected ++ [metric])%list) as [[found | e] t'].
        -- destruct IH as (new & -> & Hattrs & -> & Hall).
           exists (metric :: new). rewrite <- app_assoc.
           split; [reflexivity |]. split; [cbn; by rewrite Hattrs |].
           split; [cbn; lia |]. constructor; [| exact Hall].
           unfold BiasDetection.metric_ok, metric. cbn.
           destruct Hd as [[-> Hf] | [-> Hf]]; cbn; by repeat split.
        -- destruct IH as (attribute & d & score & Hin & Hrest).
           exists attribute, d, score. split; [by right | exact Hrest].
      * destruct Hd as (d & score & Hrest). exists a, d, score.
        split; [by left | exact Hrest].
    + specialize (IH t detected).
      destruct (BiasDetection.analyze_loop clock t output demographics rest
                  detected) as [[found | e] t']; [exact IH |].
      destruct IH as (attribute & d & score & Hin & Hrest).
      exists attribute, d, score. split; [by right | exact Hrest].
Qed.

Lemma analyze_output_cases
    (clock : nat → Instant) (self : BiasDetection.BiasDetectionModule)
    (t : nat) (output : PyVal) (demographics : Dict) :
  match BiasDetection.analyze_output clock self t output demographics with
  | (Ok detected, self', t') =>
      BiasDetection.protected_attribute <$> detected
      = List.filter (dict_has demographics) BiasDetection.protected_attributes
      ∧ Forall (BiasDetection.metric_ok output demographics) detected
      ∧ BiasDetection.bias_metrics self'
        = (BiasDetection.bias_metrics self ++ detected)%list
      ∧ (length detected ≤ 5)%nat
      ∧ t' = t + length detected
  | (Raise e, self', t') =>
      self' = self
      ∧ ∃ d score, output = PyDict d ∧ d !! "score" = Some score
                   ∧ to_float score = None
  end.
Proof.
  unfold BiasDetection.analyze_output.
  pose proof (analyze_loop_spec clock output demographics
                BiasDetection.protected_attributes t []) as Hloop.
  destruct (BiasDetection.analyze_loop clock t output demographics
              BiasDetection.protected_attributes []) as [[found | e] t'].
  - destruct Hloop as (new & -> & Hattrs & -> & Hall). cbn [app].
    split; [exact Hattrs |]. split; [exact Hall |]. split; [reflexivity |].
    split; [| reflexivity].
    rewrite <- (length_fmap BiasDetection.protected_attribute), Hattrs.
    exact (List.filter_length_le _ BiasDetection.protected_attributes).
  - destruct Hloop as (attribute & d & score & _ & Hd & Hs & Hx & _).
    split; [reflexivity |]. by exists d, score.
Qed.

(** X13. When [analyze_output] returns: it found one metric for each of
    the module's protected attributes that is a key of [demographics],
    in the module's order, and nothing for any other key; every metric
    has threshold 0.8 and violates it, with ratio 0.75, exactly when
    the output is a dict whose [score] exceeds 0.7 and the attribute's
    value is 'minority' (ratio 1.0 otherwise); the metrics found are
    appended to [bias_metrics]. When it raises, the output's [score] is
    not a number, and [bias_metrics] is unchanged. *)
Theorem analyze_output_metrics
    (clock : nat → Instant) (self : BiasDetection.BiasDetectionModule)
    (t : nat) (output : PyVal) (demographics : Dict) :
  match BiasDetection.analyze_output clock self t output demographics with
  | (Ok detected, self', t') =>
      BiasDetection.protected_attribute <$> detected
      = List.filter (dict_has demographics) BiasDetection.protected_attributes
      ∧ Forall (BiasDetection.metric_ok output demographics) detected
      ∧ BiasDetection.bias_metrics self'
        = (BiasDetection.bias_metrics self ++ detected)%list
      ∧ (length detected ≤ 5)%nat
      ∧ t' = t + length detected
  | (Raise e, self', t') =>
      self' = self
      ∧ ∃ d score, output = PyDict d ∧ d !! "score" = Some score
                   ∧ to_float score = None
  end.
Proof. exact (analyze_output_cases clock self t output demographics). Qed.

(** X14. On an output that is not a dict with a [score] (the engine
    passes a bare float) [analyze_output] never raises and never reports
    a violation: every metric has ratio 1.0. With no key of
    [demographics] among the module's attributes it finds nothing. *)
Theorem analyze_output_without_score
    (clock : nat → Instant) (self : BiasDetection.BiasDetectionModule)
    (t : nat) (output : PyVal) (demographics : Dict) :
  ((∀ d, output = PyDict d → d !! "score" = None) →
   ∃ detected self' t',
     BiasDetection.analyze_output clock self t output demographics
     = (Ok detected, self', t')
     ∧ Forall (λ m, BiasDetection.violates_threshold m = false
                    ∧ BiasDetection.disparity_ratio m = 1%Q) detected)
  ∧ ((∀ a, a ∈ BiasDetection.protected_attributes →
           demographics !! a = None) →
     BiasDetection.analyze_output clock self t output demographics
     = (Ok [], {| BiasDetection.bias_metrics :=
                    (BiasDetection.bias_metrics self ++ [])%list |}, t)).
Proof.
  split.
  - intros Hnoscore.
    pose proof (analyze_output_cases clock self t output demographics) as H.
    destruct (BiasDetection.analyze_output clock self t output demographics)
      as [[[detected | e] self'] t'].
    + exists detected, self', t'. split; [reflexivity |].
      destruct H as (_ & Hall & _).
      eapply Forall_impl; [exact Hall |].
      intros m (_ & _ & Hv & Hr). cbn beta in *.
      destruct (BiasDetection.violates_threshold m); [| done].
      destruct Hv as [Hv _].
      destruct (Hv eq_refl) as (d & score & x & Hd & Hs & _).
      rewrite (Hnoscore d Hd) in Hs. discriminate Hs.
    + destruct H as (_ & d & score & Hd & Hs & _).
      rewrite (Hnoscore d Hd) in Hs. discriminate Hs.
  - intros Hnone. unfold BiasDetection.analyze_output.
    assert (Hloop : ∀ attrs,
      (∀ a, a ∈ attrs → demographics !! a = None) →
      BiasDetection.analyze_loop clock t output demographics attrs []
      = (Ok [], t)).
    { induction attrs as [| a rest IH]; intros Hall; [reflexivity |].
      cbn [BiasDetection.analyze_loop]. unfold dict_has.
      rewrite (Hall a) by (by left). cbn [negb].
      apply IH. intros b Hb. apply Hall. by right. }
    by rewrite (Hloop _ Hnone).
Qed.

Lemma analyze_output_without_score_witness :
  (∃ detected self' t',
     BiasDetection.analyze_output clock
       BiasDetection.BiasDetectionModule_init 0 (PyFloat (9 # 10))
       (<["race" := PyStr "minority"]> ∅)
     = (Ok detected, self', t')
     ∧ Forall (λ m, BiasDetection.violates_threshold m = false
                    ∧ BiasDetection.disparity_ratio m = 1%Q) detected)
  ∧ BiasDetection.analyze_output clock
      BiasDetection.BiasDetectionModule_init 0
      (PyDict (<["score" := PyFloat (9 # 10)]> ∅))
      (<["age" := PyStr "minority"]> ∅)
    = (Ok [], {| BiasDetection.bias_metrics := [] |}, 0).
Proof.
  split.
  - apply analyze_output_without_score. intros d Hd. discriminate Hd.
  - apply (analyze_output_without_score clock
             BiasDetection.BiasDetectionModule_init 0).
    intros a Ha. unfold BiasDetection.protected_attributes in Ha.
    rewrite !elem_of_cons, elem_of_nil in Ha.
    destruct Ha as [-> | [-> | [-> | [-> | [-> | []]]]]]; reflexivity.
Defined.

(** ** Privacy preservation *)

Section PrivacyProofs.
Import PrivacyPreservation.



Lemma run_op_cases laplace self op :
  run_op laplace self op = self
  ∨ ∃ entry,
      privacy_log (run_op laplace self op)
      = (privacy_log self ++ [entry])%list
      ∧ privacy_budget_spent (run_op laplace self op)
        = spend (privacy_budget_spent self) entry
      ∧ (∀ t s c total, entry = DifferentialPrivacy t s c total →
           total = privacy_budget_spent (run_op laplace self op)
           ∧ c = (s / epsilon self)%Q)
      ∧ epsilon (run_op laplace self op) = epsilon self.
Proof.
  destruct op as [now statistic sensitivity | now model_update]; cbn [run_op].
  - unfold add_differential_privacy_noise.
    destruct (to_float sensitivity) as [s |]; [| by left].
    destruct (Qeq_bool (epsilon self) 0); [by left |].
    destruct (laplace (s / epsilon self)%Q) as [noise | e]; [| by left].
    right. eexists. cbn. split; [reflexivity |]. split; [reflexivity |].
    split; [| reflexivity]. intros t s' c total [= _ <- <- <-]. by split.
  - unfold federated_learning_ready.
    destruct (dict_has _ _ && dict_has _ _); [by left |].
    destruct (py_lt _ _); [| by left].
    right. exists (FederatedReadinessCheck now true).
    cbn [snd privacy_log privacy_budget_spent spend epsilon].
    split; [reflexivity |].
    split; [reflexivity |]. split; [discriminate | reflexivity].
Qed.

Lemma differential_entries_snoc log entry :
  differential_entries (log ++ [entry])
  = (differential_entries log
     ++ if is_differential_privacy entry then [entry] else [])%list.
Proof. unfold differential_entries. by rewrite List.filter_app. Qed.

(** X16. In every state the module reaches from [__init__] through its
    two logging calls, whatever they were given and whether they raised:
    the spent budget is what the costs logged add up to, taken from 0 in
    the order of the log; each differential-privacy entry logs its
    sensitivity over epsilon as cost; the last differential-privacy
    entry of the log, whatever was logged after it, holds the budget
    spent, and with no such entry nothing is spent; epsilon is the one
    given at construction; and the log has at most one entry per
    call. *)
Theorem budget_matches_log
    (laplace : Q → Result Q) (eps dlt : Q) (ops : list Op) :
  let self := foldl (run_op laplace) (PrivacyPreservationModule_init eps dlt) ops in
  privacy_budget_spent self = logged_cost (privacy_log self)
  ∧ Forall (λ entry, ∀ t s c total,
              entry = DifferentialPrivacy t s c total → c = (s / eps)%Q)
      (privacy_log self)
  ∧ (∀ t s c total, last (differential_entries (privacy_log self))
                    = Some (DifferentialPrivacy t s c total) →
                    total = privacy_budget_spent self)
  ∧ (differential_entries (privacy_log self) = [] →
     privacy_budget_spent self = 0%Q)
  ∧ epsilon self = eps
  ∧ (length (privacy_log self) ≤ length ops)%nat
  ∧ total_operations (get_privacy_report self) = length (privacy_log self).
Proof.
  induction ops as [| op ops IH] using rev_ind.
  - cbn. split; [reflexivity |]. split; [constructor |].
    split; [intros t s c total Habs; discriminate Habs |]. by repeat split.
  - rewrite foldl_app. cbn [foldl].
    set (prev := foldl (run_op laplace) (PrivacyPreservationModule_init eps dlt) ops)
      in *.
    cbn zeta in IH.
    destruct IH as (Hsum & Hall & Hlast & Hnone & Heps & Hlen & _).
    cbn zeta. rewrite length_app. cbn [length].
    destruct (run_op_cases laplace prev op)
      as [-> | (entry & Hlog & Hspent & Hentry & Heps')].
    + split; [exact Hsum |]. split; [exact Hall |]. split; [exact Hlast |].
      split; [exact Hnone |]. split; [exact Heps |]. split; [lia | reflexivity].
    + rewrite Hlog, Hspent, differential_entries_snoc.
      split; [unfold logged_cost in *; rewrite foldl_app; cbn [foldl];
              by rewrite <- Hsum |].
      split.
      { apply Forall_app. split; [exact Hall |]. constructor; [| constructor].
        intros t s c total ->. rewrite <- Heps.
        by destruct (Hentry t s c total eq_refl). }
      split; [| split].
      { intros t s c total.
        destruct entry as [t' s' c' total' | t' safe];
          cbn [is_differential_privacy spend].
        - rewrite last_snoc. intros [= -> -> -> ->].
          destruct (Hentry t s c total eq_refl) as [-> _].
          rewrite Hspent. reflexivity.
        - rewrite app_nil_r. apply Hlast. }
      { destruct entry as [t' s' c' total' | t' safe];
          cbn [is_differential_privacy spend].
        - intros Habs. by apply app_nil in Habs as [_ Habs].
        - rewrite app_nil_r. exact Hnone. }
      split; [congruence |]. split; [rewrite length_app; cbn; lia |].
      cbn. by rewrite Hlog.
Qed.

(** X17. The privacy report is consistent: the status is COMPLIANT exactly
    when the spent budget is below 1 and exactly when some budget
    remains, BUDGET_EXCEEDED otherwise; the remaining budget is
    [1 - spent] cut off at 0, so never negative, and at most 1 when the
    spent budget is not negative. *)
Theorem privacy_report_consistent (self : PrivacyPreservationModule) :
  let report := get_privacy_report self in
  (status report = "COMPLIANT" ↔ (privacy_budget_spent self < 1)%Q)
  ∧ (status report = "COMPLIANT" ↔ (0 < budget_remaining report)%Q)
  ∧ (status report = "BUDGET_EXCEEDED" ↔ (budget_remaining report == 0)%Q)
  ∧ (0 <= budget_remaining report)%Q
  ∧ ((privacy_budget_spent self < 1)%Q →
     (budget_remaining report == 1 - privacy_budget_spent self)%Q)
  ∧ ((0 <= privacy_budget_spent self)%Q → (budget_remaining report <= 1)%Q).
Proof.
  cbn [get_privacy_report status budget_remaining]. unfold max0.
  destruct (Qlt_bool (privacy_budget_spent self) 1) eqn:Hlt.
  - apply Qlt_bool_iff in Hlt.
    assert (Hpos : Qlt_bool 0 (1 - privacy_budget_spent self) = true)
      by (apply Qlt_bool_iff; lra).
    rewrite Hpos. repeat split; try done; try lra; try discriminate.
  - assert (Hge : (1 <= privacy_budget_spent self)%Q).
    { apply Qnot_lt_le. intros H. apply Qlt_bool_iff in H. congruence. }
    assert (Hneg : Qlt_bool 0 (1 - privacy_budget_spent self) = false).
    { apply not_true_is_false. intros H. apply Qlt_bool_iff in H. lra. }
    rewrite Hneg. repeat split; try done; try lra; try discriminate.
Qed.

Lemma privacy_report_consistent_witness :
  let self :=
    {| epsilon := 1; delta := 1 # 100000;
       privacy_budget_spent := 1 # 4; privacy_log := [] |} in
  (budget_remaining (get_privacy_report self)
   == 1 - privacy_budget_spent self)%Q
  ∧ (budget_remaining (get_privacy_report self) <= 1)%Q.
Proof.
  intros self.
  destruct (privacy_report_consistent self) as (_ & _ & _ & _ & Hrem & Hle).
  split; [apply Hrem | apply Hle]; vm_compute; [reflexivity | discriminate].
Defined.

(** X18. [sanitize_input], whatever [_sanitize_string] does to a text:
    a string is rewritten; a dict keeps its keys and every value that is
    not a string, its string values are rewritten, and strings nested in
    a list or dict value are left as they are; any other input is
    returned unchanged. If rewriting a text twice changes nothing more,
    sanitising twice changes nothing more. *)
Theorem sanitize_input_shape (san : string → string) (data : PyVal) :
  (∀ text, data = PyStr text → sanitize_input san data = PyStr (san text))
  ∧ (∀ d, data = PyDict d →
       ∃ d', sanitize_input san data = PyDict d'
         ∧ dom d' = dom d
         ∧ (∀ k text, d !! k = Some (PyStr text) →
                      d' !! k = Some (PyStr (san text)))
         ∧ (∀ k v, d !! k = Some v → (∀ text, v ≠ PyStr text) →
                   d' !! k = Some v))
  ∧ ((∀ text, data ≠ PyStr text) → (∀ d, data ≠ PyDict d) →
     sanitize_input san data = data)
  ∧ ((∀ text, san (san text) = san text) →
     sanitize_input san (sanitize_input san data) = sanitize_input san data).
Proof.
  split; [by intros text -> |]. split; [| split].
  - intros d ->. eexists. split; [reflexivity |].
    split; [apply dom_fmap_L |]. split.
    + intros k text Hk. by rewrite lookup_fmap, Hk.
    + intros k v Hk Hv. rewrite lookup_fmap, Hk. cbn.
      destruct v; try reflexivity. by destruct (Hv s).
  - intros Hs Hd. destruct data; try reflexivity.
    + by destruct (Hs s).
    + by destruct (Hd d).
  - intros Hidem. destruct data; try reflexivity; cbn.
    + by rewrite Hidem.
    + f_equal. rewrite <- map_fmap_compose. apply map_fmap_ext.
      intros k v _. cbn. destruct v; try reflexivity. cbn. by rewrite Hidem.
Qed.

Lemma sanitize_input_shape_witness :
  let mask := λ _ : string, "[MASKED]" in
  let record : Dict :=
    <["note" := PyStr "call 555-123-4567"]>
    (<["age" := PyInt 41]>
    (<["contacts" := PyList [PyStr "555-123-4567"]]> ∅)) in
  ∃ d', sanitize_input mask (PyDict record) = PyDict d'
    ∧ d' !! "note" = Some (PyStr "[MASKED]")
    ∧ d' !! "age" = Some (PyInt 41)
    ∧ d' !! "contacts" = Some (PyList [PyStr "555-123-4567"]).
Proof.
  intros mask record.
  destruct (sanitize_input_shape mask (PyDict record))
    as (_ & Hdict & _ & _).
  destruct (Hdict record eq_refl) as (d' & Heq & _ & Hstr & Hother).
  exists d'. split; [exact Heq |]. split; [| split].
  - apply (Hstr "note" "call 555-123-4567"). reflexivity.
  - apply Hother; [reflexivity | discriminate].
  - apply Hother; [reflexivity | discriminate].
Defined.

(** X19. [federated_learning_ready] answers False, and logs nothing,
    exactly when the update holds both [gradients] and
    [individual_gradients]; otherwise it answers True and appends one
    log entry, unless [num_parameters] is not a number, in which case it
    raises and logs nothing. The budget is never touched. *)
Theorem federated_learning_ready_cases
    (self : PrivacyPreservationModule) (now : string) (model_update : Dict) :
  let both :=
    is_Some (model_update !! "gradients")
    ∧ is_Some (model_update !! "individual_gradients") in
  let params := dict_get model_update "num_parameters" (PyInt 0) in
  (both → federated_learning_ready self now model_update = (Ok false, self))
  ∧ (¬ both → is_Some (to_float params) →
     ∃ self',
       federated_learning_ready self now model_update = (Ok true, self')
       ∧ privacy_log self'
         = (privacy_log self ++ [FederatedReadinessCheck now true])%list
       ∧ privacy_budget_spent self' = privacy_budget_spent self)
  ∧ (¬ both → to_float params = None →
     federated_learning_ready self now model_update
     = (Raise (Exception "TypeError" "'<' not supported"), self)).
Proof.
  intros both params. unfold federated_learning_ready, py_lt. fold params.
  assert (Hboth : dict_has model_update "gradients"
                  && dict_has model_update "individual_gradients" = true
                  ↔ both).
  { unfold both, dict_has. rewrite andb_true_iff.
    destruct (model_update !! "gradients"),
      (model_update !! "individual_gradients");
      split; intros [H1 H2]; try discriminate;
      try (by destruct H1); try (by destruct H2); eauto. }
  destruct (dict_has model_update "gradients"
            && dict_has model_update "individual_gradients").
  - assert both by (by apply Hboth).
    split; [done |]. split; intros Hn; by destruct Hn.
  - assert (Hn : ¬ both) by (intros Hb; apply Hboth in Hb; discriminate Hb).
    split; [intros Hb; by destruct Hn |]. split.
    + intros _ [x Hx]. rewrite Hx. eexists. by repeat split.
    + intros _ Hx. by rewrite Hx.
Qed.

Lemma federated_learning_ready_cases_witness :
  let self := PrivacyPreservationModule_init 1 (1 # 100000) in
  federated_learning_ready self "t0"
    (<["gradients" := PyList []]> (<["individual_gradients" := PyList []]> ∅))
  = (Ok false, self)
  ∧ (∃ self',
       federated_learning_ready self "t0" (<["gradients" := PyList []]> ∅)
       = (Ok true, self')
       ∧ privacy_log self'
         = (privacy_log self ++ [FederatedReadinessCheck "t0" true])%list
       ∧ privacy_budget_spent self' = privacy_budget_spent self)
  ∧ federated_learning_ready self "t0"
      (<["num_parameters" := PyStr "many"]> ∅)
    = (Raise (Exception "TypeError" "'<' not supported"), self).
Proof.
  intros self. split; [| split].
  - apply federated_learning_ready_cases. split; vm_compute; eauto.
  - apply federated_learning_ready_cases.
    + intros [_ [v Hv]]. vm_compute in Hv. discriminate Hv.
    + vm_compute. eauto.
  - apply federated_learning_ready_cases.
    + intros [[v Hv] _]. vm_compute in Hv. discriminate Hv.
    + vm_compute. reflexivity.
Defined.

End PrivacyProofs.

(** ** Explainability *)

Section ExplainProofs.
Import Explainability.

Lemma keyed_spec items ks :
  keyed items = Ok ks →
  snd <$> ks = items
  ∧ Forall (λ kx, fst kx = magnitude (snd kx)
                  ∧ is_Some (to_float (snd (snd kx)))) ks.
Proof.
  revert ks. induction items as [| x rest IH]; intros ks; cbn [keyed].
  - intros [= <-]. split; [reflexivity | constructor].
  - unfold abs_key, magnitude.
    destruct (to_float (snd x)) as [q |] eqn:Hq; [| discriminate].
    destruct (keyed rest) as [ks' |]; [| discriminate].
    intros [= <-]. destruct (IH ks' eq_refl) as [Hsnd Hall].
    split; [cbn; by rewrite Hsnd |].
    constructor; [| exact Hall]. cbn. rewrite Hq. eauto.
Qed.

Lemma keyed_raises items e :
  keyed items = Raise e →
  e = Exception "TypeError" "bad operand type for abs()"
  ∧ ∃ x, x ∈ items ∧ to_float (snd x) = None.
Proof.
  induction items as [| x rest IH]; cbn [keyed]; [discriminate |].
  unfold abs_key.
  destruct (to_float (snd x)) as [q |] eqn:Hq.
  - destruct (keyed rest) as [ks' | e']; [discriminate |].
    intros [= <-]. destruct (IH eq_refl) as (He & y & Hy & Hnone).
    split; [exact He |]. exists y. split; [by right | exact Hnone].
  - intros [= <-]. split; [reflexivity |]. exists x. split; [by left | exact Hq].
Qed.

Lemma keyed_total items :
  Forall (λ x, is_Some (to_float (snd x))) items → ∃ ks, keyed items = Ok ks.
Proof.
  induction 1 as [| x rest [q Hq] _ [ks Hks]]; cbn [keyed]; [eauto |].
  unfold abs_key. rewrite Hq, Hks. eauto.
Qed.

Lemma insert_desc_perm x l : insert_desc x l ≡ₚ x :: l.
Proof.
  induction l as [| y ys IH]; cbn [insert_desc]; [reflexivity |].
  destruct (Qle_bool (fst y) (fst x)); [reflexivity |].
  rewrite IH. apply Permutation_swap.
Qed.

Lemma sort_desc_perm l : sort_desc l ≡ₚ l.
Proof.
  unfold sort_desc. induction l as [| x l IH]; cbn [foldr]; [reflexivity |].
  by rewrite insert_desc_perm, IH.
Qed.

Lemma insert_desc_sorted x l :
  StronglySorted before l → StronglySorted before (insert_desc x l).
Proof.
  induction 1 as [| y ys Hsorted IH Hall]; cbn [insert_desc].
  - repeat constructor.
  - destruct (Qle_bool (fst y) (fst x)) eqn:Hle.
    + apply Qle_bool_iff in Hle. constructor; [by constructor |].
      constructor; [exact Hle |].
      eapply Forall_impl; [exact Hall |].
      intros z Hz. unfold before in *. by apply (Qle_trans _ (fst y)).
    + constructor; [exact IH |].
      rewrite insert_desc_perm. constructor; [| exact Hall].
      unfold before. apply Qlt_le_weak, Qnot_le_lt. intros H.
      apply Qle_bool_iff in H. congruence.
Qed.

Lemma sort_desc_sorted l : StronglySorted before (sort_desc l).
Proof.
  unfold sort_desc. induction l as [| x l IH]; cbn [foldr]; [constructor |].
  by apply insert_desc_sorted.
Qed.

Lemma sorted_take_drop (l : list (Q * Item)) n a b :
  StronglySorted before l → a ∈ take n l → b ∈ drop n l → before a b.
Proof.
  intros Hs. rewrite <- (take_drop n l) in Hs.
  by apply StronglySorted_app_1_elem_of.
Qed.

Lemma sorted_items (ks : list (Q * Item)) :
  Forall (λ kx, fst kx = magnitude (snd kx)) ks →
  StronglySorted before ks → StronglySorted outweighs (snd <$> ks).
Proof.
  intros Hall Hs. induction Hs as [| kx ks Hs IH Hfirst]; cbn; [constructor |].
  apply Forall_cons in Hall as [Hk Hall].
  constructor; [by apply IH |].
  rewrite Forall_fmap. rewrite Forall_forall in Hall, Hfirst.
  apply Forall_forall. intros ky Hy. unfold outweighs, before in *. cbn.
  rewrite <- Hk, <- (Hall ky Hy). by apply Hfirst.
Qed.

Lemma top_features_largest_cases (items : list Item) :
  (Forall (λ x, is_Some (to_float (snd x))) items →
   ∃ top rest,
     top_features_of items = Ok top
     ∧ (top ++ rest)%list ≡ₚ items
     ∧ length top = min 3 (length items)
     ∧ StronglySorted outweighs top
     ∧ ∀ a b, a ∈ top → b ∈ rest → outweighs a b)
  ∧ (∀ x, x ∈ items → to_float (snd x) = None →
          top_features_of items
          = Raise (Exception "TypeError" "bad operand type for abs()")).
Proof.
  split.
  - intros Hnum. destruct (keyed_total items Hnum) as [ks Hks].
    destruct (keyed_spec items ks Hks) as [Hsnd Hkeys].
    unfold top_features_of. rewrite Hks.
    set (sorted := sort_desc ks).
    assert (Hperm : sorted ≡ₚ ks) by apply sort_desc_perm.
    assert (Hsorted : StronglySorted outweighs (snd <$> sorted)).
    { apply sorted_items; [| apply sort_desc_sorted].
      rewrite Hperm. eapply Forall_impl; [exact Hkeys |]. by intros kx [Hk _]. }
    exists (take 3 (snd <$> sorted)), (drop 3 (snd <$> sorted)).
    split; [reflexivity |]. rewrite take_drop.
    split; [by rewrite Hperm, Hsnd |]. split.
    + rewrite length_take, length_fmap, Hperm, <- Hsnd, length_fmap. lia.
    + rewrite <- (take_drop 3 (snd <$> sorted)) in Hsorted.
      split; [by apply StronglySorted_app_1_l in Hsorted |].
      intros a b Ha Hb. by apply (StronglySorted_app_1_elem_of _ _ _ _ _ Hsorted).
  - intros x Hx Hnone. unfold top_features_of.
    destruct (keyed items) as [ks | e] eqn:Hks.
    + destruct (keyed_spec items ks Hks) as [Hsnd Hkeys].
      rewrite <- Hsnd in Hx. apply list_elem_of_fmap in Hx as (kx & -> & Hkx).
      rewrite Forall_forall in Hkeys.
      destruct (Hkeys kx Hkx) as [_ [q Hq]]. congruence.
    + by destruct (keyed_raises items e Hks) as [-> _].
Qed.

(** X20. The top factors of an explanation, when every importance is a
    number: they are the first three of the items sorted by the size of
    the importance, largest first (all of them when there are fewer);
    together with the items left out they are the items given; and no
    item left out is larger than one kept. If an importance is not a
    number, [TypeError] is raised. *)
Theorem top_features_largest (items : list Item) :
  (Forall (λ x, is_Some (to_float (snd x))) items →
   ∃ top rest,
     top_features_of items = Ok top
     ∧ (top ++ rest)%list ≡ₚ items
     ∧ length top = min 3 (length items)
     ∧ StronglySorted outweighs top
     ∧ ∀ a b, a ∈ top → b ∈ rest → outweighs a b)
  ∧ (∀ x, x ∈ items → to_float (snd x) = None →
          top_features_of items
          = Raise (Exception "TypeError" "bad operand type for abs()")).
Proof. exact (top_features_largest_cases items). Qed.

Lemma top_features_largest_witness :
  let items : list Item :=
    [("age", PyFloat (1 # 10)); ("income", PyFloat (-(9 # 10)));
     ("tenure", PyInt 0); ("debt", PyFloat (1 # 2));
     ("region", PyFloat (3 # 10))] in
  (∃ top rest,
     top_features_of items = Ok top
     ∧ (top ++ rest)%list ≡ₚ items
     ∧ length top = min 3 (length items)
     ∧ StronglySorted outweighs top
     ∧ ∀ a b, a ∈ top → b ∈ rest → outweighs a b)
  ∧ top_features_of items
    = Ok [("income", PyFloat (-(9 # 10))); ("debt", PyFloat (1 # 2));
          ("region", PyFloat (3 # 10))]
  ∧ top_features_of [("age", PyStr "high")]
    = Raise (Exception "TypeError" "bad operand type for abs()").
Proof.
  intros items. split; [| split].
  - destruct (top_features_largest items) as [Hsel _].
    apply Hsel. repeat constructor; cbn; eauto.
  - vm_compute. reflexivity.
  - destruct (top_features_largest [("age", PyStr "high")]) as [_ Hraise].
    apply (Hraise ("age", PyStr "high")); [apply list_elem_of_here | reflexivity].
Defined.

Lemma top_features_length items top :
  top_features_of items = Ok top → length top = min 3 (length items).
Proof.
  unfold top_features_of. destruct (keyed items) as [ks |] eqn:Hks; [| discriminate].
  intros [= <-]. destruct (keyed_spec items ks Hks) as [Hsnd _].
  rewrite length_take, length_fmap, sort_desc_perm, <- Hsnd, length_fmap. lia.
Qed.

Lemma top_features_numeric items top :
  top_features_of items = Ok top →
  Forall (λ x, is_Some (to_float (snd x))) top.
Proof.
  unfold top_features_of. destruct (keyed items) as [ks |] eqn:Hks; [| discriminate].
  intros [= <-]. destruct (keyed_spec items ks Hks) as [_ Hkeys].
  apply Forall_take, Forall_fmap. rewrite sort_desc_perm.
  eapply Forall_impl; [exact Hkeys |]. by intros kx [_ H].
Qed.

Lemma confidence_of_cases (n : nat) :
  (n ≤ 3)%nat →
  confidence_of n = if (3 <=? n)%nat then (3 # 5)%Q else (1 # 2)%Q.
Proof.
  intros Hn. do 4 (destruct n as [| n]; [reflexivity |]). lia.
Qed.

Section ExplainTexts.
Variable format_2f : Q → string.
Variable py_str : PyVal → string.

#[local] Abbreviation explain := (generate_explanation format_2f py_str).
#[local] Abbreviation sentence :=
  (_generate_natural_language_explanation format_2f).

(** X21. The sentence on the primary factor, whose importance is the
    number [q]: the factor is said to influence the outcome "positively"
    when [q] is above 0.5 and "somewhat" otherwise, also when [q] is
    strongly negative. "negatively" is never said; the sentence never
    raises on numbers. *)
Theorem explanation_direction (prediction : Q) (factor : string)
    (importance : PyVal) (q : Q) (others : list Item) :
  to_float importance = Some q →
  let explanation :=
    "The prediction of " ++ format_2f prediction
    ++ " is primarily driven by " ++ factor ++ ", which "
    ++ (if Qlt_bool (1 # 2) q then "positively" else "somewhat")
    ++ " influences the outcome." in
  sentence prediction ((factor, importance) :: others)
  = Ok match others with
       | (secondary, _) :: _ =>
           explanation ++ " Additionally, " ++ secondary
           ++ " plays a secondary role."
       | [] => explanation
       end.
Proof.
  intros Hq explanation. subst explanation.
  unfold _generate_natural_language_explanation, py_gt. rewrite Hq.
  assert (Hpos : Qlt_bool (1 # 2) q = true → Qlt_bool 0 q = true).
  { unfold Qlt_bool. rewrite !negb_true_iff. intros Hhalf.
    destruct (Qle_bool q 0) eqn:Hzero; [| reflexivity].
    apply Qle_bool_iff in Hzero.
    assert (Hle : (q <= 1 # 2)%Q) by lra.
    apply Qle_bool_iff in Hle. congruence. }
  destruct (Qlt_bool (1 # 2) q) eqn:Hhalf.
  - rewrite (Hpos eq_refl). by destruct others as [| [secondary v] rest].
  - by destruct others as [| [secondary v] rest].
Qed.

Lemma sentence_total prediction top :
  Forall (λ x, is_Some (to_float (snd x))) top →
  ∃ text, sentence prediction top = Ok text.
Proof.
  destruct top as [| [factor importance] others]; [by eexists |].
  intros [[q Hq] _]%Forall_cons.
  unfold _generate_natural_language_explanation, py_gt. cbn [snd] in Hq.
  rewrite Hq.
  destruct (Qlt_bool (1 # 2) q), (Qlt_bool 0 q), others as [| [? ?] ?]; eauto.
Qed.

Lemma size_top_factors (top : list Item) :
  (size (py_dict top) ≤ length top)%nat.
Proof.
  unfold py_dict. rewrite <- (length_reverse top).
  induction (reverse top) as [| [k v] rest IH]; cbn [list_to_map foldr length].
  - by rewrite map_size_empty.
  - cbn. rewrite map_size_insert.
    destruct ((list_to_map rest : Dict) !! k); cbn; lia.
Qed.

Lemma explain_run self now prediction input_features feature_importance :
  let run := explain self now prediction input_features feature_importance in
  match fst run with
  | Raise e =>
      snd run = self
      ∧ ((e = Exception "TypeError" "bad operand type for abs()"
          ∧ ∃ x, x ∈ feature_importance ∧ to_float (snd x) = None)
         ∨ (e = Exception "AttributeError" "object has no attribute 'get'"
            ∧ Forall (λ x, is_Some (to_float (snd x))) feature_importance
            ∧ feature_importance ≠ []
            ∧ ∀ d, input_features ≠ PyDict d))
  | Ok result =>
      ∃ top,
        top_features_of feature_importance = Ok top
        ∧ (feature_importance = [] ∨ ∃ d, input_features = PyDict d)
        ∧ explanation_log (snd run) = (explanation_log self ++ [result])%list
        ∧ explanations_generated (snd run) = S (explanations_generated self)
        ∧ result !! "prediction" = Some (PyFloat prediction)
        ∧ result !! "top_factors" = Some (PyDict (py_dict top))
        ∧ result !! "confidence"
          = Some (PyFloat (if (3 <=? length feature_importance)%nat
                           then 3 # 5 else 1 # 2))
  end.
Proof.
  unfold generate_explanation.
  destruct (top_features_of feature_importance) as [top | e] eqn:Htop.
  - pose proof (top_features_length _ _ Htop) as Hlen.
    pose proof (top_features_numeric _ _ Htop) as Hnum.
    destruct (sentence_total prediction top Hnum) as [text Htext].
    rewrite Htext.
    assert (Hall : Forall (λ x, is_Some (to_float (snd x))) feature_importance).
    { apply Forall_forall. intros x Hx.
      destruct (to_float (snd x)) as [q |] eqn:Hq; [eauto |].
      destruct (top_features_largest_cases feature_importance) as [_ Hraise].
      rewrite (Hraise x Hx Hq) in Htop. discriminate. }
    destruct top as [| [factor importance] others]; cbn [_generate_counterfactual].
    + cbn [fst snd]. exists []. split; [reflexivity |].
      split; [left; destruct feature_importance; [done | cbn in Hlen; lia] |].
      split; [reflexivity |]. split; [reflexivity |].
      split; [by simplify_map_eq |]. split; [by simplify_map_eq |].
      destruct feature_importance; [by simplify_map_eq | cbn in Hlen; lia].
    + destruct input_features as [| b | z | q | s | l | d | id];
        cbn [fst snd];
        try (split; [reflexivity |]; right; split; [reflexivity |];
             split; [exact Hall |];
             split; [by intros -> | by intros d']).
      exists ((factor, importance) :: others). split; [reflexivity |].
      split; [right; eauto |].
      split; [reflexivity |]. split; [reflexivity |].
      split; [by simplify_map_eq |]. split; [by simplify_map_eq |].
      rewrite lookup_insert_ne by done. rewrite lookup_insert_eq.
      rewrite confidence_of_cases by lia. rewrite Hlen.
      do 2 f_equal.
      destruct (Nat.leb_spec 3 (length feature_importance)),
               (Nat.leb_spec 3 (3 `min` length feature_importance));
        (reflexivity || lia).
  - cbn [fst snd]. split; [reflexivity |]. left.
    unfold top_features_of in Htop.
    destruct (keyed feature_importance) as [ks | e'] eqn:Hks; [discriminate |].
    injection Htop as <-. exact (keyed_raises _ _ Hks).
Qed.


Lemma run_call_consistent self c :
  consistent self →
  consistent (run_call format_2f py_str self c)
  ∧ (length (explanation_log (run_call format_2f py_str self c))
     ≤ S (length (explanation_log self)))%nat.
Proof.
  intros [Hcount Hlog]. unfold run_call.
  pose proof (explain_run self (call_now c) (call_prediction c)
                (call_features c) (call_importance c)) as Hrun.
  cbv zeta in Hrun.
  destruct (fst (explain self (call_now c) (call_prediction c)
                   (call_features c) (call_importance c)))
    as [result | e].
  - destruct Hrun as (top & Htop & _ & Hlog' & Hcount' & _ & Hfactors & Hconf).
    split; [split |].
    + rewrite Hcount', Hlog', length_app, Hcount. cbn. lia.
    + rewrite Hlog'. apply Forall_app. split; [exact Hlog |].
      constructor; [| constructor]. split.
      * rewrite Hconf. destruct (3 <=? _)%nat; eauto.
      * eexists. split; [exact Hfactors |].
        pose proof (size_top_factors top). 
        pose proof (top_features_length _ _ Htop). lia.
    + rewrite Hlog', length_app. cbn. lia.
  - destruct Hrun as [-> _]. split; [by split | lia].
Qed.

Lemma after_calls_consistent calls :
  consistent (after_calls format_2f py_str calls)
  ∧ (length (explanation_log (after_calls format_2f py_str calls))
     ≤ length calls)%nat.
Proof.
  unfold after_calls.
  induction calls as [| c calls IH] using rev_ind.
  - cbn. split; [split; [reflexivity | constructor] | lia].
  - rewrite foldl_app. cbn [foldl]. destruct IH as [Hinv Hlen].
    destruct (run_call_consistent _ c Hinv) as [Hinv' Hlen'].
    split; [exact Hinv' |]. rewrite length_app. cbn. lia.
Qed.
End ExplainTexts.

Lemma sum_confidence_bounds (log : list Dict) :
  Forall logged_ok log →
  ∃ total, sum_confidence log = Ok total
    ∧ ((1 # 2) * inject_Z (Z.of_nat (length log)) <= total)%Q
    ∧ (total <= (3 # 5) * inject_Z (Z.of_nat (length log)))%Q.
Proof.
  induction 1 as [| e log [Hconf _] _ (total & Htotal & Hlow & Hhigh)].
  - exists 0%Q. split; [reflexivity |].
    change (inject_Z (Z.of_nat (length (@nil Dict)))) with 0%Q. split; lra.
  - cbn [sum_confidence length]. rewrite Htotal. unfold dict_get.
    rewrite Nat2Z.inj_succ, <- Z.add_1_r, inject_Z_plus.
    change (inject_Z 1) with 1%Q.
    destruct Hconf as [-> | ->]; cbn [to_float];
      eexists; (split; [reflexivity |]); split; lra.
Qed.

Lemma sum_factors_bounds (log : list Dict) :
  Forall logged_ok log →
  ∃ factors, sum_factors log = Ok factors ∧ (factors ≤ 3 * length log)%nat.
Proof.
  induction 1 as [| e log [_ (d & Hd & Hsize)] _ (factors & Hfactors & Hle)].
  - exists 0%nat. split; [reflexivity | cbn; lia].
  - cbn [sum_factors length]. rewrite Hfactors. unfold dict_get. rewrite Hd.
    cbn [py_len]. eexists. split; [reflexivity | lia].
Qed.

Lemma audit_consistent (self : ExplainabilityModule) :
  Forall logged_ok (explanation_log self) →
  match audit_explanation_quality self with
  | Ok NoExplanations => explanation_log self = []
  | Ok (Quality total avg_confidence avg_factors quality) =>
      total = length (explanation_log self)
      ∧ (0 < total)%nat
      ∧ (1 # 2 <= avg_confidence)%Q
      ∧ (0 <= avg_factors)%Q ∧ (avg_factors <= 3)%Q
      ∧ quality = "fair"
  | Raise _ => False
  end.
Proof.
  intros Hlog. unfold audit_explanation_quality.
  destruct (sum_confidence_bounds _ Hlog) as (total & -> & Hlow & Hhigh).
  destruct (sum_factors_bounds _ Hlog) as (factors & -> & Hle).
  destruct (explanation_log self) as [| e log] eqn:Hshape; [reflexivity |].
  set (n := inject_Z (Z.of_nat (length (e :: log)))) in *.
  assert (Hn : (0 < n)%Q).
  { subst n. change 0%Q with (inject_Z 0). rewrite <- Zlt_Qlt. cbn. lia. }
  assert (Hf : (inject_Z (Z.of_nat factors) <= 3 * n)%Q).
  { subst n. change 3%Q with (inject_Z 3). rewrite <- inject_Z_mult.
    rewrite <- Zle_Qle. lia. }
  assert (Hf0 : (0 <= inject_Z (Z.of_nat factors))%Q).
  { change 0%Q with (inject_Z 0). rewrite <- Zle_Qle. lia. }
  assert (Hup : (total / n <= 3 # 5)%Q) by (apply Qle_shift_div_r; lra).
  split; [reflexivity |]. split; [cbn; lia |].
  split; [apply Qle_shift_div_l; lra |].
  split; [apply Qle_shift_div_l; lra |].
  split; [apply Qle_shift_div_r; lra |].
  unfold Qlt_bool.
  assert (Hle' : Qle_bool (total / n) (7 # 10) = true)
    by (apply Qle_bool_iff; lra).
  by rewrite Hle'.
Qed.

(** X23. After any sequence of calls of [generate_explanation] on a fresh
    module, of which some may have raised: the counter is the length of
    the log, the log has at most one entry per call, and
    [audit_explanation_quality] does not raise; with a log that is not
    empty it counts the entries and reports an average confidence of at
    least 0.5, between 0 and 3 factors on average, and the quality
    "fair", never "good": no logged confidence is above 0.6, and "good"
    needs an average above 0.7. *)
Theorem explanation_quality_never_good (format_2f : Q → string)
    (py_str : PyVal → string) (calls : list Call) :
  let self := after_calls format_2f py_str calls in
  explanations_generated self = length (explanation_log self)
  ∧ (length (explanation_log self) ≤ length calls)%nat
  ∧ match audit_explanation_quality self with
    | Ok NoExplanations => explanation_log self = []
    | Ok (Quality total avg_confidence avg_factors quality) =>
        total = length (explanation_log self)
        ∧ (0 < total)%nat
        ∧ (1 # 2 <= avg_confidence)%Q
        ∧ (0 <= avg_factors)%Q ∧ (avg_factors <= 3)%Q
        ∧ quality = "fair"
    | Raise _ => False
    end.
Proof.
  intros self.
  destruct (after_calls_consistent format_2f py_str calls)
    as [[Hcount Hlog] Hlen].
  split; [exact Hcount |]. split; [exact Hlen |].
  by apply audit_consistent.
Qed.

Lemma explanation_direction_witness :
  let format_2f := λ _ : Q, "0.80" in
  let explanation :=
    "The prediction of " ++ format_2f (4 # 5)
    ++ " is primarily driven by " ++ "income" ++ ", which "
    ++ (if Qlt_bool (1 # 2) (-(9 # 10)) then "positively" else "somewhat")
    ++ " influences the outcome." in
  _generate_natural_language_explanation format_2f (4 # 5)
    [("income", PyFloat (-(9 # 10))); ("debt", PyFloat (1 # 2))]
  = Ok (explanation ++ " Additionally, " ++ "debt"
        ++ " plays a secondary role.").
Proof.
  exact (explanation_direction (λ _ : Q, "0.80") (4 # 5) "income"
           (PyFloat (-(9 # 10))) (-(9 # 10)) [("debt", PyFloat (1 # 2))]
           eq_refl).
Defined.

End ExplainProofs.
